(** * Campus Navigator: the hierarchy store of [utils/data_manager.py]

    A shallow embedding of [DataManager]: the validator ([validate_csv]),
    the two importers ([_process_simple_format], [_process_standard_format]),
    the exporter ([export_to_csv]) and the query engine ([search]).

    Conventions of the embedding.
    - A table ([pandas.DataFrame]) is its list of column names and its rows,
      each row the list of its cells in column order.
    - A cell is either missing ([NaN], what [read_csv] gives for a blank
      field) or a text.  Identifiers and names are texts (the data model
      has string identifiers); a numeric cell is carried as its text.
      Texts are ASCII: [lower] and [strip] act on that range.
      Where a property depends on a cell being a text for the program too
      (its truth value, the way it prints in a node name, the [.str]
      accessor of its column), the statement asks for a [word]: a text that
      [read_csv] keeps as it is, whatever else the column holds.
    - Python dictionaries keyed by identifier are insertion-ordered
      association lists; entity dictionaries with a fixed key set are
      records.
    - A raised exception leaves the object as mutated so far: the importers
      return an [outcome] holding the manager and, possibly, the exception.
    - The builtins [hash] and [float] belong to the interpreter and are
      parameters of the importer: a [Builtins] is the interpreter at one
      moment.  Two moments of one session agree on texts ([same_session]);
      the hash of a missing value is that of the object at hand and need
      not be the same twice. *)

From Stdlib Require Import String Ascii List ZArith Bool Lia.
Import ListNotations.
Open Scope string_scope.

(** ** Texts *)

Definition lower_ascii (a : ascii) : ascii :=
  let n := nat_of_ascii a in
  if (65 <=? n)%nat && (n <=? 90)%nat then ascii_of_nat (n + 32) else a.

Fixpoint lower (s : string) : string :=
  match s with
  | EmptyString => EmptyString
  | String a s' => String (lower_ascii a) (lower s')
  end.

(** [q in t] on Python strings. *)
Fixpoint str_in (q t : string) : bool :=
  String.prefix q t ||
  match t with
  | EmptyString => false
  | String _ t' => str_in q t'
  end.

(** Whitespace as [str.strip] removes it (ASCII range). *)
Definition is_space (a : ascii) : bool :=
  let n := nat_of_ascii a in
  ((9 <=? n)%nat && (n <=? 13)%nat) || ((28 <=? n)%nat && (n <=? 32)%nat).

(** [s.strip() == ''] *)
Fixpoint strip_is_empty (s : string) : bool :=
  match s with
  | EmptyString => true
  | String a s' => is_space a && strip_is_empty s'
  end.

(** [sep.join(l)] *)
Fixpoint join (sep : string) (l : list string) : string :=
  match l with
  | [] => ""
  | [x] => x
  | x :: l' => x ++ sep ++ join sep l'
  end.

(** ** Cells *)

Inductive cell : Type :=
| NaN
| Str (s : string).

Definition cell_eqb (a b : cell) : bool :=
  match a, b with
  | NaN, NaN => true
  | Str s, Str t => String.eqb s t
  | _, _ => false
  end.

(** [str(v)]: a missing value prints as [nan]. *)
Definition py_str (c : cell) : string :=
  match c with
  | NaN => "nan"
  | Str s => s
  end.

(** Truth value of a cell in a condition: [nan] is a non-zero float, hence
    true; a text is true unless empty.  (A cell that the program holds as
    the number zero is false there: the statements that rest on the truth
    value of a reference take it blank or a [word].) *)
Definition truthy (c : cell) : bool :=
  match c with
  | NaN => true
  | Str s => negb (s =? "")
  end.

(** ** Tables *)

Record DataFrame : Type := mkDF {
  columns : list string;
  rows : list (list cell)
}.

Definition has_column (df : DataFrame) (c : string) : bool :=
  existsb (String.eqb c) (columns df).

(** [row.get(c)]: [None] when the table has no column [c]; a row shorter
    than the header is padded with missing values, as [read_csv] does. *)
Fixpoint row_get (cols : list string) (r : list cell) (c : string) : option cell :=
  match cols with
  | [] => None
  | k :: cols' =>
      if String.eqb k c then Some (hd NaN r) else row_get cols' (tl r) c
  end.

(** [row.get(c, '')] *)
Definition row_get_default (cols : list string) (r : list cell) (c : string) : cell :=
  match row_get cols r c with
  | Some v => v
  | None => Str ""
  end.

(** [df.empty] *)
Definition df_empty (df : DataFrame) : bool :=
  match columns df, rows df with
  | [], _ => true
  | _, [] => true
  | _, _ => false
  end.

(** ** Duplicates, as pandas counts them (missing values equal each other) *)

Definition cell_mem (x : cell) (l : list cell) : bool := existsb (cell_eqb x) l.

(** [s.duplicated().any()] *)
Fixpoint has_dup (l : list cell) : bool :=
  match l with
  | [] => false
  | x :: l' => cell_mem x l' || has_dup l'
  end.

Definition count_cell (x : cell) (l : list cell) : nat :=
  length (filter (cell_eqb x) l).

(** [s.unique()]: first occurrences, in order. *)
Fixpoint unique_from (seen : list cell) (l : list cell) : list cell :=
  match l with
  | [] => []
  | x :: l' =>
      if cell_mem x seen then unique_from seen l'
      else x :: unique_from (x :: seen) l'
  end.

Definition unique (l : list cell) : list cell := unique_from [] l.

(** [df[df[c].duplicated(keep=False)][c].unique()] *)
Definition dupes (l : list cell) : list cell :=
  unique (filter (fun x => (2 <=? count_cell x l)%nat) l).

(** ** Python values stored next to cells *)

(** A value of an entity dictionary or of a node attribute: a cell passed
    through, an [int], or the [float] read from a text (kept as that text). *)
Inductive value : Type :=
| VCell (c : cell)
| VInt (z : Z)
| VFloat (lit : string).

(** The interpreter's builtins used by the importer, at one moment of a
    session: [hash(v)], and whether [float(s)] accepts the text [s] (it
    raises [ValueError] otherwise).  The hash of a text is the same
    throughout a session; the hash of a missing value is the hash of the
    [nan] object met at that moment. *)
Record Builtins : Type := mkBuiltins {
  py_hash : cell -> Z;
  py_float_ok : string -> bool
}.

(** ** Insertion-ordered dictionaries *)

Section Dict.
Context {V : Type}.

(** [d[k] = v]: an existing key keeps its place. *)
Fixpoint dict_set (k : cell) (v : V) (d : list (cell * V)) : list (cell * V) :=
  match d with
  | [] => [(k, v)]
  | (k', v') :: d' =>
      if cell_eqb k' k then (k', v) :: d' else (k', v') :: dict_set k v d'
  end.

(** [d.get(k)] *)
Fixpoint dict_get (k : cell) (d : list (cell * V)) : option V :=
  match d with
  | [] => None
  | (k', v') :: d' => if cell_eqb k' k then Some v' else dict_get k d'
  end.

(** [list(d.keys())] *)
Definition dict_keys (d : list (cell * V)) : list cell := map fst d.

(** [list(d.values())] *)
Definition dict_values (d : list (cell * V)) : list V := map snd d.
End Dict.

(** ** Entities *)

Record Department : Type := mkDepartment {
  dept_id : cell;
  dept_name : cell;
  dept_description : cell
}.

(** [x], [y] are present only on buildings and floors of the simple format. *)
Record Building : Type := mkBuilding {
  building_id : cell;
  building_department_id : cell;
  building_name : cell;
  building_x : option value;
  building_y : option value;
  building_description : cell
}.

Record Floor : Type := mkFloor {
  floor_id : cell;
  floor_building_id : cell;
  floor_name : cell;
  floor_description : cell;
  floor_x : option value;
  floor_y : option value
}.

Record Room : Type := mkRoom {
  room_id : cell;
  room_floor_id : cell;
  room_name : cell;
  room_type : cell;
  room_description : cell;
  room_capacity : value;
  room_x : value;
  room_y : value;
  room_facilities : cell;
  room_accessibility : cell
}.

(** ** The graph ([networkx.DiGraph]) *)

Definition attrs : Type := list (string * value).

Record DiGraph : Type := mkGraph {
  nodes : list (string * attrs);
  edges : list (string * string)
}.

Definition empty_graph : DiGraph := mkGraph [] [].

(** [n in g] *)
Definition has_node (g : DiGraph) (n : string) : bool :=
  existsb (fun p => String.eqb (fst p) n) (nodes g).

Definition has_edge (g : DiGraph) (u v : string) : bool :=
  existsb (fun e => String.eqb (fst e) u && String.eqb (snd e) v) (edges g).

(** [old.update(new)] on attribute dictionaries. *)
Fixpoint attr_set (k : string) (v : value) (a : attrs) : attrs :=
  match a with
  | [] => [(k, v)]
  | (k', v') :: a' =>
      if String.eqb k' k then (k', v) :: a' else (k', v') :: attr_set k v a'
  end.

Definition attrs_update (old new : attrs) : attrs :=
  fold_left (fun acc kv => attr_set (fst kv) (snd kv) acc) new old.

Fixpoint update_node (n : string) (a : attrs) (l : list (string * attrs))
  : list (string * attrs) :=
  match l with
  | [] => []
  | (m, b) :: l' =>
      if String.eqb m n then (m, attrs_update b a) :: l'
      else (m, b) :: update_node n a l'
  end.

(** [g.add_node(n, **a)] *)
Definition add_node (g : DiGraph) (n : string) (a : attrs) : DiGraph :=
  if has_node g n
  then mkGraph (update_node n a (nodes g)) (edges g)
  else mkGraph (nodes g ++ [(n, a)]) (edges g).

(** [g.add_edge(u, v)]: both ends become nodes if they are not yet. *)
Definition add_edge (g : DiGraph) (u v : string) : DiGraph :=
  let g1 := if has_node g u then g else mkGraph (nodes g ++ [(u, [])]) (edges g) in
  let g2 := if has_node g1 v then g1 else mkGraph (nodes g1 ++ [(v, [])]) (edges g1) in
  if has_edge g2 u v then g2 else mkGraph (nodes g2) (edges g2 ++ [(u, v)]).

(** Sources of the edges into [v], in insertion order ([g.predecessors(v)]). *)
Definition predecessors (g : DiGraph) (v : string) : list string :=
  map fst (filter (fun e => String.eqb (snd e) v) (edges g)).

(** ** The manager *)

Record DataManager : Type := mkDM {
  df : DataFrame;
  graph : DiGraph;
  departments : list (cell * Department);
  buildings : list (cell * Building);
  floors : list (cell * Floor);
  rooms : list (cell * Room);
  required_columns : list string
}.

Definition standard_columns : list string :=
  ["department_id"; "department_name";
   "building_id"; "building_name";
   "floor_id"; "floor_name";
   "room_id"; "room_name"; "room_type";
   "capacity"; "x_coordinate"; "y_coordinate"].

Definition optional_columns : list string :=
  ["department_description"; "building_description";
   "floor_description"; "room_description";
   "room_facilities"; "accessibility"].

Definition simple_format_columns : list string :=
  ["type"; "id"; "name"; "building_id"; "description"; "x"; "y"].

Definition set_required_columns (dm : DataManager) (l : list string) : DataManager :=
  mkDM (df dm) (graph dm) (departments dm) (buildings dm) (floors dm) (rooms dm) l.

Definition set_graph (dm : DataManager) (g : DiGraph) : DataManager :=
  mkDM (df dm) g (departments dm) (buildings dm) (floors dm) (rooms dm)
       (required_columns dm).

Definition set_departments (dm : DataManager) (d : list (cell * Department)) : DataManager :=
  mkDM (df dm) (graph dm) d (buildings dm) (floors dm) (rooms dm) (required_columns dm).

Definition set_buildings (dm : DataManager) (d : list (cell * Building)) : DataManager :=
  mkDM (df dm) (graph dm) (departments dm) d (floors dm) (rooms dm) (required_columns dm).

Definition set_floors (dm : DataManager) (d : list (cell * Floor)) : DataManager :=
  mkDM (df dm) (graph dm) (departments dm) (buildings dm) d (rooms dm) (required_columns dm).

Definition set_rooms (dm : DataManager) (d : list (cell * Room)) : DataManager :=
  mkDM (df dm) (graph dm) (departments dm) (buildings dm) (floors dm) d (required_columns dm).

(** The store proper: the four mappings and the graph. *)
Definition store (dm : DataManager)
  : DiGraph * list (cell * Department) * list (cell * Building)
    * list (cell * Floor) * list (cell * Room) :=
  (graph dm, departments dm, buildings dm, floors dm, rooms dm).

(** ** Exceptions *)

Inductive exn : Type :=
| ValueError (msg : string)
| KeyError (key : string)
| AttributeError (msg : string).

(** [str(e)] *)
Definition exn_str (e : exn) : string :=
  match e with
  | ValueError msg => msg
  | KeyError key => "'" ++ key ++ "'"
  | AttributeError msg => msg
  end.

Inductive outcome : Type :=
| Done (dm : DataManager)
| Raised (dm : DataManager) (e : exn).

Definition final (o : outcome) : DataManager :=
  match o with
  | Done dm => dm
  | Raised dm _ => dm
  end.

Definition succeeded (o : outcome) : bool :=
  match o with
  | Done _ => true
  | Raised _ _ => false
  end.

(** [for _, row in rows: body], stopping at the first exception. *)
Fixpoint for_rows (body : DataManager -> list cell -> outcome)
         (dm : DataManager) (rs : list (list cell)) : outcome :=
  match rs with
  | [] => Done dm
  | r :: rs' =>
      match body dm r with
      | Done dm' => for_rows body dm' rs'
      | Raised dm' e => Raised dm' e
      end
  end.

(** Sequencing of two statements. *)
Definition and_then (o : outcome) (k : DataManager -> outcome) : outcome :=
  match o with
  | Done dm => k dm
  | Raised dm e => Raised dm e
  end.

(** ** [validate_csv] *)

Definition all_columns_in (cols : list string) (t : DataFrame) : bool :=
  forallb (has_column t) cols.

(** Values of a column that is there. *)
Definition col_values (t : DataFrame) (c : string) : list cell :=
  map (fun r => row_get_default (columns t) r c) (rows t).

Definition duplicate_message (c : string) (l : list cell) : string :=
  "Duplicate " ++ c ++ " values found: " ++ join ", " (map py_str (dupes l)).

(** The loop over the identifier columns of the standard format: the
    message for the first column that has a duplicate. *)
Fixpoint first_duplicate (t : DataFrame) (id_cols : list string) : option string :=
  match id_cols with
  | [] => None
  | c :: rest =>
      if has_dup (col_values t c)
      then Some (duplicate_message c (col_values t c))
      else first_duplicate t rest
  end.

Definition standard_id_columns : list string :=
  ["department_id"; "building_id"; "floor_id"; "room_id"].

Definition validate_csv (dm : DataManager) (t : DataFrame)
  : DataManager * (bool * string) :=
  let is_simple_format := all_columns_in simple_format_columns t in
  let is_standard_format := all_columns_in standard_columns t in
  if negb is_simple_format && negb is_standard_format then
    (dm, (false,
      "CSV format not recognized. Must include either standard columns or simplified columns."))
  else
    let dm1 := set_required_columns dm
                 (if is_simple_format then simple_format_columns
                  else standard_columns) in
    let missing_columns :=
      filter (fun c => negb (has_column t c)) (required_columns dm1) in
    match missing_columns with
    | _ :: _ =>
        (dm1, (false, "Missing required columns: " ++ join ", " missing_columns))
    | [] =>
        if is_standard_format then
          match first_duplicate t standard_id_columns with
          | Some msg => (dm1, (false, msg))
          | None => (dm1, (true, ""))
          end
        else if is_simple_format && has_dup (col_values t "id") then
          (dm1, (false, duplicate_message "id" (col_values t "id")))
        else (dm1, (true, ""))
    end.

(** ** [_process_simple_format] *)

(** [row[c]]: [KeyError] when the table has no column [c]. *)
Definition item (cols : list string) (r : list cell) (c : string)
           (dm : DataManager) (k : cell -> outcome) : outcome :=
  match row_get cols r c with
  | Some v => k v
  | None => Raised dm (KeyError c)
  end.

Definition is_text (c : cell) : bool :=
  match c with
  | Str _ => true
  | NaN => false
  end.

(** The [.str] accessor exists on a column of texts (or on an empty one);
    a column with only missing values is a float column and has none.  (Nor
    has a column read as numbers or booleans: the statement on when the
    accessor exists takes [type] cells that are words or blank.) *)
Definition str_accessor_ok (l : list cell) : bool :=
  match l with
  | [] => true
  | _ => existsb is_text l
  end.

(** [df[df['type'].str.lower() == kind]] *)
Definition rows_of_type (t : DataFrame) (kind : string) : list (list cell) :=
  filter (fun r => match row_get (columns t) r "type" with
                   | Some (Str s) => String.eqb (lower s) kind
                   | _ => false
                   end) (rows t).

(** Node names, [f"dept_{dept_id}"] and the like: the identifier as it
    prints.  (A number prints after its type, an integer [1] unlike the
    float [1.0] of a column with blanks: the statements on parent links take
    identifiers that are words.) *)
Definition dept_node (i : cell) : string := "dept_" ++ py_str i.
Definition building_node (i : cell) : string := "building_" ++ py_str i.
Definition floor_node (i : cell) : string := "floor_" ++ py_str i.
Definition room_node (i : cell) : string := "room_" ++ py_str i.

(** [ref if ref else 'unknown'], with the truth value of [truthy]. *)
Definition or_unknown (ref : cell) : cell :=
  if truthy ref then ref else Str "unknown".

(** [50 + (hash(key) % 40)] *)
Definition synthesized (py : Builtins) (key : cell) : value :=
  VInt (50 + (py_hash py key) mod 40).

(** The block repeated for [x] and [y] of buildings, floors and rooms:
    [float(raw)] when the cell is present, not blank and accepted by
    [float]; the synthesized value otherwise. *)
Definition coordinate (py : Builtins) (raw : option cell) (key : cell) : value :=
  match raw with
  | Some (Str s) =>
      if negb (strip_is_empty s)
      then if py_float_ok py s then VFloat s else synthesized py key
      else synthesized py key
  | _ => synthesized py key
  end.

Definition simple_department_row (cols : list string)
           (dm : DataManager) (r : list cell) : outcome :=
  item cols r "id" dm (fun dept_id =>
  item cols r "name" dm (fun dept_name =>
  let dept_desc := row_get_default cols r "description" in
  let g := add_node (graph dm) (dept_node dept_id)
             [("type", VCell (Str "department")); ("name", VCell dept_name);
              ("description", VCell dept_desc)] in
  let g := add_edge g "root" (dept_node dept_id) in
  Done (set_departments (set_graph dm g)
          (dict_set dept_id (mkDepartment dept_id dept_name dept_desc)
                    (departments dm))))).

Definition simple_building_row (py : Builtins) (cols : list string)
           (dm : DataManager) (r : list cell) : outcome :=
  item cols r "id" dm (fun building_id =>
  item cols r "name" dm (fun building_name =>
  let building_desc := row_get_default cols r "description" in
  let dept_id := row_get_default cols r "building_id" in
  let x_coord := coordinate py (row_get cols r "x") building_id in
  let y_coord := coordinate py (row_get cols r "y") building_name in
  let g := add_node (graph dm) (building_node building_id)
             [("type", VCell (Str "building")); ("name", VCell building_name);
              ("description", VCell building_desc);
              ("x", x_coord); ("y", y_coord)] in
  let g := if truthy dept_id && has_node g (dept_node dept_id)
           then add_edge g (dept_node dept_id) (building_node building_id)
           else add_edge g "root" (building_node building_id) in
  Done (set_buildings (set_graph dm g)
          (dict_set building_id
             (mkBuilding building_id (or_unknown dept_id) building_name
                         (Some x_coord) (Some y_coord) building_desc)
             (buildings dm))))).

Definition simple_floor_row (py : Builtins) (cols : list string)
           (dm : DataManager) (r : list cell) : outcome :=
  item cols r "id" dm (fun floor_id =>
  item cols r "name" dm (fun floor_name =>
  let floor_desc := row_get_default cols r "description" in
  let building_id := row_get_default cols r "building_id" in
  let x_coord := coordinate py (row_get cols r "x") floor_id in
  let y_coord := coordinate py (row_get cols r "y") floor_name in
  let g := add_node (graph dm) (floor_node floor_id)
             [("type", VCell (Str "floor")); ("name", VCell floor_name);
              ("description", VCell floor_desc);
              ("x", x_coord); ("y", y_coord)] in
  let g := if truthy building_id && has_node g (building_node building_id)
           then add_edge g (building_node building_id) (floor_node floor_id)
           else match dict_keys (buildings dm) with
                | first_building :: _ =>
                    add_edge g (building_node first_building) (floor_node floor_id)
                | [] => add_edge g "root" (floor_node floor_id)
                end in
  Done (set_floors (set_graph dm g)
          (dict_set floor_id
             (mkFloor floor_id (or_unknown building_id) floor_name floor_desc
                      (Some x_coord) (Some y_coord))
             (floors dm))))).

Definition simple_room_row (py : Builtins) (cols : list string)
           (dm : DataManager) (r : list cell) : outcome :=
  item cols r "id" dm (fun room_id =>
  item cols r "name" dm (fun room_name =>
  let room_desc := row_get_default cols r "description" in
  let floor_id := row_get_default cols r "building_id" in
  let room_type := Str "generic" in
  let capacity := VInt 40 in
  let x_coord := coordinate py (row_get cols r "x") room_id in
  let y_coord := coordinate py (row_get cols r "y") room_name in
  let g := add_node (graph dm) (room_node room_id)
             [("type", VCell (Str "room")); ("name", VCell room_name);
              ("room_type", VCell room_type);
              ("description", VCell room_desc);
              ("capacity", capacity);
              ("x", x_coord); ("y", y_coord);
              ("facilities", VCell (Str ""));
              ("accessibility", VCell (Str ""))] in
  let g := if truthy floor_id && has_node g (floor_node floor_id)
           then add_edge g (floor_node floor_id) (room_node room_id)
           else match dict_keys (floors dm) with
                | first_floor :: _ =>
                    add_edge g (floor_node first_floor) (room_node room_id)
                | [] =>
                    match dict_keys (buildings dm) with
                    | first_building :: _ =>
                        add_edge g (building_node first_building) (room_node room_id)
                    | [] => add_edge g "root" (room_node room_id)
                    end
                end in
  Done (set_rooms (set_graph dm g)
          (dict_set room_id
             (mkRoom room_id (or_unknown floor_id) room_name room_type room_desc
                     capacity x_coord y_coord (Str "") (Str ""))
             (rooms dm))))).

Definition _process_simple_format (py : Builtins) (dm : DataManager)
           (t : DataFrame) : outcome :=
  if negb (has_column t "type") then Raised dm (KeyError "type")
  else if negb (str_accessor_ok (col_values t "type")) then
    Raised dm (AttributeError "Can only use .str accessor with string values!")
  else
    let cols := columns t in
    and_then (for_rows (simple_department_row cols) dm (rows_of_type t "department"))
    (fun dm =>
    and_then (for_rows (simple_building_row py cols) dm (rows_of_type t "building"))
    (fun dm =>
    and_then (for_rows (simple_floor_row py cols) dm (rows_of_type t "floor"))
    (fun dm =>
    for_rows (simple_room_row py cols) dm (rows_of_type t "room")))).

(** ** [_process_standard_format] *)

Fixpoint drop_duplicates_from (seen : list cell) (cols : list string) (c : string)
         (rs : list (list cell)) : list (list cell) :=
  match rs with
  | [] => []
  | r :: rs' =>
      let k := row_get_default cols r c in
      if cell_mem k seen then drop_duplicates_from seen cols c rs'
      else r :: drop_duplicates_from (k :: seen) cols c rs'
  end.

(** [df.drop_duplicates(c)]: the first row of every value of column [c]. *)
Definition drop_duplicates (t : DataFrame) (c : string) : list (list cell) :=
  drop_duplicates_from [] (columns t) c (rows t).

(** [for _, row in df.drop_duplicates(c).iterrows(): body], with the
    [KeyError] of a column that is not there. *)
Definition for_unique (t : DataFrame) (c : string)
           (body : DataManager -> list cell -> outcome) (dm : DataManager) : outcome :=
  if has_column t c then for_rows body dm (drop_duplicates t c)
  else Raised dm (KeyError c).

Definition standard_department_row (cols : list string)
           (dm : DataManager) (r : list cell) : outcome :=
  item cols r "department_id" dm (fun dept_id =>
  item cols r "department_name" dm (fun dept_name =>
  let dept_desc := row_get_default cols r "department_description" in
  let g := add_node (graph dm) (dept_node dept_id)
             [("type", VCell (Str "department")); ("name", VCell dept_name);
              ("description", VCell dept_desc)] in
  let g := add_edge g "root" (dept_node dept_id) in
  Done (set_departments (set_graph dm g)
          (dict_set dept_id (mkDepartment dept_id dept_name dept_desc)
                    (departments dm))))).

Definition standard_building_row (cols : list string)
           (dm : DataManager) (r : list cell) : outcome :=
  item cols r "department_id" dm (fun dept_id =>
  item cols r "building_id" dm (fun building_id =>
  item cols r "building_name" dm (fun building_name =>
  let building_desc := row_get_default cols r "building_description" in
  let g := add_node (graph dm) (building_node building_id)
             [("type", VCell (Str "building")); ("name", VCell building_name);
              ("description", VCell building_desc)] in
  let g := add_edge g (dept_node dept_id) (building_node building_id) in
  Done (set_buildings (set_graph dm g)
          (dict_set building_id
             (mkBuilding building_id dept_id building_name None None building_desc)
             (buildings dm)))))).

Definition standard_floor_row (cols : list string)
           (dm : DataManager) (r : list cell) : outcome :=
  item cols r "building_id" dm (fun building_id =>
  item cols r "floor_id" dm (fun floor_id =>
  item cols r "floor_name" dm (fun floor_name =>
  let floor_desc := row_get_default cols r "floor_description" in
  let g := add_node (graph dm) (floor_node floor_id)
             [("type", VCell (Str "floor")); ("name", VCell floor_name);
              ("description", VCell floor_desc)] in
  let g := add_edge g (building_node building_id) (floor_node floor_id) in
  Done (set_floors (set_graph dm g)
          (dict_set floor_id
             (mkFloor floor_id building_id floor_name floor_desc None None)
             (floors dm)))))).

Definition standard_room_row (cols : list string)
           (dm : DataManager) (r : list cell) : outcome :=
  item cols r "floor_id" dm (fun floor_id =>
  item cols r "room_id" dm (fun room_id =>
  item cols r "room_name" dm (fun room_name =>
  item cols r "room_type" dm (fun room_type =>
  let room_desc := row_get_default cols r "room_description" in
  item cols r "capacity" dm (fun capacity =>
  item cols r "x_coordinate" dm (fun x_coord =>
  item cols r "y_coordinate" dm (fun y_coord =>
  let facilities := row_get_default cols r "room_facilities" in
  let accessibility := row_get_default cols r "accessibility" in
  let g := add_node (graph dm) (room_node room_id)
             [("type", VCell (Str "room")); ("name", VCell room_name);
              ("room_type", VCell room_type);
              ("description", VCell room_desc);
              ("capacity", VCell capacity);
              ("x", VCell x_coord); ("y", VCell y_coord);
              ("facilities", VCell facilities);
              ("accessibility", VCell accessibility)] in
  let g := add_edge g (floor_node floor_id) (room_node room_id) in
  Done (set_rooms (set_graph dm g)
          (dict_set room_id
             (mkRoom room_id floor_id room_name room_type room_desc
                     (VCell capacity) (VCell x_coord) (VCell y_coord)
                     facilities accessibility)
             (rooms dm)))))))))).

Definition _process_standard_format (dm : DataManager) (t : DataFrame) : outcome :=
  let cols := columns t in
  and_then (for_unique t "department_id" (standard_department_row cols) dm)
  (fun dm =>
  and_then (for_unique t "building_id" (standard_building_row cols) dm)
  (fun dm =>
  and_then (for_unique t "floor_id" (standard_floor_row cols) dm)
  (fun dm =>
  for_rows (standard_room_row cols) dm (rows t)))).

(** ** [_process_data], [import_from_csv], [import_from_file] *)

Definition root_graph : DiGraph :=
  add_node empty_graph "root"
    [("type", VCell (Str "root")); ("name", VCell (Str "Campus"))].

(** The manager after the reset at the head of [_process_data]. *)
Definition reset (dm : DataManager) (t : DataFrame) : DataManager :=
  mkDM t root_graph [] [] [] [] (required_columns dm).

(** Saving to the database comes last, inside a [try]; it reads the
    mappings and changes nothing in memory. *)
Definition _process_data (py : Builtins) (dm : DataManager) (t : DataFrame) : outcome :=
  let dm := reset dm t in
  let is_simple_format := has_column t "type" in
  if is_simple_format then _process_simple_format py dm t
  else _process_standard_format dm t.

(** The table is what [pd.read_csv] returned for the file. *)
Definition import_from_csv (py : Builtins) (dm : DataManager) (t : DataFrame) : outcome :=
  let '(dm, (valid, error_msg)) := validate_csv dm t in
  if negb valid then
    Raised dm (ValueError ("Error importing CSV data: " ++ error_msg))
  else
    match _process_data py dm t with
    | Done dm' => Done dm'
    | Raised dm' e =>
        Raised dm' (ValueError ("Error importing CSV data: " ++ exn_str e))
    end.

Definition import_from_file (py : Builtins) (dm : DataManager) (t : DataFrame) : outcome :=
  import_from_csv py dm t.

(** ** [export_to_csv] *)

(** One dictionary of [simple_data]; its keys, in order, are
    [converted_columns]. *)
Definition simple_record (kind : string) (i name parent description : cell)
  : list cell :=
  [Str kind; i; name; parent; description].

Definition converted_columns : list string :=
  ["type"; "id"; "name"; "building_id"; "description"].

(** [pd.DataFrame(records)]: the columns are the keys of the records, and an
    empty list gives a table without columns. *)
Definition frame_of_records (cols : list string) (records : list (list cell))
  : DataFrame :=
  match records with
  | [] => mkDF [] []
  | _ => mkDF cols records
  end.

Definition simple_data (dm : DataManager) : list (list cell) :=
  map (fun kv => simple_record "department" (fst kv) (dept_name (snd kv))
                   (Str "") (dept_description (snd kv)))
      (departments dm)
  ++ map (fun kv => simple_record "building" (fst kv) (building_name (snd kv))
                      (building_department_id (snd kv))
                      (building_description (snd kv)))
         (buildings dm)
  ++ map (fun kv => simple_record "floor" (fst kv) (floor_name (snd kv))
                      (floor_building_id (snd kv)) (floor_description (snd kv)))
         (floors dm)
  ++ map (fun kv => simple_record "room" (fst kv) (room_name (snd kv))
                      (room_floor_id (snd kv)) (room_description (snd kv)))
         (rooms dm).

(** The result is the table whose CSV text is returned; reading that text
    back with [read_csv] gives the table again. *)
Definition export_to_csv (dm : DataManager) (format_type : string) : DataFrame :=
  let is_simple_format :=
    String.eqb format_type "simple"
    || (String.eqb format_type "auto" && has_column (df dm) "type") in
  if df_empty (df dm) then
    if is_simple_format then mkDF simple_format_columns []
    else mkDF (standard_columns ++ optional_columns) []
  else if is_simple_format then
    if has_column (df dm) "type" then df dm
    else frame_of_records converted_columns (simple_data dm)
  else
    if has_column (df dm) "type" then df dm
    else df dm.

(** ** [search] *)

Record SearchResults : Type := mkResults {
  found_departments : list Department;
  found_buildings : list Building;
  found_floors : list Floor;
  found_rooms : list Room
}.

(** [key in item and item[key] and query in str(item[key]).lower()], on a
    key the dictionary has. *)
Definition matches_query (query : string) (v : cell) : bool :=
  truthy v && str_in query (lower (py_str v)).

Definition search (dm : DataManager) (query : string) : SearchResults :=
  if String.eqb query "" then mkResults [] [] [] []
  else
    let query := lower query in
    mkResults
      (filter (fun dept => matches_query query (dept_name dept)
                           || matches_query query (dept_description dept))
              (dict_values (departments dm)))
      (filter (fun building => matches_query query (building_name building)
                               || matches_query query (building_description building))
              (dict_values (buildings dm)))
      (filter (fun floor => matches_query query (floor_name floor)
                            || matches_query query (floor_description floor))
              (dict_values (floors dm)))
      (filter (fun room => matches_query query (room_name room)
                           || matches_query query (room_type room)
                           || matches_query query (room_description room)
                           || matches_query query (room_facilities room))
              (dict_values (rooms dm))).

(** [components/search.py]: the caller hands the query to the engine only
    when it has at least two characters. *)
Definition search_interface (dm : DataManager) (search_query : string)
  : option SearchResults :=
  if negb (String.eqb search_query "") && (2 <=? String.length search_query)%nat
  then Some (search dm search_query)
  else None.

(** ** [has_data] and the lookups *)

(** [not self.df.empty] *)
Definition has_data (dm : DataManager) : bool := negb (df_empty (df dm)).

(** [a == b] on two cells: a missing value equals nothing, itself included. *)
Definition py_eq (a b : cell) : bool :=
  match a, b with
  | Str s, Str t => String.eqb s t
  | _, _ => false
  end.

Definition get_departments (dm : DataManager) : list Department :=
  dict_values (departments dm).

(** The argument is [None] or an identifier. *)
Definition get_buildings (dm : DataManager) (department_id : option cell)
  : list Building :=
  match department_id with
  | Some d => filter (fun b => py_eq (building_department_id b) d)
                     (dict_values (buildings dm))
  | None => dict_values (buildings dm)
  end.

Definition get_floors (dm : DataManager) (building_id : option cell)
  : list Floor :=
  match building_id with
  | Some b => filter (fun f => py_eq (floor_building_id f) b)
                     (dict_values (floors dm))
  | None => dict_values (floors dm)
  end.

Definition get_rooms (dm : DataManager) (floor_id : option cell) : list Room :=
  match floor_id with
  | Some f => filter (fun r => py_eq (room_floor_id r) f)
                     (dict_values (rooms dm))
  | None => dict_values (rooms dm)
  end.

(** What [get_item_details] and [get_parent] return: a dictionary of one of
    the four kinds.  The lookups are [dict.get] with an identifier that is
    present; a missing value used as a key is found by identity only, and
    the statements on lookups leave it out. *)
Inductive item_dict : Type :=
| ADepartment (d : Department)
| ABuilding (b : Building)
| AFloor (f : Floor)
| ARoom (r : Room).

Definition get_item_details (dm : DataManager) (item_type : string) (item_id : cell)
  : option item_dict :=
  if String.eqb item_type "department" then
    option_map ADepartment (dict_get item_id (departments dm))
  else if String.eqb item_type "building" then
    option_map ABuilding (dict_get item_id (buildings dm))
  else if String.eqb item_type "floor" then
    option_map AFloor (dict_get item_id (floors dm))
  else if String.eqb item_type "room" then
    option_map ARoom (dict_get item_id (rooms dm))
  else None.

(** An entity dictionary is never empty, so [if building:] asks only whether
    the identifier was found. *)
Definition get_parent (dm : DataManager) (item_type : string) (item_id : cell)
  : option item_dict :=
  if String.eqb item_type "building" then
    match dict_get item_id (buildings dm) with
    | Some building =>
        option_map ADepartment
          (dict_get (building_department_id building) (departments dm))
    | None => None
    end
  else if String.eqb item_type "floor" then
    match dict_get item_id (floors dm) with
    | Some floor =>
        option_map ABuilding (dict_get (floor_building_id floor) (buildings dm))
    | None => None
    end
  else if String.eqb item_type "room" then
    match dict_get item_id (rooms dm) with
    | Some room =>
        option_map AFloor (dict_get (room_floor_id room) (floors dm))
    | None => None
    end
  else None.

(** ** Sample interpreter and tables used by the examples *)

Definition sample_py : Builtins :=
  mkBuiltins (fun c => Z.of_nat (String.length (py_str c)))
             (fun s => match s with
                       | String a _ => (48 <=? nat_of_ascii a)%nat
                                       && (nat_of_ascii a <=? 57)%nat
                       | EmptyString => false
                       end).

Definition empty_manager : DataManager :=
  mkDM (mkDF [] []) empty_graph [] [] [] [] [].

(** A table with the columns of both formats: two rows share the [id] [A],
    the four identifier columns of the standard format have no duplicate. *)
Definition both_formats_table : DataFrame :=
  mkDF ["type"; "id"; "name"; "building_id"; "description"; "x"; "y";
        "department_id"; "department_name"; "building_name";
        "floor_id"; "floor_name"; "room_id"; "room_name"; "room_type";
        "capacity"; "x_coordinate"; "y_coordinate"]
       [[Str "department"; Str "A"; Str "CS"; Str "B1"; NaN; NaN; NaN;
         Str "D1"; Str "CS"; Str "Hall"; Str "F1"; Str "Floor 1";
         Str "R1"; Str "Lab A"; Str "lab"; Str "30"; Str "10"; Str "20"];
        [Str "room"; Str "A"; Str "Lab B"; Str "B2"; NaN; NaN; NaN;
         Str "D2"; Str "EE"; Str "Annex"; Str "F2"; Str "Floor 2";
         Str "R2"; Str "Lab B"; Str "lab"; Str "25"; Str "15"; Str "25"]].

(** Two rooms of one floor, in the standard format. *)
Definition two_rooms_table : DataFrame :=
  mkDF standard_columns
       [[Str "D1"; Str "CS"; Str "B1"; Str "Hall"; Str "F1"; Str "Floor 1";
         Str "R1"; Str "Lab A"; Str "lab"; Str "30"; Str "10"; Str "20"];
        [Str "D1"; Str "CS"; Str "B1"; Str "Hall"; Str "F1"; Str "Floor 1";
         Str "R2"; Str "Lab B"; Str "lab"; Str "25"; Str "15"; Str "25"]].

(** One room, in the standard format. *)
Definition one_room_table : DataFrame :=
  mkDF standard_columns
       [[Str "D1"; Str "CS"; Str "B1"; Str "Hall"; Str "F1"; Str "Floor 1";
         Str "R1"; Str "Lab A"; Str "lab"; Str "30"; Str "10"; Str "20"]].

(** The standard columns and a [type] column, but no [id] column. *)
Definition typed_standard_table : DataFrame :=
  mkDF ("type" :: standard_columns)
       [[Str "room"; Str "D1"; Str "CS"; Str "B1"; Str "Hall"; Str "F1";
         Str "Floor 1"; Str "R1"; Str "Lab A"; Str "lab"; Str "30";
         Str "10"; Str "20"]].

(** A department with a blank description, in the simple format. *)
Definition one_department_table : DataFrame :=
  mkDF simple_format_columns
       [[Str "department"; Str "D1"; Str "CS"; NaN; NaN; NaN; NaN]].

(** A building and a floor that names a building [B9] which is not there. *)
Definition dangling_floor_table : DataFrame :=
  mkDF simple_format_columns
       [[Str "building"; Str "B1"; Str "Hall"; NaN; NaN; NaN; NaN];
        [Str "building"; Str "B2"; Str "Annex"; NaN; NaN; NaN; NaN];
        [Str "floor"; Str "F1"; Str "Floor 1"; Str "B9"; NaN; NaN; NaN]].

(** A floor alone: no building at all. *)
Definition lone_floor_table : DataFrame :=
  mkDF simple_format_columns
       [[Str "floor"; Str "F1"; Str "Floor 1"; NaN; NaN; Str "abc"; Str " "]].

(** The end-to-end scenario: one entity of every kind, linked. *)
Definition campus_table : DataFrame :=
  mkDF simple_format_columns
       [[Str "department"; Str "D1"; Str "CS"; NaN; NaN; NaN; NaN];
        [Str "building"; Str "B1"; Str "Tech Hall"; Str "D1"; NaN; NaN; NaN];
        [Str "floor"; Str "F1"; Str "Floor 1"; Str "B1"; NaN; NaN; NaN];
        [Str "room"; Str "R1"; Str "Lab A"; Str "F1"; NaN; NaN; NaN]].

(** Two buildings, the second with a blank [id], and a floor whose
    reference is blank. *)
Definition blank_building_table : DataFrame :=
  mkDF simple_format_columns
       [[Str "building"; Str "B1"; Str "Hall"; NaN; NaN; NaN; NaN];
        [Str "building"; NaN; Str "Annex"; NaN; NaN; NaN; NaN];
        [Str "floor"; Str "F1"; Str "Floor 1"; NaN; NaN; NaN; NaN]].

(** A floor whose [name], [x] and [y] are blank. *)
Definition blank_name_table : DataFrame :=
  mkDF simple_format_columns
       [[Str "floor"; Str "F1"; NaN; NaN; NaN; NaN; NaN]].

(** The sample interpreter at a later moment of the session: the missing
    value it meets is another object, with another hash. *)
Definition sample_py_later : Builtins :=
  mkBuiltins (fun c => match c with
                       | NaN => 7%Z
                       | Str _ => py_hash sample_py c
                       end)
             (py_float_ok sample_py).

(** ** Notions used in the statements *)

(** A statement of the importers keeps the stored table and the required
    columns. *)
Definition keeps_frame (body : DataManager -> list cell -> outcome) : Prop :=
  forall dm r,
    df (final (body dm r)) = df dm
    /\ required_columns (final (body dm r)) = required_columns dm.

(** The manager after the loop, when no row raises. *)
Definition run (body : DataManager -> list cell -> outcome)
           (dm : DataManager) (rs : list (list cell)) : DataManager :=
  fold_left (fun dm r => final (body dm r)) rs dm.

(** Every row [r] adds the node [child r] and an edge into it from
    [parent dm r], [dm] being the manager the row starts from. *)
Definition edge_step (body : DataManager -> list cell -> outcome)
           (child : list cell -> string)
           (parent : DataManager -> list cell -> string) : Prop :=
  forall dm r, exists a,
    graph (final (body dm r))
    = add_edge (add_node (graph dm) (child r) a) (parent dm r) (child r).

Definition row_id (cols : list string) (r : list cell) : cell :=
  row_get_default cols r "id".

Definition row_name (cols : list string) (r : list cell) : cell :=
  row_get_default cols r "name".

(** The parent reference of a row: its [building_id] cell. *)
Definition row_ref (cols : list string) (r : list cell) : cell :=
  row_get_default cols r "building_id".

Definition department_of_row (cols : list string) (r : list cell) : Department :=
  mkDepartment (row_id cols r) (row_name cols r)
               (row_get_default cols r "description").

Definition building_of_row (py : Builtins) (cols : list string) (r : list cell)
  : Building :=
  mkBuilding (row_id cols r) (or_unknown (row_ref cols r)) (row_name cols r)
             (Some (coordinate py (row_get cols r "x") (row_id cols r)))
             (Some (coordinate py (row_get cols r "y") (row_name cols r)))
             (row_get_default cols r "description").

Definition floor_of_row (py : Builtins) (cols : list string) (r : list cell)
  : Floor :=
  mkFloor (row_id cols r) (or_unknown (row_ref cols r)) (row_name cols r)
          (row_get_default cols r "description")
          (Some (coordinate py (row_get cols r "x") (row_id cols r)))
          (Some (coordinate py (row_get cols r "y") (row_name cols r))).

Definition room_of_row (py : Builtins) (cols : list string) (r : list cell)
  : Room :=
  mkRoom (row_id cols r) (or_unknown (row_ref cols r)) (row_name cols r)
         (Str "generic") (row_get_default cols r "description") (VInt 40)
         (coordinate py (row_get cols r "x") (row_id cols r))
         (coordinate py (row_get cols r "y") (row_name cols r))
         (Str "") (Str "").

(** The node a row of each kind is attached to, from the manager the row
    starts from. *)
Definition building_parent (cols : list string) (dm : DataManager) (r : list cell)
  : string :=
  if truthy (row_ref cols r) && has_node (graph dm) (dept_node (row_ref cols r))
  then dept_node (row_ref cols r)
  else "root".

Definition floor_parent (cols : list string) (dm : DataManager) (r : list cell)
  : string :=
  if truthy (row_ref cols r) && has_node (graph dm) (building_node (row_ref cols r))
  then building_node (row_ref cols r)
  else match dict_keys (buildings dm) with
       | first_building :: _ => building_node first_building
       | [] => "root"
       end.

Definition room_parent (cols : list string) (dm : DataManager) (r : list cell)
  : string :=
  if truthy (row_ref cols r) && has_node (graph dm) (floor_node (row_ref cols r))
  then floor_node (row_ref cols r)
  else match dict_keys (floors dm) with
       | first_floor :: _ => floor_node first_floor
       | [] =>
           match dict_keys (buildings dm) with
           | first_building :: _ => building_node first_building
           | [] => "root"
           end
       end.

Definition after_departments (dm : DataManager) (t : DataFrame) : DataManager :=
  run (simple_department_row (columns t)) dm (rows_of_type t "department").

Definition after_buildings (py : Builtins) (dm : DataManager) (t : DataFrame)
  : DataManager :=
  run (simple_building_row py (columns t)) (after_departments dm t)
      (rows_of_type t "building").

Definition after_floors (py : Builtins) (dm : DataManager) (t : DataFrame)
  : DataManager :=
  run (simple_floor_row py (columns t)) (after_buildings py dm t)
      (rows_of_type t "floor").

Definition after_rooms (py : Builtins) (dm : DataManager) (t : DataFrame)
  : DataManager :=
  run (simple_room_row py (columns t)) (after_floors py dm t)
      (rows_of_type t "room").

(** Identifiers that stay distinct when printed, as node names need them:
    a missing identifier prints as [nan]. *)
Definition printed (c : cell) : cell := Str (py_str c).

(** Spellings that [read_csv] does not keep as a text: those of a missing
    value, of a boolean and of an infinity (compared without case). *)
Definition reserved_words : list string :=
  ["nan"; "na"; "n/a"; "null"; "none"; "true"; "false"; "inf"; "infinity"].

Definition is_letter (a : ascii) : bool :=
  let n := nat_of_ascii a in
  ((65 <=? n)%nat && (n <=? 90)%nat) || ((97 <=? n)%nat && (n <=? 122)%nat).

(** A word: a text that begins with a letter, so that it is no numeral, and
    is none of the reserved spellings.  [read_csv] keeps a word as that
    text, and a column that holds one is a column of texts and missing
    values. *)
Definition word_text (s : string) : bool :=
  match s with
  | String a _ =>
      is_letter a && negb (existsb (String.eqb (lower s)) reserved_words)
  | EmptyString => false
  end.

Definition word (c : cell) : bool :=
  match c with
  | Str s => word_text s
  | NaN => false
  end.

Definition word_or_blank (c : cell) : bool :=
  match c with
  | Str s => word_text s
  | NaN => true
  end.

(** Two moments of one session: the hash of a text is the same at both, and
    [float] accepts the same texts.  Nothing is asked of the hash of a
    missing value. *)
Definition same_session (py1 py2 : Builtins) : Prop :=
  (forall s, py_hash py1 (Str s) = py_hash py2 (Str s))
  /\ (forall s, py_float_ok py1 s = py_float_ok py2 s).

Definition spells_boolean (s : string) : bool :=
  existsb (String.eqb (lower s)) ["true"; "false"].

(** The cell gives no coordinate: it is absent or missing, blank, or a text
    that [float] refuses.  A text that spells a boolean is left out: a
    column of booleans is read as booleans, which [float] accepts. *)
Definition unusable (py : Builtins) (raw : option cell) : bool :=
  match raw with
  | Some (Str s) =>
      strip_is_empty s || (negb (py_float_ok py s) && negb (spells_boolean s))
  | _ => true
  end.

(** The names a node can have while the table is imported. *)
Definition known_node (t : DataFrame) (m : string) : Prop :=
  m = "root"
  \/ (exists x, m = dept_node x)
  \/ (exists rb, In rb (rows_of_type t "building")
                 /\ m = building_node (row_id (columns t) rb))
  \/ (exists x, m = floor_node x)
  \/ (exists x, m = room_node x).

(** Every node is a known one, and every key of the buildings mapping is the
    identifier of a building row. *)
Definition tidy (t : DataFrame) (dm : DataManager) : Prop :=
  (forall m, has_node (graph dm) m = true -> known_node t m)
  /\ (forall k, In k (dict_keys (buildings dm)) ->
                In k (map (row_id (columns t)) (rows_of_type t "building"))).

Definition std_department_id (cols : list string) (r : list cell) : cell :=
  row_get_default cols r "department_id".

Definition std_building_id (cols : list string) (r : list cell) : cell :=
  row_get_default cols r "building_id".

Definition std_floor_id (cols : list string) (r : list cell) : cell :=
  row_get_default cols r "floor_id".

Definition std_room_id (cols : list string) (r : list cell) : cell :=
  row_get_default cols r "room_id".

Definition std_building_of_row (cols : list string) (r : list cell) : Building :=
  mkBuilding (std_building_id cols r) (std_department_id cols r)
             (row_get_default cols r "building_name") None None
             (row_get_default cols r "building_description").

Definition std_floor_of_row (cols : list string) (r : list cell) : Floor :=
  mkFloor (std_floor_id cols r) (std_building_id cols r)
          (row_get_default cols r "floor_name")
          (row_get_default cols r "floor_description") None None.

Definition std_room_of_row (cols : list string) (r : list cell) : Room :=
  mkRoom (std_room_id cols r) (std_floor_id cols r)
         (row_get_default cols r "room_name")
         (row_get_default cols r "room_type")
         (row_get_default cols r "room_description")
         (VCell (row_get_default cols r "capacity"))
         (VCell (row_get_default cols r "x_coordinate"))
         (VCell (row_get_default cols r "y_coordinate"))
         (row_get_default cols r "room_facilities")
         (row_get_default cols r "accessibility").

Definition std_after_departments (dm : DataManager) (t : DataFrame) : DataManager :=
  run (standard_department_row (columns t)) dm (drop_duplicates t "department_id").

Definition std_after_buildings (dm : DataManager) (t : DataFrame) : DataManager :=
  run (standard_building_row (columns t)) (std_after_departments dm t)
      (drop_duplicates t "building_id").

Definition std_after_floors (dm : DataManager) (t : DataFrame) : DataManager :=
  run (standard_floor_row (columns t)) (std_after_buildings dm t)
      (drop_duplicates t "floor_id").

Definition std_after_rooms (dm : DataManager) (t : DataFrame) : DataManager :=
  run (standard_room_row (columns t)) (std_after_floors dm t) (rows t).

(** The field [v] is a text in which the query occurs, case ignored. *)
Definition contains_ignoring_case (query : string) (v : cell) : Prop :=
  exists s pre post, v = Str s /\ lower s = pre ++ lower query ++ post.

(** Every entity is stored under its own identifier. *)
Definition keyed (dm : DataManager) : Prop :=
  (forall k d, In (k, d) (departments dm) -> dept_id d = k)
  /\ (forall k b, In (k, b) (buildings dm) -> building_id b = k)
  /\ (forall k f, In (k, f) (floors dm) -> floor_id f = k)
  /\ (forall k m, In (k, m) (rooms dm) -> room_id m = k).

(** The fields a room gets in the simple format, which has no column for
    them. *)
Definition default_room (m : Room) : Prop :=
  room_type m = Str "generic" /\ room_capacity m = VInt 40
  /\ room_facilities m = Str "" /\ room_accessibility m = Str "".

Definition std_department_of_row (cols : list string) (r : list cell) : Department :=
  mkDepartment (std_department_id cols r)
               (row_get_default cols r "department_name")
               (row_get_default cols r "department_description").

(** * Properties *)

(** ** Cells and lists of cells *)

Lemma cell_eqb_spec (a b : cell) : reflect (a = b) (cell_eqb a b).
Proof.
  destruct a as [|s], b as [|t]; simpl; try (constructor; congruence).
  destruct (String.eqb_spec s t); constructor; congruence.
Qed.

Lemma cell_eqb_refl (a : cell) : cell_eqb a a = true.
Proof. destruct (cell_eqb_spec a a); congruence. Qed.

Lemma cell_eqb_eq (a b : cell) : cell_eqb a b = true <-> a = b.
Proof. destruct (cell_eqb_spec a b); split; congruence. Qed.

Lemma cell_eqb_neq (a b : cell) : cell_eqb a b = false <-> a <> b.
Proof. destruct (cell_eqb_spec a b); split; congruence. Qed.

Lemma cell_mem_In (x : cell) (l : list cell) : cell_mem x l = true <-> In x l.
Proof.
  unfold cell_mem. rewrite existsb_exists. split.
  - intros [y [Hy He]]. apply cell_eqb_eq in He. now subst.
  - intros H. exists x. split; [assumption | apply cell_eqb_refl].
Qed.

Lemma has_dup_NoDup (l : list cell) : has_dup l = false <-> NoDup l.
Proof.
  induction l as [|x l IH]; simpl.
  - split; [constructor | reflexivity].
  - rewrite orb_false_iff, IH. split.
    + intros [Hm Hn]. constructor; [|assumption].
      intros Hin. apply cell_mem_In in Hin. congruence.
    + intros H. inversion H as [|? ? Hx Hl]; subst. split; [|assumption].
      destruct (cell_mem x l) eqn:E; [|reflexivity].
      apply cell_mem_In in E. contradiction.
Qed.

(** ** [validate_csv] and the import it guards *)

Lemma validate_csv_store (dm : DataManager) (t : DataFrame) :
  store (fst (validate_csv dm t)) = store dm /\ df (fst (validate_csv dm t)) = df dm.
Proof.
  unfold validate_csv.
  destruct (negb (all_columns_in simple_format_columns t)
            && negb (all_columns_in standard_columns t)); [split; reflexivity|].
  destruct (filter _ _); [|split; reflexivity].
  destruct (all_columns_in standard_columns t).
  - destruct (first_duplicate t standard_id_columns); split; reflexivity.
  - destruct (all_columns_in simple_format_columns t && _); split; reflexivity.
Qed.

(** The verdict depends on the table only, not on the manager. *)
Lemma validate_csv_verdict (dm dm' : DataManager) (t : DataFrame) :
  snd (validate_csv dm t) = snd (validate_csv dm' t)
  /\ (fst (snd (validate_csv dm t)) = true ->
      required_columns (fst (validate_csv dm t))
      = required_columns (fst (validate_csv dm' t))).
Proof.
  unfold validate_csv.
  destruct (negb (all_columns_in simple_format_columns t)
            && negb (all_columns_in standard_columns t)).
  - split; [reflexivity | discriminate].
  - cbn [required_columns set_required_columns].
    destruct (filter _ _); [|split; [reflexivity | discriminate]].
    destruct (all_columns_in standard_columns t).
    + destruct (first_duplicate t standard_id_columns); split; reflexivity || discriminate.
    + destruct (all_columns_in simple_format_columns t && _);
        split; reflexivity || discriminate.
Qed.

(** A table that fails validation is refused with a [ValueError] and the
    mappings, the graph and the stored table stay as they were. *)
Lemma import_rejected_keeps_store (py : Builtins) (dm : DataManager) (t : DataFrame) :
  fst (snd (validate_csv dm t)) = false ->
  exists dm',
    import_from_csv py dm t
    = Raised dm' (ValueError ("Error importing CSV data: "
                              ++ snd (snd (validate_csv dm t))))
    /\ store dm' = store dm /\ df dm' = df dm.
Proof.
  intros H. unfold import_from_csv.
  pose proof (validate_csv_store dm t) as [Hs Hd].
  destruct (validate_csv dm t) as [dm1 [valid msg]]. simpl in *. subst valid.
  exists dm1. simpl. auto.
Qed.

Lemma first_duplicate_some (t : DataFrame) (cols : list string) :
  existsb (fun c => has_dup (col_values t c)) cols = true ->
  exists c, In c cols /\ has_dup (col_values t c) = true
            /\ first_duplicate t cols = Some (duplicate_message c (col_values t c)).
Proof.
  induction cols as [|c cols IH]; simpl; [discriminate|].
  destruct (has_dup (col_values t c)) eqn:E.
  - intros _. exists c. auto.
  - simpl. intros H. destruct (IH H) as [c' [Hin [Hd Hf]]].
    exists c'. auto.
Qed.

(** A table with the standard columns and a repeated [room_id] is refused:
    the message names the duplicated values of the first identifier column
    that has any. *)
Lemma standard_duplicate_room_id_rejected (dm : DataManager) (t : DataFrame) :
  all_columns_in standard_columns t = true ->
  has_dup (col_values t "room_id") = true ->
  exists c, In c standard_id_columns /\ has_dup (col_values t c) = true
            /\ snd (validate_csv dm t)
               = (false, duplicate_message c (col_values t c)).
Proof.
  intros Hstd Hdup.
  destruct (first_duplicate_some t standard_id_columns) as [c [Hin [Hd Hf]]].
  { simpl. rewrite Hdup. now rewrite !orb_true_r. }
  exists c. repeat split; try assumption.
  unfold validate_csv. rewrite Hstd.
  rewrite andb_false_r.
  cbn [required_columns set_required_columns].
  assert (Hm : forall cs, forallb (has_column t) cs = true ->
                          filter (fun c => negb (has_column t c)) cs = []).
  { induction cs as [|x cs IH]; simpl; [reflexivity|].
    intros H. apply andb_true_iff in H as [Hx Hcs]. rewrite Hx. simpl. auto. }
  destruct (all_columns_in simple_format_columns t) eqn:Es.
  - rewrite (Hm _ Es). now rewrite Hf.
  - rewrite (Hm _ Hstd). now rewrite Hf.
Qed.

(** A table with the standard columns in which two rows share their
    department is refused. *)
Lemma standard_repeated_department_rejected (dm : DataManager) (t : DataFrame) :
  all_columns_in standard_columns t = true ->
  has_dup (col_values t "department_id") = true ->
  snd (validate_csv dm t)
  = (false, duplicate_message "department_id" (col_values t "department_id")).
Proof.
  intros Hstd Hdup. unfold validate_csv. rewrite Hstd.
  rewrite andb_false_r.
  cbn [required_columns set_required_columns].
  assert (Hm : forall cs, forallb (has_column t) cs = true ->
                          filter (fun c => negb (has_column t c)) cs = []).
  { induction cs as [|x cs IH]; simpl; [reflexivity|].
    intros H. apply andb_true_iff in H as [Hx Hcs]. rewrite Hx. simpl. auto. }
  assert (Hf : first_duplicate t standard_id_columns
               = Some (duplicate_message "department_id"
                         (col_values t "department_id"))).
  { simpl. now rewrite Hdup. }
  destruct (all_columns_in simple_format_columns t) eqn:Es.
  - rewrite (Hm _ Es). now rewrite Hf.
  - rewrite (Hm _ Hstd). now rewrite Hf.
Qed.

(** A table with the simple columns only and a repeated [id] is refused, and
    the message names the duplicated values. *)
Lemma simple_duplicate_id_rejected (dm : DataManager) (t : DataFrame) :
  all_columns_in simple_format_columns t = true ->
  all_columns_in standard_columns t = false ->
  has_dup (col_values t "id") = true ->
  snd (validate_csv dm t) = (false, duplicate_message "id" (col_values t "id")).
Proof.
  intros Hs Hstd Hdup. unfold validate_csv. rewrite Hs, Hstd. simpl negb.
  cbn [andb required_columns set_required_columns].
  assert (Hm : forall cs, forallb (has_column t) cs = true ->
                          filter (fun c => negb (has_column t c)) cs = []).
  { induction cs as [|x cs IH]; simpl; [reflexivity|].
    intros H. apply andb_true_iff in H as [Hx Hcs]. rewrite Hx. simpl. auto. }
  rewrite (Hm _ Hs). now rewrite Hdup.
Qed.

(** C1, at the failing input: the table carries the columns of both formats
    and two rows with the same [id]; validation runs the standard checks only,
    the import goes through and the store is replaced. *)
Theorem C1_duplicate_id_accepted_with_both_formats :
  has_dup (col_values both_formats_table "id") = true
  /\ all_columns_in simple_format_columns both_formats_table = true
  /\ snd (validate_csv empty_manager both_formats_table) = (true, "")
  /\ succeeded (import_from_csv sample_py empty_manager both_formats_table) = true
  /\ store (final (import_from_csv sample_py empty_manager both_formats_table))
     <> store empty_manager.
Proof.
  repeat split; try (vm_compute; reflexivity).
  vm_compute. discriminate.
Qed.

(** C7, at the failing input: two rooms of one floor repeat their ancestors'
    identifiers, and the table is refused for its repeated [department_id]. *)
Theorem C7_repeated_ancestors_rejected :
  has_dup (col_values two_rooms_table "room_id") = false
  /\ snd (validate_csv empty_manager two_rooms_table)
     = (false, "Duplicate department_id values found: D1")
  /\ succeeded (import_from_csv sample_py empty_manager two_rooms_table) = false.
Proof. repeat split; vm_compute; reflexivity. Qed.

(** C9: a table with every standard column and a [type] column, but not every
    simple column, is validated by the duplicate checks of the standard format
    and processed by the importer of the simple format. *)
Theorem C9_checked_as_standard_processed_as_simple
        (py : Builtins) (dm : DataManager) (t : DataFrame) :
  all_columns_in standard_columns t = true ->
  has_column t "type" = true ->
  all_columns_in simple_format_columns t = false ->
  snd (validate_csv dm t)
  = match first_duplicate t standard_id_columns with
    | Some msg => (false, msg)
    | None => (true, "")
    end
  /\ required_columns (fst (validate_csv dm t)) = standard_columns
  /\ _process_data py dm t = _process_simple_format py (reset dm t) t.
Proof.
  intros Hstd Hty Hs.
  assert (Hm : filter (fun c => negb (has_column t c)) standard_columns = []).
  { revert Hstd. unfold all_columns_in. generalize standard_columns.
    induction l as [|x l IH]; simpl; [reflexivity|].
    intros H. apply andb_true_iff in H as [Hx Hl]. rewrite Hx. simpl. auto. }
  unfold validate_csv, _process_data. rewrite Hstd, Hs, Hty.
  cbn [negb andb required_columns set_required_columns]. rewrite Hm.
  destruct (first_duplicate t standard_id_columns); auto.
Qed.

Lemma C9_witness :
  snd (validate_csv empty_manager typed_standard_table) = (true, "")
  /\ required_columns (fst (validate_csv empty_manager typed_standard_table))
     = standard_columns
  /\ _process_data sample_py empty_manager typed_standard_table
     = _process_simple_format sample_py
         (reset empty_manager typed_standard_table) typed_standard_table.
Proof.
  exact (C9_checked_as_standard_processed_as_simple
           sample_py empty_manager typed_standard_table
           eq_refl eq_refl eq_refl).
Defined.

(** C10: the empty query gives four empty lists, whatever the store. *)
Theorem C10_empty_query_finds_nothing (dm : DataManager) :
  search dm "" = mkResults [] [] [] [].
Proof. reflexivity. Qed.

(** When the validator accepts a table. *)
Lemma no_missing_columns t cs :
  forallb (has_column t) cs = true ->
  filter (fun c => negb (has_column t c)) cs = [].
Proof.
  induction cs as [|c cs IH]; simpl; [reflexivity|].
  intros H. apply andb_true_iff in H as [Hc Hcs]. rewrite Hc. simpl. auto.
Qed.

Lemma first_duplicate_none t cs :
  first_duplicate t cs = None
  <-> forall c, In c cs -> has_dup (col_values t c) = false.
Proof.
  induction cs as [|c cs IH]; simpl.
  - split; [intros _ c [] | reflexivity].
  - destruct (has_dup (col_values t c)) eqn:E.
    + split; [discriminate|]. intros H. specialize (H c (or_introl eq_refl)).
      congruence.
    + rewrite IH. split.
      * intros H c' [<-|Hc']; auto.
      * intros H c' Hc'. apply H. now right.
Qed.

Lemma validate_csv_accepted (dm : DataManager) (t : DataFrame) :
  fst (snd (validate_csv dm t)) = true
  <-> (all_columns_in standard_columns t = true
       /\ forall c, In c standard_id_columns -> has_dup (col_values t c) = false)
      \/ (all_columns_in standard_columns t = false
          /\ all_columns_in simple_format_columns t = true
          /\ has_dup (col_values t "id") = false).
Proof.
  unfold validate_csv.
  destruct (all_columns_in standard_columns t) eqn:Hstd;
    destruct (all_columns_in simple_format_columns t) eqn:Hs;
    cbn [negb andb required_columns set_required_columns fst snd].
  - rewrite (no_missing_columns t _ Hs), <- first_duplicate_none.
    destruct (first_duplicate t standard_id_columns); simpl;
      intuition congruence.
  - rewrite (no_missing_columns t _ Hstd), <- first_duplicate_none.
    destruct (first_duplicate t standard_id_columns); simpl;
      intuition congruence.
  - rewrite (no_missing_columns t _ Hs).
    destruct (has_dup (col_values t "id")); simpl; intuition congruence.
  - simpl. intuition congruence.
Qed.

(** ** What the importers leave untouched *)

Ltac row_cases :=
  unfold item;
  repeat match goal with
         | |- context [row_get ?cols ?r ?c] =>
             destruct (row_get cols r c); cbn [final]; try (split; reflexivity)
         end.

Lemma simple_department_row_frame cols : keeps_frame (simple_department_row cols).
Proof. intros dm r. unfold simple_department_row, row_get_default. row_cases. Qed.

Lemma simple_building_row_frame py cols : keeps_frame (simple_building_row py cols).
Proof.
  intros dm r. unfold simple_building_row, item.
  destruct (row_get cols r "id"); [|split; reflexivity].
  destruct (row_get cols r "name"); split; reflexivity.
Qed.

Lemma simple_floor_row_frame py cols : keeps_frame (simple_floor_row py cols).
Proof.
  intros dm r. unfold simple_floor_row, item.
  destruct (row_get cols r "id"); [|split; reflexivity].
  destruct (row_get cols r "name"); split; reflexivity.
Qed.

Lemma simple_room_row_frame py cols : keeps_frame (simple_room_row py cols).
Proof.
  intros dm r. unfold simple_room_row, item.
  destruct (row_get cols r "id"); [|split; reflexivity].
  destruct (row_get cols r "name"); split; reflexivity.
Qed.

Lemma standard_department_row_frame cols : keeps_frame (standard_department_row cols).
Proof. intros dm r. unfold standard_department_row, row_get_default. row_cases. Qed.

Lemma standard_building_row_frame cols : keeps_frame (standard_building_row cols).
Proof. intros dm r. unfold standard_building_row, row_get_default. row_cases. Qed.

Lemma standard_floor_row_frame cols : keeps_frame (standard_floor_row cols).
Proof. intros dm r. unfold standard_floor_row, row_get_default. row_cases. Qed.

Lemma standard_room_row_frame cols : keeps_frame (standard_room_row cols).
Proof. intros dm r. unfold standard_room_row, row_get_default. row_cases. Qed.

Lemma for_rows_frame body dm rs :
  keeps_frame body ->
  df (final (for_rows body dm rs)) = df dm
  /\ required_columns (final (for_rows body dm rs)) = required_columns dm.
Proof.
  intros Hb. revert dm. induction rs as [|r rs IH]; intros dm; simpl.
  - split; reflexivity.
  - pose proof (Hb dm r) as [Hd Hr].
    destruct (body dm r) as [dm'|dm' e]; simpl in *.
    + destruct (IH dm') as [Hd' Hr']. split; congruence.
    + split; assumption.
Qed.

Lemma for_unique_frame t c body dm :
  keeps_frame body ->
  df (final (for_unique t c body dm)) = df dm
  /\ required_columns (final (for_unique t c body dm)) = required_columns dm.
Proof.
  intros Hb. unfold for_unique. destruct (has_column t c).
  - now apply for_rows_frame.
  - split; reflexivity.
Qed.

Lemma and_then_frame o k dm0 :
  (df (final o) = df dm0 /\ required_columns (final o) = required_columns dm0) ->
  (forall dm, df (final (k dm)) = df dm
              /\ required_columns (final (k dm)) = required_columns dm) ->
  df (final (and_then o k)) = df dm0
  /\ required_columns (final (and_then o k)) = required_columns dm0.
Proof.
  intros [Hd Hr] Hk. destruct o as [dm|dm e]; simpl in *.
  - destruct (Hk dm) as [Hd' Hr']. split; congruence.
  - split; assumption.
Qed.

Lemma _process_simple_format_frame py dm t :
  df (final (_process_simple_format py dm t)) = df dm
  /\ required_columns (final (_process_simple_format py dm t)) = required_columns dm.
Proof.
  unfold _process_simple_format.
  destruct (negb (has_column t "type")); [split; reflexivity|].
  destruct (negb (str_accessor_ok (col_values t "type"))); [split; reflexivity|].
  apply and_then_frame;
    [apply for_rows_frame, simple_department_row_frame | intros dm1].
  apply and_then_frame;
    [apply for_rows_frame, simple_building_row_frame | intros dm2].
  apply and_then_frame;
    [apply for_rows_frame, simple_floor_row_frame | intros dm3].
  apply for_rows_frame, simple_room_row_frame.
Qed.

Lemma _process_standard_format_frame dm t :
  df (final (_process_standard_format dm t)) = df dm
  /\ required_columns (final (_process_standard_format dm t)) = required_columns dm.
Proof.
  unfold _process_standard_format.
  apply and_then_frame;
    [apply for_unique_frame, standard_department_row_frame | intros dm1].
  apply and_then_frame;
    [apply for_unique_frame, standard_building_row_frame | intros dm2].
  apply and_then_frame;
    [apply for_unique_frame, standard_floor_row_frame | intros dm3].
  apply for_rows_frame, standard_room_row_frame.
Qed.

(** After [_process_data] the stored table is the imported one. *)
Lemma _process_data_df py dm t : df (final (_process_data py dm t)) = t.
Proof.
  unfold _process_data. destruct (has_column t "type").
  - now destruct (_process_simple_format_frame py (reset dm t) t) as [-> _].
  - now destruct (_process_standard_format_frame (reset dm t) t) as [-> _].
Qed.

(** A successful import went through validation and [_process_data]. *)
Lemma import_done py dm t dm1 :
  import_from_csv py dm t = Done dm1 ->
  fst (snd (validate_csv dm t)) = true
  /\ _process_data py (fst (validate_csv dm t)) t = Done dm1.
Proof.
  unfold import_from_csv.
  destruct (validate_csv dm t) as [dm0 [valid msg]]. simpl.
  destruct valid; simpl; [|discriminate].
  destruct (_process_data py dm0 t); [|discriminate].
  intros H. injection H as ->. auto.
Qed.

Lemma import_done_df py dm t dm1 :
  import_from_csv py dm t = Done dm1 -> df dm1 = t.
Proof.
  intros H. apply import_done in H as [_ H].
  pose proof (_process_data_df py (fst (validate_csv dm t)) t) as Hd.
  now rewrite H in Hd.
Qed.

(** Importing the same table again, from any manager, ends in the same
    manager. *)
Lemma import_again py dm dm' t dm1 :
  import_from_csv py dm t = Done dm1 ->
  import_from_csv py dm' t = Done dm1.
Proof.
  intros H. apply import_done in H as [Hv Hp].
  destruct (validate_csv_verdict dm dm' t) as [Hs Hr]. specialize (Hr Hv).
  unfold import_from_csv.
  destruct (validate_csv dm t) as [dm0 [valid msg]].
  destruct (validate_csv dm' t) as [dm0' [valid' msg']].
  simpl in *. injection Hs as <- <-. subst valid. simpl.
  assert (E : _process_data py dm0' t = _process_data py dm0 t).
  { unfold _process_data, reset. now rewrite Hr. }
  now rewrite E, Hp.
Qed.

(** ** [export_to_csv] *)

Lemma all_columns_in_type t :
  has_column t "type" = false -> all_columns_in simple_format_columns t = false.
Proof. intros H. unfold all_columns_in. simpl. now rewrite H. Qed.



(** C3, as stated, fails: after an import in the simple format, the export
    with format [standard] is the simple table as imported, without the
    columns of the standard format. *)
Lemma C3_standard_export_of_simple_import :
  succeeded (import_from_csv sample_py empty_manager one_department_table) = true
  /\ export_to_csv
       (final (import_from_csv sample_py empty_manager one_department_table))
       "standard" = one_department_table
  /\ all_columns_in standard_columns
       (export_to_csv
          (final (import_from_csv sample_py empty_manager one_department_table))
          "standard") = false.
Proof. repeat split; vm_compute; reflexivity. Qed.

(** C3, amended: after a successful import of a table, the export with format
    [standard] is that table itself whatever its format, or the header of the
    standard format when the table has no row; the export with format [simple]
    of a table that has a [type] column is that table, or the header of the
    simple format when it has no row. *)
Theorem C3_export_is_the_imported_table
        (py : Builtins) (dm : DataManager) (t : DataFrame) (dm1 : DataManager) :
  import_from_csv py dm t = Done dm1 ->
  export_to_csv dm1 "standard"
  = (if df_empty t then mkDF (standard_columns ++ optional_columns) [] else t)
  /\ (has_column t "type" = true ->
      export_to_csv dm1 "simple"
      = (if df_empty t then mkDF simple_format_columns [] else t)).
Proof.
  intros Himp. pose proof (import_done_df _ _ _ _ Himp) as Hdf.
  unfold export_to_csv. rewrite Hdf. split.
  - replace (String.eqb "standard" "simple") with false by reflexivity.
    replace (String.eqb "standard" "auto") with false by reflexivity.
    simpl. destruct (df_empty t); [reflexivity|].
    destruct (has_column t "type"); reflexivity.
  - intros Hty. rewrite Hty.
    replace (String.eqb "simple" "simple") with true by reflexivity.
    simpl. reflexivity.
Qed.

Lemma C3_witness :
  export_to_csv
    (final (import_from_csv sample_py empty_manager campus_table)) "standard"
  = campus_table
  /\ export_to_csv
       (final (import_from_csv sample_py empty_manager campus_table)) "simple"
     = campus_table.
Proof.
  destruct (C3_export_is_the_imported_table sample_py empty_manager campus_table
              (final (import_from_csv sample_py empty_manager campus_table))
              eq_refl) as [Hstandard Hsimple].
  exact (conj Hstandard (Hsimple eq_refl)).
Defined.

(** ** The graph: nodes and predecessors under [add_node] and [add_edge] *)

Lemma update_node_names n a l : map fst (update_node n a l) = map fst l.
Proof.
  induction l as [|[m b] l IH]; simpl; [reflexivity|].
  destruct (String.eqb m n); simpl; [reflexivity | now rewrite IH].
Qed.

Lemma has_node_names g m :
  has_node g m = existsb (fun k => String.eqb k m) (map fst (nodes g)).
Proof.
  unfold has_node. induction (nodes g) as [|p l IH]; simpl; [reflexivity|].
  now rewrite IH.
Qed.

Lemma has_node_append g e n a m :
  has_node (mkGraph (nodes g ++ [(n, a)]) e) m = has_node g m || String.eqb n m.
Proof.
  unfold has_node. simpl. rewrite existsb_app. simpl. now rewrite orb_false_r.
Qed.

Lemma has_node_add_node g n a m :
  has_node (add_node g n a) m = String.eqb n m || has_node g m.
Proof.
  unfold add_node. destruct (has_node g n) eqn:E.
  - rewrite (has_node_names (mkGraph _ _)). simpl.
    rewrite update_node_names, <- has_node_names.
    destruct (String.eqb_spec n m); [subst; now rewrite E | reflexivity].
  - rewrite has_node_append. apply orb_comm.
Qed.

Lemma has_node_add_edge g u v m :
  has_node (add_edge g u v) m
  = String.eqb u m || String.eqb v m || has_node g m.
Proof.
  unfold add_edge.
  set (g1 := if has_node g u then g else _).
  assert (H1 : has_node g1 m = String.eqb u m || has_node g m).
  { unfold g1. destruct (has_node g u) eqn:E.
    - destruct (String.eqb_spec u m); [subst; now rewrite E | reflexivity].
    - rewrite has_node_append. apply orb_comm. }
  set (g2 := if has_node g1 v then g1 else _).
  assert (H2 : has_node g2 m = String.eqb v m || has_node g1 m).
  { unfold g2. destruct (has_node g1 v) eqn:E.
    - destruct (String.eqb_spec v m); [subst; now rewrite E | reflexivity].
    - rewrite has_node_append. apply orb_comm. }
  assert (H3 : has_node (if has_edge g2 u v then g2
                         else mkGraph (nodes g2) (edges g2 ++ [(u, v)])) m
               = has_node g2 m).
  { destruct (has_edge g2 u v); reflexivity. }
  rewrite H3, H2, H1.
  destruct (String.eqb u m), (String.eqb v m); reflexivity.
Qed.

Lemma edges_add_node g n a : edges (add_node g n a) = edges g.
Proof. unfold add_node. destruct (has_node g n); reflexivity. Qed.

Lemma edges_add_edge g u v :
  edges (add_edge g u v)
  = if has_edge g u v then edges g else (edges g ++ [(u, v)])%list.
Proof.
  unfold add_edge.
  set (g1 := if has_node g u then g else _).
  assert (H1 : edges g1 = edges g) by (unfold g1; destruct (has_node g u); reflexivity).
  set (g2 := if has_node g1 v then g1 else _).
  assert (H2 : edges g2 = edges g).
  { unfold g2. destruct (has_node g1 v); [assumption | simpl; assumption]. }
  assert (H3 : has_edge g2 u v = has_edge g u v) by (unfold has_edge; now rewrite H2).
  rewrite H3. destruct (has_edge g u v); simpl; now rewrite H2.
Qed.

Lemma predecessors_add_node g n a w :
  predecessors (add_node g n a) w = predecessors g w.
Proof. unfold predecessors. now rewrite edges_add_node. Qed.

Lemma predecessors_add_edge_other g u v w :
  v <> w -> predecessors (add_edge g u v) w = predecessors g w.
Proof.
  intros Hn. unfold predecessors. rewrite edges_add_edge.
  destruct (has_edge g u v); [reflexivity|].
  rewrite filter_app, map_app. simpl.
  destruct (String.eqb_spec v w); [contradiction|]. simpl. apply app_nil_r.
Qed.

Lemma has_edge_predecessors g u v :
  has_edge g u v = true -> In u (predecessors g v).
Proof.
  unfold has_edge, predecessors. rewrite existsb_exists.
  intros [[a b] [Hin He]]. simpl in He. apply andb_true_iff in He as [Ha Hb].
  apply String.eqb_eq in Ha. subst a.
  apply in_map_iff. exists (u, b). split; [reflexivity|].
  apply filter_In. split; assumption.
Qed.

Lemma predecessors_add_edge_first g u v :
  predecessors g v = [] -> predecessors (add_edge g u v) v = [u].
Proof.
  intros Hp. unfold predecessors. rewrite edges_add_edge.
  destruct (has_edge g u v) eqn:E.
  - apply has_edge_predecessors in E. rewrite Hp in E. destruct E.
  - rewrite filter_app, map_app. fold (predecessors g v). rewrite Hp. simpl.
    now rewrite String.eqb_refl.
Qed.

(** ** Dictionaries *)

Lemma dict_get_set_same {V} (k : cell) (v : V) d : dict_get k (dict_set k v d) = Some v.
Proof.
  induction d as [|[k' v'] d IH]; simpl.
  - now rewrite cell_eqb_refl.
  - destruct (cell_eqb k' k) eqn:E; simpl; rewrite E; [reflexivity | assumption].
Qed.

Lemma dict_get_set_other {V} (k k' : cell) (v : V) d :
  k <> k' -> dict_get k' (dict_set k v d) = dict_get k' d.
Proof.
  intros Hn. induction d as [|[k0 v0] d IH]; simpl.
  - destruct (cell_eqb_spec k k'); [contradiction | reflexivity].
  - destruct (cell_eqb_spec k0 k); simpl.
    + subst k0. destruct (cell_eqb_spec k k'); [contradiction | reflexivity].
    + destruct (cell_eqb k0 k'); [reflexivity | assumption].
Qed.

Lemma dict_keys_set_In {V} (k k' : cell) (v : V) d :
  In k' (dict_keys (dict_set k v d)) -> k' = k \/ In k' (dict_keys d).
Proof.
  unfold dict_keys. induction d as [|[k0 v0] d IH]; simpl.
  - intros [H|[]]. now left.
  - destruct (cell_eqb k0 k); simpl.
    + intros H. now right.
    + intros [H|H]; [right; now left|].
      destruct (IH H); [now left | right; now right].
Qed.

Lemma dict_keys_set_head {V} (k : cell) (v : V) d :
  hd k (dict_keys (dict_set k v d)) = hd k (dict_keys d).
Proof.
  destruct d as [|[k0 v0] d]; simpl; [reflexivity|].
  destruct (cell_eqb k0 k); reflexivity.
Qed.

Lemma dict_keys_set_nonempty {V} (k : cell) (v : V) d :
  dict_keys (dict_set k v d) <> [].
Proof.
  destruct d as [|[k0 v0] d]; simpl; [discriminate|].
  destruct (cell_eqb k0 k); discriminate.
Qed.

(** ** Loops that run to their end *)

Lemma for_rows_done body dm rs dm' :
  for_rows body dm rs = Done dm' -> dm' = run body dm rs.
Proof.
  revert dm dm'. induction rs as [|r rs IH]; intros dm dm'; simpl.
  - intros H. now injection H.
  - unfold run. simpl. fold (run body (final (body dm r)) rs).
    destruct (body dm r) as [dm1|dm1 e]; [|discriminate].
    intros H. now apply IH.
Qed.

Lemma for_rows_run body dm rs :
  (forall dm r, In r rs -> succeeded (body dm r) = true) ->
  for_rows body dm rs = Done (run body dm rs).
Proof.
  revert dm. induction rs as [|r rs IH]; intros dm Hb; simpl; [reflexivity|].
  pose proof (Hb dm r (or_introl eq_refl)) as Hs.
  change (run body dm (r :: rs)) with (run body (final (body dm r)) rs).
  destruct (body dm r) as [dm1|dm1 e]; [|discriminate]. simpl.
  apply IH. intros dm2 r2 Hin. apply Hb. now right.
Qed.

Lemma run_app body dm rs1 rs2 :
  run body dm (rs1 ++ rs2) = run body (run body dm rs1) rs2.
Proof. unfold run. apply fold_left_app. Qed.

(** An invariant of the rows' statement holds after the loop. *)
Lemma run_invariant (P : DataManager -> Prop) body rs :
  (forall dm r, In r rs -> P dm -> P (final (body dm r))) ->
  forall dm, P dm -> P (run body dm rs).
Proof.
  induction rs as [|r rs IH]; intros Hb dm HP; [assumption|].
  change (run body dm (r :: rs)) with (run body (final (body dm r)) rs).
  apply IH.
  - intros dm1 r1 Hin. apply Hb. now right.
  - apply Hb; [now left | assumption].
Qed.

(** ** Loops whose rows each add one node and the edge into it *)

Section EdgeLoops.
Variable body : DataManager -> list cell -> outcome.
Variable child : list cell -> string.
Variable parent : DataManager -> list cell -> string.
Hypothesis Hstep : edge_step body child parent.

Lemma step_has_node dm r m :
  has_node (graph (final (body dm r))) m
  = String.eqb (parent dm r) m || String.eqb (child r) m || has_node (graph dm) m.
Proof.
  destruct (Hstep dm r) as [a ->].
  rewrite has_node_add_edge, has_node_add_node.
  destruct (String.eqb (parent dm r) m), (String.eqb (child r) m); reflexivity.
Qed.

Lemma run_has_node_mono rs dm m :
  has_node (graph dm) m = true -> has_node (graph (run body dm rs)) m = true.
Proof.
  apply (run_invariant (fun d => has_node (graph d) m = true)).
  intros d r _ H. rewrite step_has_node, H. now rewrite !orb_true_r.
Qed.

Lemma run_has_node_child rs dm r :
  In r rs -> has_node (graph (run body dm rs)) (child r) = true.
Proof.
  intros Hin. apply in_split in Hin as [rs1 [rs2 ->]].
  rewrite run_app.
  change (run body (run body dm rs1) (r :: rs2))
    with (run body (final (body (run body dm rs1) r)) rs2).
  apply run_has_node_mono.
  rewrite step_has_node, String.eqb_refl. now rewrite orb_true_r.
Qed.

Lemma run_predecessors_other rs dm w :
  (forall r, In r rs -> child r <> w) ->
  predecessors (graph (run body dm rs)) w = predecessors (graph dm) w.
Proof.
  revert dm. induction rs as [|r rs IH]; intros dm Hw; [reflexivity|].
  change (run body dm (r :: rs)) with (run body (final (body dm r)) rs).
  rewrite IH by (intros r' Hr'; apply Hw; now right).
  destruct (Hstep dm r) as [a ->].
  rewrite predecessors_add_edge_other by (apply Hw; now left).
  apply predecessors_add_node.
Qed.

(** With distinct nodes, the row's edge is the only one into its node; [P]
    is any invariant of the loop, known of the manager the row started
    from. *)
Lemma run_predecessors_at (P : DataManager -> Prop) rs :
  (forall dm r, In r rs -> P dm -> P (final (body dm r))) ->
  NoDup (map child rs) ->
  forall dm r,
    P dm -> In r rs -> predecessors (graph dm) (child r) = [] ->
    exists dm_r,
      P dm_r /\ predecessors (graph (run body dm rs)) (child r) = [parent dm_r r].
Proof.
  induction rs as [|r0 rs IH]; intros HP Hnd dm r Hdm Hin Hpre; [destruct Hin|].
  change (run body dm (r0 :: rs)) with (run body (final (body dm r0)) rs).
  simpl in Hnd. inversion Hnd as [|? ? Hnot Hnd']; subst.
  destruct Hin as [<-|Hin].
  - exists dm. split; [assumption|].
    rewrite run_predecessors_other.
    + destruct (Hstep dm r0) as [a ->].
      apply predecessors_add_edge_first.
      now rewrite predecessors_add_node.
    + intros r' Hr' E. apply Hnot. rewrite <- E. now apply in_map.
  - apply IH; try assumption.
    + intros d r' Hr'. apply HP. now right.
    + apply HP; [now left | assumption].
    + destruct (Hstep dm r0) as [a ->].
      rewrite predecessors_add_edge_other, predecessors_add_node; [assumption|].
      intros E. apply Hnot. rewrite E. now apply in_map.
Qed.

End EdgeLoops.

(** ** Loops that fill a mapping *)

Section MappingLoops.
Context {V : Type}.
Variable body : DataManager -> list cell -> outcome.
Variable mapping : DataManager -> list (cell * V).

Lemma run_keeps_mapping rs dm :
  (forall dm r, mapping (final (body dm r)) = mapping dm) ->
  mapping (run body dm rs) = mapping dm.
Proof.
  intros H.
  apply (run_invariant (fun d => mapping d = mapping dm)); [|reflexivity].
  intros d r _ E. now rewrite H.
Qed.

Variable key : list cell -> cell.
Variable entity : list cell -> V.
Hypothesis Hset :
  forall dm r, mapping (final (body dm r)) = dict_set (key r) (entity r) (mapping dm).

Lemma run_dict_get_other rs dm k :
  ~ In k (map key rs) ->
  dict_get k (mapping (run body dm rs)) = dict_get k (mapping dm).
Proof.
  revert dm. induction rs as [|r rs IH]; intros dm Hk; [reflexivity|].
  change (run body dm (r :: rs)) with (run body (final (body dm r)) rs).
  rewrite IH by (intros H; apply Hk; now right).
  rewrite Hset. apply dict_get_set_other.
  intros E. apply Hk. left. exact E.
Qed.

(** With distinct keys, each row's entity is the one stored under its key. *)
Lemma run_dict_get rs dm r :
  NoDup (map key rs) -> In r rs ->
  dict_get (key r) (mapping (run body dm rs)) = Some (entity r).
Proof.
  revert dm. induction rs as [|r0 rs IH]; intros dm Hnd Hin; [destruct Hin|].
  change (run body dm (r0 :: rs)) with (run body (final (body dm r0)) rs).
  simpl in Hnd. inversion Hnd as [|? ? Hnot Hnd']; subst.
  destruct Hin as [<-|Hin].
  - rewrite run_dict_get_other by assumption.
    rewrite Hset. apply dict_get_set_same.
  - now apply IH.
Qed.

(** The first key of the mapping is the key of the first row. *)
Lemma run_first_key rs dm :
  mapping dm = [] ->
  hd_error (dict_keys (mapping (run body dm rs))) = hd_error (map key rs).
Proof.
  intros Hm. destruct rs as [|r rs]; [simpl; now rewrite Hm|].
  change (run body dm (r :: rs)) with (run body (final (body dm r)) rs).
  assert (H : forall rs' d k l, dict_keys (mapping d) = k :: l ->
                hd_error (dict_keys (mapping (run body d rs'))) = Some k).
  { intros rs'. induction rs' as [|r' rs' IH]; intros d k l Hd.
    - simpl. now rewrite Hd.
    - change (run body d (r' :: rs')) with (run body (final (body d r')) rs').
      assert (exists l1, dict_keys (mapping (final (body d r'))) = k :: l1)
        as [l1 H1].
      { rewrite Hset. unfold dict_keys in *.
        destruct (mapping d) as [|[k0 v0] m]; [discriminate|].
        simpl in Hd. injection Hd as -> <-. simpl.
        destruct (cell_eqb k (key r')); simpl; eauto. }
      eapply IH. exact H1. }
  simpl. apply (H rs (final (body dm r)) (key r) []).
  rewrite Hset, Hm. reflexivity.
Qed.

End MappingLoops.

(** ** The rows of the simple format *)

Lemma row_get_some cols r c :
  existsb (String.eqb c) cols = true ->
  row_get cols r c = Some (row_get_default cols r c).
Proof.
  unfold row_get_default. revert r.
  induction cols as [|k cols IH]; intros r; simpl; [discriminate|].
  rewrite (String.eqb_sym c k).
  destruct (String.eqb k c); simpl; [reflexivity|].
  intros H. now rewrite (IH (tl r) H).
Qed.

Section SimpleRows.
Variable py : Builtins.
Variable cols : list string.
Hypothesis Hid : existsb (String.eqb "id") cols = true.
Hypothesis Hname : existsb (String.eqb "name") cols = true.

Ltac open_row :=
  unfold item; rewrite (row_get_some cols _ "id" Hid);
  rewrite (row_get_some cols _ "name" Hname).

Lemma simple_department_row_ok dm r :
  succeeded (simple_department_row cols dm r) = true.
Proof. unfold simple_department_row. open_row. reflexivity. Qed.

Lemma simple_building_row_ok dm r :
  succeeded (simple_building_row py cols dm r) = true.
Proof. unfold simple_building_row. open_row. reflexivity. Qed.

Lemma simple_floor_row_ok dm r :
  succeeded (simple_floor_row py cols dm r) = true.
Proof. unfold simple_floor_row. open_row. reflexivity. Qed.

Lemma simple_room_row_ok dm r :
  succeeded (simple_room_row py cols dm r) = true.
Proof. unfold simple_room_row. open_row. reflexivity. Qed.

Lemma simple_department_row_edge :
  edge_step (simple_department_row cols)
            (fun r => dept_node (row_id cols r)) (fun _ _ => "root").
Proof.
  intros dm r. unfold simple_department_row. open_row.
  eexists. reflexivity.
Qed.

Lemma simple_building_row_edge :
  edge_step (simple_building_row py cols)
            (fun r => building_node (row_id cols r)) (building_parent cols).
Proof.
  intros dm r. unfold simple_building_row. open_row.
  eexists. cbn [final graph set_graph set_buildings].
  rewrite has_node_add_node.
  replace (String.eqb (building_node (row_get_default cols r "id"))
                      (dept_node (row_get_default cols r "building_id")))
    with false by reflexivity.
  unfold building_parent, row_ref, row_id. cbn [orb].
  destruct (truthy _ && has_node _ _); reflexivity.
Qed.

Lemma simple_floor_row_edge :
  edge_step (simple_floor_row py cols)
            (fun r => floor_node (row_id cols r)) (floor_parent cols).
Proof.
  intros dm r. unfold simple_floor_row. open_row.
  eexists. cbn [final graph set_graph set_floors buildings].
  rewrite has_node_add_node.
  replace (String.eqb (floor_node (row_get_default cols r "id"))
                      (building_node (row_get_default cols r "building_id")))
    with false by reflexivity.
  unfold floor_parent, row_ref, row_id. cbn [orb].
  destruct (truthy _ && has_node _ _); [reflexivity|].
  destruct (dict_keys (buildings dm)); reflexivity.
Qed.

Lemma simple_room_row_edge :
  edge_step (simple_room_row py cols)
            (fun r => room_node (row_id cols r)) (room_parent cols).
Proof.
  intros dm r. unfold simple_room_row. open_row.
  eexists. cbn [final graph set_graph set_rooms buildings floors].
  rewrite has_node_add_node.
  replace (String.eqb (room_node (row_get_default cols r "id"))
                      (floor_node (row_get_default cols r "building_id")))
    with false by reflexivity.
  unfold room_parent, row_ref, row_id. cbn [orb].
  destruct (truthy _ && has_node _ _); [reflexivity|].
  destruct (dict_keys (floors dm)); [|reflexivity].
  destruct (dict_keys (buildings dm)); reflexivity.
Qed.

(** What each row does to the four mappings. *)
Lemma simple_department_row_maps dm r :
  departments (final (simple_department_row cols dm r))
  = dict_set (row_id cols r) (department_of_row cols r) (departments dm)
  /\ buildings (final (simple_department_row cols dm r)) = buildings dm
  /\ floors (final (simple_department_row cols dm r)) = floors dm
  /\ rooms (final (simple_department_row cols dm r)) = rooms dm.
Proof. unfold simple_department_row. open_row. repeat split. Qed.

Lemma simple_building_row_maps dm r :
  buildings (final (simple_building_row py cols dm r))
  = dict_set (row_id cols r) (building_of_row py cols r) (buildings dm)
  /\ departments (final (simple_building_row py cols dm r)) = departments dm
  /\ floors (final (simple_building_row py cols dm r)) = floors dm
  /\ rooms (final (simple_building_row py cols dm r)) = rooms dm.
Proof. unfold simple_building_row. open_row. repeat split. Qed.

Lemma simple_floor_row_maps dm r :
  floors (final (simple_floor_row py cols dm r))
  = dict_set (row_id cols r) (floor_of_row py cols r) (floors dm)
  /\ departments (final (simple_floor_row py cols dm r)) = departments dm
  /\ buildings (final (simple_floor_row py cols dm r)) = buildings dm
  /\ rooms (final (simple_floor_row py cols dm r)) = rooms dm.
Proof. unfold simple_floor_row. open_row. repeat split. Qed.

Lemma simple_room_row_maps dm r :
  rooms (final (simple_room_row py cols dm r))
  = dict_set (row_id cols r) (room_of_row py cols r) (rooms dm)
  /\ departments (final (simple_room_row py cols dm r)) = departments dm
  /\ buildings (final (simple_room_row py cols dm r)) = buildings dm
  /\ floors (final (simple_room_row py cols dm r)) = floors dm.
Proof. unfold simple_room_row. open_row. repeat split. Qed.

End SimpleRows.

(** ** The four loops of [_process_simple_format], one after the other *)

Lemma simple_columns_present t :
  all_columns_in simple_format_columns t = true ->
  has_column t "type" = true
  /\ existsb (String.eqb "id") (columns t) = true
  /\ existsb (String.eqb "name") (columns t) = true.
Proof.
  unfold all_columns_in. simpl. unfold has_column.
  intros H. repeat (apply andb_true_iff in H as [? H]). auto.
Qed.

(** A successful run of the importer is the four loops in a row. *)
Lemma _process_simple_format_done py dm t dm' :
  _process_simple_format py dm t = Done dm' -> dm' = after_rooms py dm t.
Proof.
  unfold _process_simple_format.
  destruct (negb (has_column t "type")); [discriminate|].
  destruct (negb (str_accessor_ok (col_values t "type"))); [discriminate|].
  unfold after_rooms, after_floors, after_buildings, after_departments.
  destruct (for_rows (simple_department_row (columns t)) dm _) as [d1|] eqn:E1;
    [|discriminate].
  apply for_rows_done in E1. subst d1. cbn [and_then].
  destruct (for_rows (simple_building_row py (columns t)) _ _) as [d2|] eqn:E2;
    [|discriminate].
  apply for_rows_done in E2. subst d2. cbn [and_then].
  destruct (for_rows (simple_floor_row py (columns t)) _ _) as [d3|] eqn:E3;
    [|discriminate].
  apply for_rows_done in E3. subst d3. cbn [and_then].
  intros H. now apply for_rows_done in H.
Qed.

(** With the columns [type], [id] and [name], and a text in the [type]
    column, no row raises. *)
Lemma _process_simple_format_runs py dm t :
  has_column t "type" = true ->
  existsb (String.eqb "id") (columns t) = true ->
  existsb (String.eqb "name") (columns t) = true ->
  str_accessor_ok (col_values t "type") = true ->
  _process_simple_format py dm t = Done (after_rooms py dm t).
Proof.
  intros Hty Hid Hname Hstr. unfold _process_simple_format.
  rewrite Hty, Hstr. cbn [negb].
  unfold after_rooms, after_floors, after_buildings, after_departments.
  rewrite for_rows_run
    by (intros; now apply simple_department_row_ok).
  cbn [and_then].
  rewrite for_rows_run
    by (intros; now apply simple_building_row_ok).
  cbn [and_then].
  rewrite for_rows_run
    by (intros; now apply simple_floor_row_ok).
  cbn [and_then].
  apply for_rows_run. intros; now apply simple_room_row_ok.
Qed.

Lemma rows_of_type_In t kind r :
  In r (rows_of_type t kind) ->
  In r (rows t)
  /\ exists s, row_get (columns t) r "type" = Some (Str s) /\ lower s = kind.
Proof.
  unfold rows_of_type. rewrite filter_In. intros [Hin H]. split; [assumption|].
  destruct (row_get (columns t) r "type") as [[|s]|]; try discriminate.
  exists s. split; [reflexivity | now apply String.eqb_eq].
Qed.

Lemma rows_of_type_accessor t kind r :
  In r (rows_of_type t kind) -> str_accessor_ok (col_values t "type") = true.
Proof.
  intros H. apply rows_of_type_In in H as [Hin [s [Hs _]]].
  assert (E : existsb is_text (col_values t "type") = true).
  { apply existsb_exists. exists (Str s). split; [|reflexivity].
    unfold col_values. apply in_map_iff. exists r. split; [|assumption].
    unfold row_get_default. now rewrite Hs. }
  unfold str_accessor_ok. destruct (col_values t "type"); [reflexivity | exact E].
Qed.

(** A successful import of a table with a [type] column ends in the manager
    the four loops build from the reset one. *)
Lemma import_done_simple py dm t dm' :
  has_column t "type" = true ->
  import_from_csv py dm t = Done dm' ->
  dm' = after_rooms py (reset (fst (validate_csv dm t)) t) t.
Proof.
  intros Hty H. apply import_done in H as [_ H].
  unfold _process_data in H. rewrite Hty in H.
  now apply _process_simple_format_done.
Qed.

(** A valid simple table with a row of some kind is imported to the end. *)
Lemma import_runs_simple py dm t kind r :
  all_columns_in simple_format_columns t = true ->
  fst (snd (validate_csv dm t)) = true ->
  In r (rows_of_type t kind) ->
  import_from_csv py dm t
  = Done (after_rooms py (reset (fst (validate_csv dm t)) t) t).
Proof.
  intros Hs Hv Hin. destruct (simple_columns_present t Hs) as [Hty [Hid Hname]].
  unfold import_from_csv.
  destruct (validate_csv dm t) as [dm0 [valid msg]]. simpl in *. subst valid.
  simpl. unfold _process_data. rewrite Hty.
  rewrite _process_simple_format_runs; try assumption; [reflexivity|].
  now apply (rows_of_type_accessor t kind r).
Qed.

(** ** Distinct identifiers *)

(** Keeping some of the rows keeps their keys distinct. *)
Lemma filter_keeps_distinct {R K : Type} (keep : R -> bool) (key : R -> K)
      (rs : list R) :
  NoDup (map key rs) -> NoDup (map key (filter keep rs)).
Proof.
  induction rs as [|r rs IH]; simpl; [constructor|].
  intros H. inversion H as [|? ? Hr Hrs]; subst.
  destruct (keep r); simpl; [|auto].
  constructor; [|auto].
  intros Hin. apply Hr. apply in_map_iff in Hin as [r' [Hk Hf]].
  apply filter_In in Hf as [Hf _]. apply in_map_iff. eauto.
Qed.

Lemma col_values_id t : col_values t "id" = map (row_id (columns t)) (rows t).
Proof. reflexivity. Qed.

Lemma rows_of_type_ids_distinct t kind :
  has_dup (col_values t "id") = false ->
  NoDup (map (row_id (columns t)) (rows_of_type t kind)).
Proof.
  intros H. apply has_dup_NoDup in H. rewrite col_values_id in H.
  unfold rows_of_type. now apply filter_keeps_distinct.
Qed.

Lemma NoDup_map_finer {A B C} (f : A -> B) (g : A -> C) (l : list A) :
  (forall x y, g x = g y -> f x = f y) ->
  NoDup (map f l) -> NoDup (map g l).
Proof.
  intros Hfg. induction l as [|x l IH]; simpl; [constructor|].
  intros H. inversion H as [|? ? Hx Hl]; subst. constructor; [|auto].
  intros Hin. apply Hx. apply in_map_iff in Hin as [y [Hy Hl']].
  apply in_map_iff. exists y. split; [now apply Hfg | assumption].
Qed.

Lemma append_inj_r (p u v : string) : p ++ u = p ++ v -> u = v.
Proof.
  induction p as [|a p IH]; simpl; intros E; [assumption|].
  injection E as E. auto.
Qed.

Lemma rows_of_type_nodes_distinct t kind (prefix : string) :
  has_dup (map printed (col_values t "id")) = false ->
  NoDup (map (fun r => prefix ++ py_str (row_id (columns t) r))
             (rows_of_type t kind)).
Proof.
  intros H. apply has_dup_NoDup in H. rewrite col_values_id, map_map in H.
  unfold rows_of_type.
  apply (filter_keeps_distinct _
           (fun r => prefix ++ py_str (row_id (columns t) r))).
  revert H. apply NoDup_map_finer.
  intros x y E. apply append_inj_r in E. unfold printed. now rewrite E.
Qed.

Lemma printed_distinct_ids l :
  has_dup (map printed l) = false -> has_dup l = false.
Proof.
  rewrite !has_dup_NoDup. induction l as [|x l IH]; simpl; [constructor|].
  intros H. inversion H as [|? ? Hx Hl]; subst. constructor; [|auto].
  intros Hin. apply Hx. now apply in_map.
Qed.

(** ** Words *)

Lemma word_is_text c : word c = true -> is_text c = true.
Proof. now destruct c. Qed.

Lemma word_truthy c : word c = true -> truthy c = true.
Proof. destruct c as [|[|a s]]; [discriminate | discriminate | reflexivity]. Qed.

(** No word prints as a missing value does. *)
Lemma word_not_nan c : word c = true -> py_str c <> "nan".
Proof.
  destruct c as [|s]; [discriminate|]. simpl. intros H E. subst s.
  vm_compute in H. discriminate H.
Qed.

Lemma text_printed c : is_text c = true -> printed c = c.
Proof. now destruct c. Qed.

Lemma text_py_str_inj a b :
  is_text a = true -> is_text b = true -> py_str a = py_str b -> a = b.
Proof.
  destruct a, b; simpl; try discriminate. intros _ _ E. now rewrite E.
Qed.

Lemma texts_printed l : forallb is_text l = true -> map printed l = l.
Proof.
  induction l as [|c l IH]; simpl; [reflexivity|].
  intros H. apply andb_true_iff in H as [Hc Hl].
  now rewrite text_printed, IH.
Qed.

Lemma words_texts l : forallb word l = true -> forallb is_text l = true.
Proof.
  rewrite !forallb_forall. intros H c Hc. apply word_is_text. now apply H.
Qed.

(** Distinct words print differently. *)
Lemma words_printed_distinct l :
  forallb word l = true ->
  has_dup l = false -> has_dup (map printed l) = false.
Proof.
  intros Hw Hd. now rewrite texts_printed by now apply words_texts.
Qed.

Lemma rows_of_type_rows t kind r : In r (rows_of_type t kind) -> In r (rows t).
Proof. unfold rows_of_type. rewrite filter_In. tauto. Qed.

Lemma cell_in_column t c r :
  In r (rows t) -> In (row_get_default (columns t) r c) (col_values t c).
Proof.
  intros H. unfold col_values.
  now apply (in_map (fun r => row_get_default (columns t) r c)).
Qed.

Lemma column_of_words t c r :
  forallb word (col_values t c) = true ->
  In r (rows t) -> word (row_get_default (columns t) r c) = true.
Proof.
  intros Hw Hin. rewrite forallb_forall in Hw. apply Hw.
  now apply cell_in_column.
Qed.

(** ** The entities stored by a simple import *)

Section SimpleStore.
Variable py : Builtins.
Variable t : DataFrame.
Hypothesis Hid : existsb (String.eqb "id") (columns t) = true.
Hypothesis Hname : existsb (String.eqb "name") (columns t) = true.
Hypothesis Hdistinct : has_dup (col_values t "id") = false.

Lemma after_rooms_buildings dm :
  buildings (after_rooms py dm t) = buildings (after_buildings py dm t).
Proof.
  unfold after_rooms. rewrite (run_keeps_mapping _ buildings)
    by (intros; now apply simple_room_row_maps).
  unfold after_floors. apply (run_keeps_mapping _ buildings).
  intros; now apply simple_floor_row_maps.
Qed.

Lemma after_rooms_floors dm :
  floors (after_rooms py dm t) = floors (after_floors py dm t).
Proof.
  unfold after_rooms. apply (run_keeps_mapping _ floors).
  intros; now apply simple_room_row_maps.
Qed.

Lemma stored_building dm r :
  In r (rows_of_type t "building") ->
  dict_get (row_id (columns t) r) (buildings (after_rooms py dm t))
  = Some (building_of_row py (columns t) r).
Proof.
  intros Hin. rewrite after_rooms_buildings. unfold after_buildings.
  apply (run_dict_get _ buildings (row_id (columns t))
                      (building_of_row py (columns t))).
  - intros; now apply simple_building_row_maps.
  - now apply rows_of_type_ids_distinct.
  - assumption.
Qed.

Lemma stored_floor dm r :
  In r (rows_of_type t "floor") ->
  dict_get (row_id (columns t) r) (floors (after_rooms py dm t))
  = Some (floor_of_row py (columns t) r).
Proof.
  intros Hin. rewrite after_rooms_floors. unfold after_floors.
  apply (run_dict_get _ floors (row_id (columns t))
                      (floor_of_row py (columns t))).
  - intros; now apply simple_floor_row_maps.
  - now apply rows_of_type_ids_distinct.
  - assumption.
Qed.

Lemma stored_room dm r :
  In r (rows_of_type t "room") ->
  dict_get (row_id (columns t) r) (rooms (after_rooms py dm t))
  = Some (room_of_row py (columns t) r).
Proof.
  intros Hin. unfold after_rooms.
  apply (run_dict_get _ rooms (row_id (columns t))
                      (room_of_row py (columns t))).
  - intros; now apply simple_room_row_maps.
  - now apply rows_of_type_ids_distinct.
  - assumption.
Qed.

End SimpleStore.

(** ** Synthesized coordinates *)

Lemma coordinate_unusable py raw key :
  unusable py raw = true -> coordinate py raw key = synthesized py key.
Proof.
  unfold unusable, coordinate. destruct raw as [[|s]|]; try reflexivity.
  destruct (strip_is_empty s); simpl; [reflexivity|].
  destruct (py_float_ok py s); [discriminate | reflexivity].
Qed.

Lemma coordinate_read py s key :
  strip_is_empty s = false -> py_float_ok py s = true ->
  coordinate py (Some (Str s)) key = VFloat s.
Proof. intros Hb Hf. unfold coordinate. now rewrite Hb, Hf. Qed.

Lemma synthesized_session py1 py2 key :
  same_session py1 py2 -> is_text key = true ->
  synthesized py1 key = synthesized py2 key.
Proof.
  intros [Hh _] Hk. destruct key as [|s]; [discriminate|].
  unfold synthesized. now rewrite Hh.
Qed.

Lemma coordinate_session py1 py2 raw key :
  same_session py1 py2 -> is_text key = true ->
  coordinate py1 raw key = coordinate py2 raw key.
Proof.
  intros Hs Hk. pose proof (synthesized_session py1 py2 key Hs Hk) as E.
  destruct Hs as [_ Hf]. unfold coordinate.
  destruct raw as [[|s]|]; try exact E.
  rewrite Hf, E. reflexivity.
Qed.




Lemma building_of_row_session py1 py2 cols r :
  same_session py1 py2 ->
  is_text (row_id cols r) = true -> is_text (row_name cols r) = true ->
  building_of_row py1 cols r = building_of_row py2 cols r.
Proof.
  intros Hs Hi Hn. unfold building_of_row.
  now rewrite !(coordinate_session py1 py2) by assumption.
Qed.

Lemma floor_of_row_session py1 py2 cols r :
  same_session py1 py2 ->
  is_text (row_id cols r) = true -> is_text (row_name cols r) = true ->
  floor_of_row py1 cols r = floor_of_row py2 cols r.
Proof.
  intros Hs Hi Hn. unfold floor_of_row.
  now rewrite !(coordinate_session py1 py2) by assumption.
Qed.

Lemma room_of_row_session py1 py2 cols r :
  same_session py1 py2 ->
  is_text (row_id cols r) = true -> is_text (row_name cols r) = true ->
  room_of_row py1 cols r = room_of_row py2 cols r.
Proof.
  intros Hs Hi Hn. unfold room_of_row.
  now rewrite !(coordinate_session py1 py2) by assumption.
Qed.

(** A row whose [id] and [name] are present, in two imports of one session
    (of the same table or of two), is stored as the same entity: its
    coordinates are the same both times. *)
Lemma same_row_same_coordinates
      (py1 py2 : Builtins) (dm1 dm2 : DataManager) (t1 t2 : DataFrame)
      (dm1' dm2' : DataManager) (r : list cell) :
  same_session py1 py2 ->
  all_columns_in simple_format_columns t1 = true ->
  all_columns_in simple_format_columns t2 = true ->
  columns t1 = columns t2 ->
  has_dup (col_values t1 "id") = false ->
  has_dup (col_values t2 "id") = false ->
  is_text (row_id (columns t1) r) = true ->
  is_text (row_name (columns t1) r) = true ->
  import_from_csv py1 dm1 t1 = Done dm1' ->
  import_from_csv py2 dm2 t2 = Done dm2' ->
  (In r (rows_of_type t1 "building") -> In r (rows_of_type t2 "building") ->
   dict_get (row_id (columns t1) r) (buildings dm1')
   = dict_get (row_id (columns t1) r) (buildings dm2'))
  /\ (In r (rows_of_type t1 "floor") -> In r (rows_of_type t2 "floor") ->
      dict_get (row_id (columns t1) r) (floors dm1')
      = dict_get (row_id (columns t1) r) (floors dm2'))
  /\ (In r (rows_of_type t1 "room") -> In r (rows_of_type t2 "room") ->
      dict_get (row_id (columns t1) r) (rooms dm1')
      = dict_get (row_id (columns t1) r) (rooms dm2')).
Proof.
  intros Hse Hs1 Hs2 Hc Hd1 Hd2 Hi Hn H1 H2.
  destruct (simple_columns_present t1 Hs1) as [Hty1 [Hid1 Hname1]].
  destruct (simple_columns_present t2 Hs2) as [Hty2 [Hid2 Hname2]].
  rewrite (import_done_simple py1 dm1 t1 dm1' Hty1 H1).
  rewrite (import_done_simple py2 dm2 t2 dm2' Hty2 H2).
  repeat split; intros Hin1 Hin2.
  - rewrite stored_building by assumption.
    rewrite (building_of_row_session py1 py2) by assumption.
    rewrite Hc. now rewrite stored_building.
  - rewrite stored_floor by assumption.
    rewrite (floor_of_row_session py1 py2) by assumption.
    rewrite Hc. now rewrite stored_floor.
  - rewrite stored_room by assumption.
    rewrite (room_of_row_session py1 py2) by assumption.
    rewrite Hc. now rewrite stored_room.
Qed.

(** ** The edges built by a simple import *)

Ltac kinds :=
  unfold dept_node, building_node, floor_node, room_node in *;
  simpl in *; try discriminate; try congruence.

Lemma predecessors_root_graph w : predecessors root_graph w = [].
Proof. reflexivity. Qed.

Section SimpleGraph.
Variable py : Builtins.
Variable t : DataFrame.
Variable dm0 : DataManager.
Hypothesis Hid : existsb (String.eqb "id") (columns t) = true.
Hypothesis Hname : existsb (String.eqb "name") (columns t) = true.
Hypothesis Hprinted : has_dup (map printed (col_values t "id")) = false.
Hypothesis Hfresh : forall w, predecessors (graph dm0) w = [].

Let cols := columns t.

Lemma after_departments_predecessors w :
  (forall x, dept_node x <> w) ->
  predecessors (graph (after_departments dm0 t)) w = [].
Proof.
  intros Hw. unfold after_departments.
  rewrite (run_predecessors_other _ _ _ (simple_department_row_edge cols Hid Hname))
    by (intros; apply Hw).
  apply Hfresh.
Qed.

Lemma after_buildings_predecessors w :
  (forall x, dept_node x <> w) -> (forall x, building_node x <> w) ->
  predecessors (graph (after_buildings py dm0 t)) w = [].
Proof.
  intros Hd Hb. unfold after_buildings.
  rewrite (run_predecessors_other _ _ _ (simple_building_row_edge py cols Hid Hname))
    by (intros; apply Hb).
  now apply after_departments_predecessors.
Qed.

Lemma after_floors_predecessors w :
  (forall x, dept_node x <> w) -> (forall x, building_node x <> w) ->
  (forall x, floor_node x <> w) ->
  predecessors (graph (after_floors py dm0 t)) w = [].
Proof.
  intros Hd Hb Hf. unfold after_floors.
  rewrite (run_predecessors_other _ _ _ (simple_floor_row_edge py cols Hid Hname))
    by (intros; apply Hf).
  now apply after_buildings_predecessors.
Qed.

(** The one edge into a building's node is the edge of its row. *)
Lemma building_predecessors (P : DataManager -> Prop) r :
  (forall dm r', In r' (rows_of_type t "building") -> P dm ->
                 P (final (simple_building_row py cols dm r'))) ->
  P (after_departments dm0 t) ->
  In r (rows_of_type t "building") ->
  exists dm_r,
    P dm_r
    /\ predecessors (graph (after_rooms py dm0 t)) (building_node (row_id cols r))
       = [building_parent cols dm_r r].
Proof.
  intros HP HP0 Hin.
  destruct (run_predecessors_at _ _ _ (simple_building_row_edge py cols Hid Hname)
              P (rows_of_type t "building") HP
              (rows_of_type_nodes_distinct t "building" "building_" Hprinted)
              (after_departments dm0 t) r HP0 Hin) as [dm_r [Hr Hp]].
  { apply after_departments_predecessors. intros x. kinds. }
  exists dm_r. split; [assumption|].
  unfold after_rooms.
  rewrite (run_predecessors_other _ _ _ (simple_room_row_edge py cols Hid Hname))
    by (intros; kinds).
  unfold after_floors.
  rewrite (run_predecessors_other _ _ _ (simple_floor_row_edge py cols Hid Hname))
    by (intros; kinds).
  exact Hp.
Qed.

(** The one edge into a floor's node is the edge of its row. *)
Lemma floor_predecessors (P : DataManager -> Prop) r :
  (forall dm r', In r' (rows_of_type t "floor") -> P dm ->
                 P (final (simple_floor_row py cols dm r'))) ->
  P (after_buildings py dm0 t) ->
  In r (rows_of_type t "floor") ->
  exists dm_r,
    P dm_r
    /\ predecessors (graph (after_rooms py dm0 t)) (floor_node (row_id cols r))
       = [floor_parent cols dm_r r].
Proof.
  intros HP HP0 Hin.
  destruct (run_predecessors_at _ _ _ (simple_floor_row_edge py cols Hid Hname)
              P (rows_of_type t "floor") HP
              (rows_of_type_nodes_distinct t "floor" "floor_" Hprinted)
              (after_buildings py dm0 t) r HP0 Hin) as [dm_r [Hr Hp]].
  { apply after_buildings_predecessors; intros x; kinds. }
  exists dm_r. split; [assumption|].
  unfold after_rooms.
  rewrite (run_predecessors_other _ _ _ (simple_room_row_edge py cols Hid Hname))
    by (intros; kinds).
  exact Hp.
Qed.

(** The one edge into a room's node is the edge of its row. *)
Lemma room_predecessors (P : DataManager -> Prop) r :
  (forall dm r', In r' (rows_of_type t "room") -> P dm ->
                 P (final (simple_room_row py cols dm r'))) ->
  P (after_floors py dm0 t) ->
  In r (rows_of_type t "room") ->
  exists dm_r,
    P dm_r
    /\ predecessors (graph (after_rooms py dm0 t)) (room_node (row_id cols r))
       = [room_parent cols dm_r r].
Proof.
  intros HP HP0 Hin.
  destruct (run_predecessors_at _ _ _ (simple_room_row_edge py cols Hid Hname)
              P (rows_of_type t "room") HP
              (rows_of_type_nodes_distinct t "room" "room_" Hprinted)
              (after_floors py dm0 t) r HP0 Hin) as [dm_r [Hr Hp]].
  { apply after_floors_predecessors; intros x; kinds. }
  exists dm_r. split; assumption.
Qed.

End SimpleGraph.

(** ** Which nodes a simple import creates *)

Lemma tidy_step t body child parent dm r :
  edge_step body child parent ->
  buildings (final (body dm r)) = buildings dm ->
  tidy t dm ->
  known_node t (child r) ->
  (has_node (graph dm) (parent dm r) = false -> known_node t (parent dm r)) ->
  tidy t (final (body dm r)).
Proof.
  intros Hstep Hb [Hn Hk] Hc Hp. split.
  - intros m. rewrite (step_has_node _ _ _ Hstep).
    intros H. apply orb_true_iff in H as [H|H]; [|now apply Hn].
    apply orb_true_iff in H as [H|H]; apply String.eqb_eq in H; subst m.
    + destruct (has_node (graph dm) (parent dm r)) eqn:E; auto.
    + assumption.
  - now rewrite Hb.
Qed.

Section SimpleNodes.
Variable py : Builtins.
Variable t : DataFrame.
Variable dm0 : DataManager.
Hypothesis Hid : existsb (String.eqb "id") (columns t) = true.
Hypothesis Hname : existsb (String.eqb "name") (columns t) = true.
Hypothesis Htidy : tidy t dm0.

Let cols := columns t.

Lemma tidy_department_row dm r :
  tidy t dm -> tidy t (final (simple_department_row cols dm r)).
Proof.
  intros H.
  apply (tidy_step t _ _ _ dm r (simple_department_row_edge cols Hid Hname));
    try assumption.
  - now apply simple_department_row_maps.
  - right. left. eauto.
  - intros _. now left.
Qed.

Lemma tidy_building_row dm r :
  In r (rows_of_type t "building") ->
  tidy t dm -> tidy t (final (simple_building_row py cols dm r)).
Proof.
  intros Hin [Hn Hk]. split.
  - intros m. rewrite (step_has_node _ _ _ (simple_building_row_edge py cols Hid Hname)).
    intros H. apply orb_true_iff in H as [H|H]; [|now apply Hn].
    apply orb_true_iff in H as [H|H]; apply String.eqb_eq in H; subst m.
    + unfold building_parent.
      destruct (truthy _ && has_node _ _); [right; left; eauto | now left].
    + right. right. left. eauto.
  - intros k.
    destruct (simple_building_row_maps py cols Hid Hname dm r) as [-> _].
    intros H. apply dict_keys_set_In in H as [->|H]; [|now apply Hk].
    now apply in_map.
Qed.

Lemma tidy_floor_row dm r :
  tidy t dm -> tidy t (final (simple_floor_row py cols dm r)).
Proof.
  intros H.
  apply (tidy_step t _ _ _ dm r (simple_floor_row_edge py cols Hid Hname));
    try assumption.
  - now apply simple_floor_row_maps.
  - right. right. right. left. eauto.
  - unfold floor_parent. destruct H as [Hn Hk].
    destruct (truthy _ && has_node _ _) eqn:E.
    + apply andb_true_iff in E as [_ E]. intros E'. congruence.
    + intros _. destruct (dict_keys (buildings dm)) as [|b l] eqn:Ek; [now left|].
      specialize (Hk b (or_introl eq_refl)).
      apply in_map_iff in Hk as [rb [<- Hrb]].
      right. right. left. eauto.
Qed.

Lemma tidy_after_buildings : tidy t (after_buildings py dm0 t).
Proof.
  unfold after_buildings.
  apply (run_invariant (tidy t)).
  - intros dm r Hin. now apply tidy_building_row.
  - unfold after_departments. apply (run_invariant (tidy t)); [|assumption].
    intros dm r _. apply tidy_department_row.
Qed.

(** A reference that prints like no building row's identifier names no
    node. *)
Lemma tidy_no_building dm ref :
  tidy t dm ->
  (forall rb, In rb (rows_of_type t "building") ->
              py_str (row_id cols rb) <> py_str ref) ->
  has_node (graph dm) (building_node ref) = false.
Proof.
  intros [Hn _] Hno.
  destruct (has_node (graph dm) (building_node ref)) eqn:E; [|reflexivity].
  apply Hn in E. exfalso.
  destruct E as [E|[[x E]|[[rb [Hrb E]]|[[x E]|[x E]]]]]; kinds.
  apply (Hno rb Hrb). unfold building_node in E.
  apply (append_inj_r "building_") in E. now symmetry.
Qed.

End SimpleNodes.

Lemma tidy_reset dm t : tidy t (reset dm t).
Proof.
  split.
  - intros m H. change (graph (reset dm t)) with root_graph in H.
    unfold root_graph in H. rewrite has_node_add_node in H.
    apply orb_true_iff in H as [H|H].
    + apply String.eqb_eq in H. now left.
    + discriminate H.
  - intros k [].
Qed.

(** ** Fallback attachment *)

Lemma after_buildings_first_key py dm0 t :
  existsb (String.eqb "id") (columns t) = true ->
  existsb (String.eqb "name") (columns t) = true ->
  buildings dm0 = [] ->
  hd_error (dict_keys (buildings (after_buildings py dm0 t)))
  = hd_error (map (row_id (columns t)) (rows_of_type t "building")).
Proof.
  intros Hid Hname H0. unfold after_buildings.
  apply (run_first_key _ buildings (row_id (columns t))
                       (building_of_row py (columns t))).
  - intros; now apply simple_building_row_maps.
  - unfold after_departments. rewrite (run_keeps_mapping _ buildings); [assumption|].
    intros; now apply simple_department_row_maps.
Qed.

(** A floor row whose reference is false, or prints like the identifier of
    no building row, is attached to the first building row's node, or to
    [root] when the table has no building row. *)
Lemma unmatched_floor_falls_back
      (py : Builtins) (dm : DataManager) (t : DataFrame) (r : list cell) :
  all_columns_in simple_format_columns t = true ->
  fst (snd (validate_csv dm t)) = true ->
  has_dup (map printed (col_values t "id")) = false ->
  In r (rows_of_type t "floor") ->
  (truthy (row_ref (columns t) r) = false
   \/ forall rb, In rb (rows_of_type t "building") ->
                 py_str (row_id (columns t) rb) <> py_str (row_ref (columns t) r)) ->
  exists dm',
    import_from_csv py dm t = Done dm'
    /\ predecessors (graph dm') (floor_node (row_id (columns t) r))
       = [match rows_of_type t "building" with
          | first_building :: _ => building_node (row_id (columns t) first_building)
          | [] => "root"
          end].
Proof.
  intros Hs Hv Hp Hin Hdangling.
  destruct (simple_columns_present t Hs) as [Hty [Hid Hname]].
  eexists. split; [now apply (import_runs_simple py dm t "floor" r)|].
  set (dm0 := reset (fst (validate_csv dm t)) t).
  destruct (floor_predecessors py t dm0 Hid Hname Hp (fun w => eq_refl)
              (fun d => tidy t d
                        /\ buildings d = buildings (after_buildings py dm0 t)) r)
    as [dm_r [[Ht Hb] Hpre]]; try assumption.
  { intros d r' _ [Ht Hb]. split.
    - now apply tidy_floor_row.
    - destruct (simple_floor_row_maps py (columns t) Hid Hname d r')
        as [_ [_ [-> _]]]. exact Hb. }
  { split; [|reflexivity]. apply tidy_after_buildings; try assumption.
    apply tidy_reset. }
  rewrite Hpre. f_equal. unfold floor_parent.
  assert (G : truthy (row_ref (columns t) r)
              && has_node (graph dm_r) (building_node (row_ref (columns t) r))
              = false).
  { destruct Hdangling as [E|E]; [now rewrite E|].
    rewrite (tidy_no_building t dm_r (row_ref (columns t) r) Ht E).
    apply andb_false_r. }
  rewrite G, Hb.
  pose proof (after_buildings_first_key py dm0 t Hid Hname eq_refl) as Hk.
  destruct (rows_of_type t "building") as [|rb rbs];
    destruct (dict_keys (buildings (after_buildings py dm0 t)));
    simpl in Hk; try discriminate; [reflexivity|].
  now injection Hk as ->.
Qed.




(** Without any building row the floor hangs from the root. *)
Example lone_floor_hangs_from_root :
  predecessors
    (graph (final (import_from_csv sample_py empty_manager lone_floor_table)))
    "floor_F1" = ["root"].
Proof. vm_compute. reflexivity. Qed.

(** ** Graph and mappings side by side *)


Lemma or_unknown_truthy ref : truthy ref = true -> or_unknown ref = ref.
Proof. unfold or_unknown. now intros ->. Qed.

Section SimpleLinks.
Variable py : Builtins.
Variable t : DataFrame.
Variable dm0 : DataManager.
Hypothesis Hid : existsb (String.eqb "id") (columns t) = true.
Hypothesis Hname : existsb (String.eqb "name") (columns t) = true.
Hypothesis Hprinted : has_dup (map printed (col_values t "id")) = false.
Hypothesis Hfresh : forall w, predecessors (graph dm0) w = [].

Local Abbreviation cols := (columns t).

Lemma building_linked r :
  In r (rows_of_type t "building") ->
  truthy (row_ref cols r) = true ->
  In (row_ref cols r) (map (row_id cols) (rows_of_type t "department")) ->
  predecessors (graph (after_rooms py dm0 t)) (building_node (row_id cols r))
  = [dept_node (row_ref cols r)]
  /\ exists b, dict_get (row_id cols r) (buildings (after_rooms py dm0 t)) = Some b
               /\ building_department_id b = row_ref cols r.
Proof.
  intros Hin Htrue Hparent. split.
  - destruct (building_predecessors py t dm0 Hid Hname Hprinted Hfresh
                (fun d => has_node (graph d) (dept_node (row_ref cols r)) = true) r)
      as [dm_r [Hn Hp]]; try assumption.
    + intros d r' _ H.
      rewrite (step_has_node _ _ _ (simple_building_row_edge py cols Hid Hname)), H.
      now rewrite !orb_true_r.
    + apply in_map_iff in Hparent as [rd [<- Hrd]].
      unfold after_departments.
      apply (run_has_node_child _ _ _ (simple_department_row_edge cols Hid Hname)).
      assumption.
    + rewrite Hp. unfold building_parent. now rewrite Htrue, Hn.
  - eexists. split.
    + apply stored_building; try assumption. now apply printed_distinct_ids.
    + simpl. now apply or_unknown_truthy.
Qed.

Lemma floor_linked r :
  In r (rows_of_type t "floor") ->
  truthy (row_ref cols r) = true ->
  In (row_ref cols r) (map (row_id cols) (rows_of_type t "building")) ->
  predecessors (graph (after_rooms py dm0 t)) (floor_node (row_id cols r))
  = [building_node (row_ref cols r)]
  /\ exists f, dict_get (row_id cols r) (floors (after_rooms py dm0 t)) = Some f
               /\ floor_building_id f = row_ref cols r.
Proof.
  intros Hin Htrue Hparent. split.
  - destruct (floor_predecessors py t dm0 Hid Hname Hprinted Hfresh
                (fun d => has_node (graph d) (building_node (row_ref cols r)) = true) r)
      as [dm_r [Hn Hp]]; try assumption.
    + intros d r' _ H.
      rewrite (step_has_node _ _ _ (simple_floor_row_edge py cols Hid Hname)), H.
      now rewrite !orb_true_r.
    + apply in_map_iff in Hparent as [rb [<- Hrb]].
      unfold after_buildings.
      apply (run_has_node_child _ _ _ (simple_building_row_edge py cols Hid Hname)).
      assumption.
    + rewrite Hp. unfold floor_parent. now rewrite Htrue, Hn.
  - eexists. split.
    + apply stored_floor; try assumption. now apply printed_distinct_ids.
    + simpl. now apply or_unknown_truthy.
Qed.

Lemma room_linked r :
  In r (rows_of_type t "room") ->
  truthy (row_ref cols r) = true ->
  In (row_ref cols r) (map (row_id cols) (rows_of_type t "floor")) ->
  predecessors (graph (after_rooms py dm0 t)) (room_node (row_id cols r))
  = [floor_node (row_ref cols r)]
  /\ exists m, dict_get (row_id cols r) (rooms (after_rooms py dm0 t)) = Some m
               /\ room_floor_id m = row_ref cols r.
Proof.
  intros Hin Htrue Hparent. split.
  - destruct (room_predecessors py t dm0 Hid Hname Hprinted Hfresh
                (fun d => has_node (graph d) (floor_node (row_ref cols r)) = true) r)
      as [dm_r [Hn Hp]]; try assumption.
    + intros d r' _ H.
      rewrite (step_has_node _ _ _ (simple_room_row_edge py cols Hid Hname)), H.
      now rewrite !orb_true_r.
    + apply in_map_iff in Hparent as [rf [<- Hrf]].
      unfold after_floors.
      apply (run_has_node_child _ _ _ (simple_floor_row_edge py cols Hid Hname)).
      assumption.
    + rewrite Hp. unfold room_parent. now rewrite Htrue, Hn.
  - eexists. split.
    + apply stored_room; try assumption. now apply printed_distinct_ids.
    + simpl. now apply or_unknown_truthy.
Qed.

End SimpleLinks.

(** ** The rows of the standard format *)

Lemma all_columns_in_In cs t c :
  all_columns_in cs t = true -> In c cs -> existsb (String.eqb c) (columns t) = true.
Proof.
  unfold all_columns_in. rewrite forallb_forall. intros H Hin. exact (H c Hin).
Qed.

Section StandardRows.
Variable cols : list string.
Hypothesis Hcols :
  forall c, In c standard_columns -> existsb (String.eqb c) cols = true.

Ltac open_std :=
  unfold item;
  repeat match goal with
         | |- context [row_get cols ?r ?c] =>
             rewrite (row_get_some cols r c) by (apply Hcols; simpl; tauto)
         end.

Lemma standard_department_row_ok dm r :
  succeeded (standard_department_row cols dm r) = true.
Proof. unfold standard_department_row. open_std. reflexivity. Qed.

Lemma standard_building_row_ok dm r :
  succeeded (standard_building_row cols dm r) = true.
Proof. unfold standard_building_row. open_std. reflexivity. Qed.

Lemma standard_floor_row_ok dm r :
  succeeded (standard_floor_row cols dm r) = true.
Proof. unfold standard_floor_row. open_std. reflexivity. Qed.

Lemma standard_room_row_ok dm r :
  succeeded (standard_room_row cols dm r) = true.
Proof. unfold standard_room_row. open_std. reflexivity. Qed.

Lemma standard_department_row_edge :
  edge_step (standard_department_row cols)
            (fun r => dept_node (std_department_id cols r)) (fun _ _ => "root").
Proof.
  intros dm r. unfold standard_department_row. open_std. eexists. reflexivity.
Qed.

Lemma standard_building_row_edge :
  edge_step (standard_building_row cols)
            (fun r => building_node (std_building_id cols r))
            (fun _ r => dept_node (std_department_id cols r)).
Proof.
  intros dm r. unfold standard_building_row. open_std. eexists. reflexivity.
Qed.

Lemma standard_floor_row_edge :
  edge_step (standard_floor_row cols)
            (fun r => floor_node (std_floor_id cols r))
            (fun _ r => building_node (std_building_id cols r)).
Proof.
  intros dm r. unfold standard_floor_row. open_std. eexists. reflexivity.
Qed.

Lemma standard_room_row_edge :
  edge_step (standard_room_row cols)
            (fun r => room_node (std_room_id cols r))
            (fun _ r => floor_node (std_floor_id cols r)).
Proof.
  intros dm r. unfold standard_room_row. open_std. eexists. reflexivity.
Qed.

Lemma standard_department_row_maps dm r :
  buildings (final (standard_department_row cols dm r)) = buildings dm
  /\ floors (final (standard_department_row cols dm r)) = floors dm
  /\ rooms (final (standard_department_row cols dm r)) = rooms dm.
Proof. unfold standard_department_row. open_std. repeat split. Qed.

Lemma standard_building_row_maps dm r :
  buildings (final (standard_building_row cols dm r))
  = dict_set (std_building_id cols r) (std_building_of_row cols r) (buildings dm)
  /\ floors (final (standard_building_row cols dm r)) = floors dm
  /\ rooms (final (standard_building_row cols dm r)) = rooms dm.
Proof. unfold standard_building_row. open_std. repeat split. Qed.

Lemma standard_floor_row_maps dm r :
  floors (final (standard_floor_row cols dm r))
  = dict_set (std_floor_id cols r) (std_floor_of_row cols r) (floors dm)
  /\ buildings (final (standard_floor_row cols dm r)) = buildings dm
  /\ rooms (final (standard_floor_row cols dm r)) = rooms dm.
Proof. unfold standard_floor_row. open_std. repeat split. Qed.

Lemma standard_room_row_maps dm r :
  rooms (final (standard_room_row cols dm r))
  = dict_set (std_room_id cols r) (std_room_of_row cols r) (rooms dm)
  /\ buildings (final (standard_room_row cols dm r)) = buildings dm
  /\ floors (final (standard_room_row cols dm r)) = floors dm.
Proof. unfold standard_room_row. open_std. repeat split. Qed.

End StandardRows.

(** Without a repeated value, [drop_duplicates] keeps every row. *)
Lemma drop_duplicates_from_all seen cols c rs :
  (forall r, In r rs -> ~ In (row_get_default cols r c) seen) ->
  NoDup (map (fun r => row_get_default cols r c) rs) ->
  drop_duplicates_from seen cols c rs = rs.
Proof.
  revert seen. induction rs as [|r rs IH]; intros seen Hs Hnd; simpl; [reflexivity|].
  inversion Hnd as [|? ? Hx Hl]; subst.
  destruct (cell_mem (row_get_default cols r c) seen) eqn:E.
  - apply cell_mem_In in E. exfalso. apply (Hs r); [now left | assumption].
  - f_equal. apply IH; [|assumption].
    intros r' Hr' [Hin|Hin].
    + apply Hx. rewrite Hin. now apply (in_map (fun r => row_get_default cols r c)).
    + apply (Hs r'); [now right | assumption].
Qed.

Lemma drop_duplicates_all t c :
  has_dup (col_values t c) = false -> drop_duplicates t c = rows t.
Proof.
  intros H. apply has_dup_NoDup in H. unfold drop_duplicates.
  apply drop_duplicates_from_all; [|exact H]. intros r _ [].
Qed.

Lemma column_nodes_distinct t c (prefix : string) :
  has_dup (map printed (col_values t c)) = false ->
  NoDup (map (fun r => prefix ++ py_str (row_get_default (columns t) r c)) (rows t)).
Proof.
  intros H. apply has_dup_NoDup in H. unfold col_values in H.
  rewrite map_map in H. revert H. apply NoDup_map_finer.
  intros x y E. apply append_inj_r in E. unfold printed. now rewrite E.
Qed.

(** ** The four loops of [_process_standard_format] *)

Lemma for_unique_done t c body dm dm' :
  for_unique t c body dm = Done dm' -> dm' = run body dm (drop_duplicates t c).
Proof.
  unfold for_unique. destruct (has_column t c); [|discriminate].
  apply for_rows_done.
Qed.

Lemma _process_standard_format_done dm t dm' :
  _process_standard_format dm t = Done dm' -> dm' = std_after_rooms dm t.
Proof.
  unfold _process_standard_format.
  unfold std_after_rooms, std_after_floors, std_after_buildings,
    std_after_departments.
  destruct (for_unique t "department_id" _ dm) as [d1|] eqn:E1; [|discriminate].
  apply for_unique_done in E1. subst d1. cbn [and_then].
  destruct (for_unique t "building_id" _ _) as [d2|] eqn:E2; [|discriminate].
  apply for_unique_done in E2. subst d2. cbn [and_then].
  destruct (for_unique t "floor_id" _ _) as [d3|] eqn:E3; [|discriminate].
  apply for_unique_done in E3. subst d3. cbn [and_then].
  intros H. now apply for_rows_done in H.
Qed.

(** A successful import of a table without a [type] column: the table has
    the standard columns and the manager is the one the four loops build. *)
Lemma import_done_standard py dm t dm' :
  has_column t "type" = false ->
  import_from_csv py dm t = Done dm' ->
  all_columns_in standard_columns t = true
  /\ dm' = std_after_rooms (reset (fst (validate_csv dm t)) t) t.
Proof.
  intros Hty H. apply import_done in H as [Hv H]. split.
  - revert Hv. unfold validate_csv. rewrite (all_columns_in_type t Hty).
    destruct (all_columns_in standard_columns t); [reflexivity|].
    simpl. discriminate.
  - unfold _process_data in H. rewrite Hty in H.
    now apply _process_standard_format_done.
Qed.

Section StandardLinks.
Variable t : DataFrame.
Variable dm0 : DataManager.
Hypothesis Hstd : all_columns_in standard_columns t = true.
Hypothesis Hbuildings : has_dup (map printed (col_values t "building_id")) = false.
Hypothesis Hfloors : has_dup (map printed (col_values t "floor_id")) = false.
Hypothesis Hrooms : has_dup (map printed (col_values t "room_id")) = false.
Hypothesis Hfresh : forall w, predecessors (graph dm0) w = [].

Local Abbreviation cols := (columns t).

Lemma standard_column_present c : In c standard_columns -> existsb (String.eqb c) cols = true.
Proof. now apply all_columns_in_In. Qed.

Lemma std_building_linked r :
  In r (rows t) ->
  predecessors (graph (std_after_rooms dm0 t)) (building_node (std_building_id cols r))
  = [dept_node (std_department_id cols r)]
  /\ exists b,
       dict_get (std_building_id cols r) (buildings (std_after_rooms dm0 t)) = Some b
       /\ building_department_id b = std_department_id cols r.
Proof.
  intros Hin.
  pose proof (printed_distinct_ids _ Hbuildings) as Hb.
  split.
  - unfold std_after_rooms.
    rewrite (run_predecessors_other _ _ _ (standard_room_row_edge cols standard_column_present))
      by (intros; kinds).
    unfold std_after_floors.
    rewrite (run_predecessors_other _ _ _ (standard_floor_row_edge cols standard_column_present))
      by (intros; kinds).
    unfold std_after_buildings. rewrite (drop_duplicates_all t _ Hb).
    destruct (run_predecessors_at _ _ _ (standard_building_row_edge cols standard_column_present)
                (fun _ => True) (rows t) (fun _ _ _ _ => I)
                (column_nodes_distinct t "building_id" "building_" Hbuildings)
                (std_after_departments dm0 t) r I Hin) as [dm_r [_ Hp]];
      [|exact Hp].
    unfold std_after_departments.
    rewrite (run_predecessors_other _ _ _ (standard_department_row_edge cols standard_column_present))
      by (intros; kinds).
    apply Hfresh.
  - eexists. split.
    + unfold std_after_rooms. rewrite (run_keeps_mapping _ buildings)
        by (intros; apply (standard_room_row_maps cols standard_column_present)).
      unfold std_after_floors. rewrite (run_keeps_mapping _ buildings)
        by (intros; apply (standard_floor_row_maps cols standard_column_present)).
      unfold std_after_buildings. rewrite (drop_duplicates_all t _ Hb).
      apply (run_dict_get _ buildings (std_building_id cols) (std_building_of_row cols)).
      * intros; apply (standard_building_row_maps cols standard_column_present).
      * apply has_dup_NoDup in Hb. exact Hb.
      * assumption.
    + reflexivity.
Qed.

Lemma std_floor_linked r :
  In r (rows t) ->
  predecessors (graph (std_after_rooms dm0 t)) (floor_node (std_floor_id cols r))
  = [building_node (std_building_id cols r)]
  /\ exists f,
       dict_get (std_floor_id cols r) (floors (std_after_rooms dm0 t)) = Some f
       /\ floor_building_id f = std_building_id cols r.
Proof.
  intros Hin.
  pose proof (printed_distinct_ids _ Hfloors) as Hf.
  split.
  - unfold std_after_rooms.
    rewrite (run_predecessors_other _ _ _ (standard_room_row_edge cols standard_column_present))
      by (intros; kinds).
    unfold std_after_floors. rewrite (drop_duplicates_all t _ Hf).
    destruct (run_predecessors_at _ _ _ (standard_floor_row_edge cols standard_column_present)
                (fun _ => True) (rows t) (fun _ _ _ _ => I)
                (column_nodes_distinct t "floor_id" "floor_" Hfloors)
                (std_after_buildings dm0 t) r I Hin) as [dm_r [_ Hp]];
      [|exact Hp].
    unfold std_after_buildings.
    rewrite (run_predecessors_other _ _ _ (standard_building_row_edge cols standard_column_present))
      by (intros; kinds).
    unfold std_after_departments.
    rewrite (run_predecessors_other _ _ _ (standard_department_row_edge cols standard_column_present))
      by (intros; kinds).
    apply Hfresh.
  - eexists. split.
    + unfold std_after_rooms. rewrite (run_keeps_mapping _ floors)
        by (intros; apply (standard_room_row_maps cols standard_column_present)).
      unfold std_after_floors. rewrite (drop_duplicates_all t _ Hf).
      apply (run_dict_get _ floors (std_floor_id cols) (std_floor_of_row cols)).
      * intros; apply (standard_floor_row_maps cols standard_column_present).
      * apply has_dup_NoDup in Hf. exact Hf.
      * assumption.
    + reflexivity.
Qed.

Lemma std_room_linked r :
  In r (rows t) ->
  predecessors (graph (std_after_rooms dm0 t)) (room_node (std_room_id cols r))
  = [floor_node (std_floor_id cols r)]
  /\ exists m,
       dict_get (std_room_id cols r) (rooms (std_after_rooms dm0 t)) = Some m
       /\ room_floor_id m = std_floor_id cols r.
Proof.
  intros Hin.
  pose proof (printed_distinct_ids _ Hrooms) as Hr.
  split.
  - unfold std_after_rooms.
    destruct (run_predecessors_at _ _ _ (standard_room_row_edge cols standard_column_present)
                (fun _ => True) (rows t) (fun _ _ _ _ => I)
                (column_nodes_distinct t "room_id" "room_" Hrooms)
                (std_after_floors dm0 t) r I Hin) as [dm_r [_ Hp]];
      [|exact Hp].
    unfold std_after_floors.
    rewrite (run_predecessors_other _ _ _ (standard_floor_row_edge cols standard_column_present))
      by (intros; kinds).
    unfold std_after_buildings.
    rewrite (run_predecessors_other _ _ _ (standard_building_row_edge cols standard_column_present))
      by (intros; kinds).
    unfold std_after_departments.
    rewrite (run_predecessors_other _ _ _ (standard_department_row_edge cols standard_column_present))
      by (intros; kinds).
    apply Hfresh.
  - eexists. split.
    + unfold std_after_rooms.
      apply (run_dict_get _ rooms (std_room_id cols) (std_room_of_row cols)).
      * intros; apply (standard_room_row_maps cols standard_column_present).
      * apply has_dup_NoDup in Hr. exact Hr.
      * assumption.
    + reflexivity.
Qed.

End StandardLinks.



(** ** [search] on texts *)

Lemma prefix_spec (q t : string) :
  String.prefix q t = true <-> exists post, t = q ++ post.
Proof.
  revert t. induction q as [|a q IH]; intros t.
  - split; [intros _; now exists t | intros _; now destruct t].
  - destruct t as [|b t]; simpl;
      [split; [discriminate | intros [post H]; discriminate]|].
    destruct (Ascii.ascii_dec a b) as [->|Hn].
    + rewrite IH. split; intros [post H]; exists post; [now rewrite H|].
      now injection H.
    + split; [discriminate|]. intros [post H]. injection H as H _. congruence.
Qed.

(** [str_in] is the substring test. *)
Lemma str_in_spec (q t : string) :
  str_in q t = true <-> exists pre post, t = pre ++ q ++ post.
Proof.
  induction t as [|b t IH]; cbn [str_in]; rewrite orb_true_iff.
  - split.
    + intros [H|H]; [|discriminate]. apply prefix_spec in H as [post H].
      now exists "", post.
    + intros [pre [post H]]. left. apply prefix_spec.
      destruct pre; [now exists post | discriminate].
  - rewrite IH, prefix_spec. split.
    + intros [[post H]|[pre [post H]]].
      * now exists "", post.
      * exists (String b pre), post. simpl. now rewrite H.
    + intros [pre [post H]]. destruct pre as [|c pre].
      * left. now exists post.
      * right. simpl in H. injection H as _ H. now exists pre, post.
Qed.

(** On a field that holds a text, [matches_query] is the case-insensitive
    substring test. *)
Lemma matches_query_text (query s : string) :
  query <> "" ->
  matches_query (lower query) (Str s) = true
  <-> contains_ignoring_case query (Str s).
Proof.
  intros Hq. unfold matches_query, contains_ignoring_case. simpl. split.
  - intros H. apply andb_true_iff in H as [_ H].
    apply str_in_spec in H as [pre [post H]]. now exists s, pre, post.
  - intros [s' [pre [post [E H]]]]. injection E as <-.
    apply andb_true_iff. split.
    + destruct s as [|a s]; [|reflexivity].
      simpl in H. destruct pre; simpl in H; [|discriminate].
      destruct query; [contradiction | discriminate].
    + apply str_in_spec. now exists pre, post.
Qed.

(** C8, at the failing input: the department [CS] was imported with a blank
    description; the query [na] occurs neither in its name nor in any text of
    its description, yet the department is returned, the missing description
    being read as the text [nan]. *)
Theorem C8_blank_description_matches_nan :
  let dm := final (import_from_csv sample_py empty_manager one_department_table) in
  let d := mkDepartment (Str "D1") (Str "CS") NaN in
  dict_values (departments dm) = [d]
  /\ ~ contains_ignoring_case "na" (dept_name d)
  /\ ~ contains_ignoring_case "na" (dept_description d)
  /\ found_departments (search dm "na") = [d].
Proof.
  repeat split; try (vm_compute; reflexivity).
  - intros [s [pre [post [E H]]]]. injection E as <-.
    assert (C : str_in (lower "na") (lower "CS") = true)
      by (apply str_in_spec; now exists pre, post).
    vm_compute in C. discriminate C.
  - intros [s [pre [post [E H]]]]. discriminate E.
Qed.

(** The engine returns, in the order of the store, the departments, buildings
    and floors that match on [name] or [description] and the rooms that match
    on [name], [type], [description] or [facilities]; a query of one
    character is answered like any other. *)
Lemma search_results (dm : DataManager) (query : string) :
  query <> "" ->
  let q := lower query in
  (forall d, In d (found_departments (search dm query))
             <-> In d (dict_values (departments dm))
                 /\ (matches_query q (dept_name d) = true
                     \/ matches_query q (dept_description d) = true))
  /\ (forall b, In b (found_buildings (search dm query))
                <-> In b (dict_values (buildings dm))
                    /\ (matches_query q (building_name b) = true
                        \/ matches_query q (building_description b) = true))
  /\ (forall f, In f (found_floors (search dm query))
                <-> In f (dict_values (floors dm))
                    /\ (matches_query q (floor_name f) = true
                        \/ matches_query q (floor_description f) = true))
  /\ (forall m, In m (found_rooms (search dm query))
                <-> In m (dict_values (rooms dm))
                    /\ (matches_query q (room_name m) = true
                        \/ matches_query q (room_type m) = true
                        \/ matches_query q (room_description m) = true
                        \/ matches_query q (room_facilities m) = true)).
Proof.
  intros Hq q. unfold search.
  destruct (String.eqb_spec query ""); [contradiction|].
  cbn [found_departments found_buildings found_floors found_rooms].
  split; [|split; [|split]]; intros x; rewrite filter_In, ?orb_true_iff; tauto.
Qed.

(** The scenario of the specification: the query [Lab] finds the room
    [CS Lab 1] and no department. *)
Example search_scoping :
  let dm := mkDM (mkDF [] []) root_graph
              [(Str "D1", mkDepartment (Str "D1") (Str "Computer Science") (Str ""))]
              [] []
              [(Str "R1", mkRoom (Str "R1") (Str "F1") (Str "CS Lab 1") (Str "lab")
                                 (Str "") (VInt 30) (VInt 10) (VInt 20)
                                 (Str "") (Str ""))]
              [] in
  found_departments (search dm "Lab") = []
  /\ map room_id (found_rooms (search dm "Lab")) = [Str "R1"]
  /\ map room_id (found_rooms (search dm "b")) = [Str "R1"]
  /\ search_interface dm "b" = None.
Proof. repeat split; vm_compute; reflexivity. Qed.

(** * Further properties of the manager *)

(** ** When a table is valid *)

(** X1: [validate_csv] accepts a table exactly when it has every standard
    column and none of the four identifier columns repeats a value, or it
    lacks a standard column, has every simple column and its [id] column
    repeats no value. *)
Theorem validate_csv_accepts_iff (dm : DataManager) (t : DataFrame) :
  fst (snd (validate_csv dm t)) = true
  <-> (all_columns_in standard_columns t = true
       /\ forall c, In c standard_id_columns -> has_dup (col_values t c) = false)
      \/ (all_columns_in standard_columns t = false
          /\ all_columns_in simple_format_columns t = true
          /\ has_dup (col_values t "id") = false).
Proof. exact (validate_csv_accepted dm t). Qed.

(** ** How an import can fail *)

Lemma row_get_none cols r c :
  existsb (String.eqb c) cols = false -> row_get cols r c = None.
Proof.
  revert r. induction cols as [|k cols IH]; intros r; simpl; [reflexivity|].
  rewrite (String.eqb_sym c k). destruct (String.eqb k c); simpl; [discriminate|].
  apply IH.
Qed.

(** A loop whose rows all leave the manager alone leaves it alone. *)
Lemma for_rows_inert body dm rs :
  (forall d r, final (body d r) = d) -> final (for_rows body dm rs) = dm.
Proof.
  intros Hb. revert dm. induction rs as [|r rs IH]; intros dm; simpl; [reflexivity|].
  pose proof (Hb dm r) as H.
  destruct (body dm r) as [d|d e]; simpl in *; subst d; [apply IH | reflexivity].
Qed.

Lemma and_then_inert o k dm :
  final o = dm -> (forall d, final (k d) = d) -> final (and_then o k) = dm.
Proof.
  intros Ho Hk. destruct o as [d|d e]; simpl in *; subst d; [apply Hk | reflexivity].
Qed.

(** Without the [id] or the [name] column no row of the simple format
    changes anything: each one raises [KeyError] at once. *)
Lemma simple_rows_inert py cols :
  existsb (String.eqb "id") cols && existsb (String.eqb "name") cols = false ->
  (forall d r, final (simple_department_row cols d r) = d)
  /\ (forall d r, final (simple_building_row py cols d r) = d)
  /\ (forall d r, final (simple_floor_row py cols d r) = d)
  /\ (forall d r, final (simple_room_row py cols d r) = d).
Proof.
  intros H.
  assert (Hcase : forall r, row_get cols r "id" = None
                            \/ (exists v, row_get cols r "id" = Some v)
                               /\ row_get cols r "name" = None).
  { intros r. apply andb_false_iff in H as [H|H].
    - left. now apply row_get_none.
    - destruct (row_get cols r "id") as [v|]; [|now left].
      right. split; [eauto | now apply row_get_none]. }
  repeat split; intros d r;
    unfold simple_department_row, simple_building_row, simple_floor_row,
      simple_room_row, item;
    destruct (Hcase r) as [->|[[v ->] ->]]; reflexivity.
Qed.

(** When [_process_simple_format] raises, the manager is as it was handed
    over. *)
Lemma _process_simple_format_raised py dm t dm' e :
  _process_simple_format py dm t = Raised dm' e -> dm' = dm.
Proof.
  destruct (existsb (String.eqb "id") (columns t)
            && existsb (String.eqb "name") (columns t)) eqn:Hc.
  - apply andb_true_iff in Hc as [Hid Hname].
    unfold _process_simple_format.
    destruct (negb (has_column t "type")) eqn:Hty;
      [intros H; now injection H|].
    destruct (negb (str_accessor_ok (col_values t "type"))) eqn:Hstr;
      [intros H; now injection H|].
    apply negb_false_iff in Hty, Hstr.
    pose proof (_process_simple_format_runs py dm t Hty Hid Hname Hstr) as Hrun.
    unfold _process_simple_format in Hrun. rewrite Hty, Hstr in Hrun.
    cbn [negb] in Hrun. rewrite Hrun. discriminate.
  - destruct (simple_rows_inert py (columns t) Hc) as [Hd [Hb [Hf Hr]]].
    intros H.
    assert (E : final (_process_simple_format py dm t) = dm).
    { unfold _process_simple_format.
      destruct (negb (has_column t "type")); [reflexivity|].
      destruct (negb (str_accessor_ok (col_values t "type"))); [reflexivity|].
      apply and_then_inert; [now apply for_rows_inert | intros d1].
      apply and_then_inert; [now apply for_rows_inert | intros d2].
      apply and_then_inert; [now apply for_rows_inert | intros d3].
      now apply for_rows_inert. }
    rewrite H in E. exact E.
Qed.

(** With every standard column the importer of the standard format runs
    to its end. *)
Lemma _process_standard_format_runs dm t :
  all_columns_in standard_columns t = true ->
  _process_standard_format dm t = Done (std_after_rooms dm t).
Proof.
  intros Hstd.
  assert (Hcols : forall c, In c standard_columns ->
                            existsb (String.eqb c) (columns t) = true)
    by (intros c; now apply all_columns_in_In).
  unfold _process_standard_format, for_unique.
  unfold std_after_rooms, std_after_floors, std_after_buildings,
    std_after_departments.
  unfold has_column. rewrite !Hcols by (simpl; tauto).
  rewrite for_rows_run by (intros; now apply standard_department_row_ok).
  cbn [and_then].
  rewrite for_rows_run by (intros; now apply standard_building_row_ok).
  cbn [and_then].
  rewrite for_rows_run by (intros; now apply standard_floor_row_ok).
  cbn [and_then].
  apply for_rows_run. intros; now apply standard_room_row_ok.
Qed.

Lemma valid_without_type t dm :
  has_column t "type" = false ->
  fst (snd (validate_csv dm t)) = true ->
  all_columns_in standard_columns t = true.
Proof.
  intros Hty Hv. apply validate_csv_accepted in Hv as [[H _]|[_ [H _]]];
    [assumption|].
  rewrite (all_columns_in_type t Hty) in H. discriminate.
Qed.

(** X2: an import that fails either was refused by the validator, and then
    the mappings, the graph and the stored table are untouched, or it raised
    while processing a table with a [type] column, and then the store has
    been emptied: the table is stored, the graph holds the root alone and the
    four mappings are empty. *)
Theorem failed_import_keeps_or_empties_store
        (py : Builtins) (dm : DataManager) (t : DataFrame)
        (dm' : DataManager) (e : exn) :
  import_from_csv py dm t = Raised dm' e ->
  (fst (snd (validate_csv dm t)) = false
   /\ store dm' = store dm /\ df dm' = df dm)
  \/ (fst (snd (validate_csv dm t)) = true
      /\ has_column t "type" = true
      /\ store dm' = (root_graph, [], [], [], [])
      /\ df dm' = t).
Proof.
  unfold import_from_csv.
  pose proof (validate_csv_store dm t) as [Hs Hd].
  pose proof (valid_without_type t dm) as Hstd.
  destruct (validate_csv dm t) as [dm0 [valid msg]]. simpl in *.
  destruct valid; simpl.
  - destruct (_process_data py dm0 t) as [d|d e0] eqn:E; [discriminate|].
    intros H. injection H as <- _. right.
    unfold _process_data in E.
    destruct (has_column t "type") eqn:Hty.
    + apply _process_simple_format_raised in E. subst d. auto.
    + rewrite (_process_standard_format_runs _ t (Hstd eq_refl eq_refl)) in E.
      discriminate.
  - intros H. injection H as <- _. left. auto.
Qed.

Lemma failed_import_keeps_or_empties_store_witness :
  store (final (import_from_csv sample_py
                  (final (import_from_csv sample_py empty_manager campus_table))
                  typed_standard_table))
  = (root_graph, [], [], [], []).
Proof.
  destruct (failed_import_keeps_or_empties_store sample_py
              (final (import_from_csv sample_py empty_manager campus_table))
              typed_standard_table _ _ eq_refl) as [[H _]|[_ [_ [H _]]]].
  - discriminate H.
  - exact H.
Defined.

(** X3: a table without a [type] column that the validator accepts is always
    imported to the end. *)
Theorem valid_standard_table_is_imported
        (py : Builtins) (dm : DataManager) (t : DataFrame) :
  has_column t "type" = false ->
  fst (snd (validate_csv dm t)) = true ->
  exists dm', import_from_csv py dm t = Done dm' /\ df dm' = t.
Proof.
  intros Hty Hv. pose proof (valid_without_type t dm Hty Hv) as Hstd.
  assert (E : import_from_csv py dm t
              = Done (std_after_rooms (reset (fst (validate_csv dm t)) t) t)).
  { unfold import_from_csv.
    destruct (validate_csv dm t) as [dm0 [valid msg]]. simpl in *. subst valid.
    simpl. unfold _process_data. rewrite Hty.
    now rewrite _process_standard_format_runs. }
  eexists. split; [exact E|]. now apply (import_done_df py dm).
Qed.

Lemma valid_standard_table_is_imported_witness :
  exists dm',
    import_from_csv sample_py empty_manager one_room_table = Done dm'
    /\ df dm' = one_room_table.
Proof.
  exact (valid_standard_table_is_imported sample_py empty_manager one_room_table
           eq_refl eq_refl).
Defined.

Lemma words_or_blanks_texts l :
  forallb word_or_blank l = true -> existsb is_text l = existsb word l.
Proof.
  induction l as [|c l IH]; simpl; [reflexivity|].
  intros H. apply andb_true_iff in H as [Hc Hl]. rewrite (IH Hl).
  destruct c as [|s]; simpl in *; [reflexivity | now rewrite Hc].
Qed.

(** X4: a table with every simple column that the validator accepts, and
    whose [type] cells are words or blank, is imported to the end exactly
    when its [type] column offers the [.str] accessor, that is when the table
    has no row or some [type] cell is a word; otherwise the import raises. *)
Theorem valid_simple_table_is_imported_iff
        (py : Builtins) (dm : DataManager) (t : DataFrame) :
  all_columns_in simple_format_columns t = true ->
  fst (snd (validate_csv dm t)) = true ->
  forallb word_or_blank (col_values t "type") = true ->
  succeeded (import_from_csv py dm t) = true
  <-> (rows t = [] \/ existsb word (col_values t "type") = true).
Proof.
  intros Hs Hv Hw. destruct (simple_columns_present t Hs) as [Hty [Hid Hname]].
  rewrite <- (words_or_blanks_texts _ Hw).
  assert (Hacc : str_accessor_ok (col_values t "type") = true
                 <-> (rows t = [] \/ existsb is_text (col_values t "type") = true)).
  { unfold str_accessor_ok, col_values.
    destruct (rows t) as [|r rs]; simpl; [tauto|].
    split; [intros H; now right | intros [H|H]; [discriminate | exact H]]. }
  rewrite <- Hacc. unfold import_from_csv.
  destruct (validate_csv dm t) as [dm0 [valid msg]]. simpl in *. subst valid.
  simpl. unfold _process_data. rewrite Hty.
  destruct (str_accessor_ok (col_values t "type")) eqn:Hstr.
  - rewrite _process_simple_format_runs by assumption. simpl. tauto.
  - unfold _process_simple_format. rewrite Hty, Hstr. simpl.
    split; discriminate.
Qed.

Lemma valid_simple_table_is_imported_iff_witness :
  succeeded (import_from_csv sample_py empty_manager campus_table) = true
  <-> (rows campus_table = []
       \/ existsb word (col_values campus_table "type") = true).
Proof.
  exact (valid_simple_table_is_imported_iff sample_py empty_manager campus_table
           eq_refl eq_refl eq_refl).
Defined.

Lemma for_rows_ext body1 body2 dm rs :
  (forall d r, In r rs -> body1 d r = body2 d r) ->
  for_rows body1 dm rs = for_rows body2 dm rs.
Proof.
  revert dm. induction rs as [|r rs IH]; intros dm H; simpl; [reflexivity|].
  rewrite (H dm r (or_introl eq_refl)).
  destruct (body2 dm r) as [d|d e]; [|reflexivity].
  apply IH. intros d' r' Hr'. apply H. now right.
Qed.

Lemma and_then_ext o k1 k2 :
  (forall d, k1 d = k2 d) -> and_then o k1 = and_then o k2.
Proof. intros H. destruct o; simpl; [apply H | reflexivity]. Qed.

Section SameSession.
Variables py1 py2 : Builtins.
Variable t : DataFrame.
Hypothesis Hsession : same_session py1 py2.
Hypothesis Hids : forallb is_text (col_values t "id") = true.
Hypothesis Hnames : forallb is_text (col_values t "name") = true.

Lemma present_cell_is_text c r v :
  forallb is_text (col_values t c) = true ->
  In r (rows t) -> row_get (columns t) r c = Some v -> is_text v = true.
Proof.
  intros Hc Hin Hv. rewrite forallb_forall in Hc. apply Hc.
  replace v with (row_get_default (columns t) r c)
    by (unfold row_get_default; now rewrite Hv).
  now apply cell_in_column.
Qed.

Lemma simple_building_row_session dm r :
  In r (rows t) ->
  simple_building_row py1 (columns t) dm r
  = simple_building_row py2 (columns t) dm r.
Proof.
  intros Hin. unfold simple_building_row, item.
  destruct (row_get (columns t) r "id") as [i|] eqn:Ei; [|reflexivity].
  destruct (row_get (columns t) r "name") as [n|] eqn:En; [|reflexivity].
  rewrite (coordinate_session py1 py2 _ i Hsession)
    by (apply (present_cell_is_text "id" r); assumption).
  rewrite (coordinate_session py1 py2 _ n Hsession)
    by (apply (present_cell_is_text "name" r); assumption).
  reflexivity.
Qed.

Lemma simple_floor_row_session dm r :
  In r (rows t) ->
  simple_floor_row py1 (columns t) dm r = simple_floor_row py2 (columns t) dm r.
Proof.
  intros Hin. unfold simple_floor_row, item.
  destruct (row_get (columns t) r "id") as [i|] eqn:Ei; [|reflexivity].
  destruct (row_get (columns t) r "name") as [n|] eqn:En; [|reflexivity].
  rewrite (coordinate_session py1 py2 _ i Hsession)
    by (apply (present_cell_is_text "id" r); assumption).
  rewrite (coordinate_session py1 py2 _ n Hsession)
    by (apply (present_cell_is_text "name" r); assumption).
  reflexivity.
Qed.

Lemma simple_room_row_session dm r :
  In r (rows t) ->
  simple_room_row py1 (columns t) dm r = simple_room_row py2 (columns t) dm r.
Proof.
  intros Hin. unfold simple_room_row, item.
  destruct (row_get (columns t) r "id") as [i|] eqn:Ei; [|reflexivity].
  destruct (row_get (columns t) r "name") as [n|] eqn:En; [|reflexivity].
  rewrite (coordinate_session py1 py2 _ i Hsession)
    by (apply (present_cell_is_text "id" r); assumption).
  rewrite (coordinate_session py1 py2 _ n Hsession)
    by (apply (present_cell_is_text "name" r); assumption).
  reflexivity.
Qed.

Lemma _process_simple_format_session dm :
  _process_simple_format py1 dm t = _process_simple_format py2 dm t.
Proof.
  unfold _process_simple_format.
  destruct (negb (has_column t "type")); [reflexivity|].
  destruct (negb (str_accessor_ok (col_values t "type"))); [reflexivity|].
  cbv zeta. apply and_then_ext. intros d1.
  rewrite (for_rows_ext (simple_building_row py1 (columns t))
                        (simple_building_row py2 (columns t)))
    by (intros d r Hr; apply simple_building_row_session;
        now apply (rows_of_type_rows t "building")).
  apply and_then_ext. intros d2.
  rewrite (for_rows_ext (simple_floor_row py1 (columns t))
                        (simple_floor_row py2 (columns t)))
    by (intros d r Hr; apply simple_floor_row_session;
        now apply (rows_of_type_rows t "floor")).
  apply and_then_ext. intros d3.
  apply for_rows_ext. intros d r Hr. apply simple_room_row_session.
  now apply (rows_of_type_rows t "room").
Qed.

End SameSession.

(** The result of [_process_data] is that of any moment of the session, for
    a table without a [type] column or with every [id] and [name] present. *)
Lemma _process_data_session py1 py2 dm t :
  same_session py1 py2 ->
  (has_column t "type" = false
   \/ (forallb is_text (col_values t "id") = true
       /\ forallb is_text (col_values t "name") = true)) ->
  _process_data py1 dm t = _process_data py2 dm t.
Proof.
  intros Hs H. unfold _process_data. cbv zeta.
  destruct H as [Hty|[Hi Hn]].
  - now rewrite Hty.
  - destruct (has_column t "type"); [|reflexivity].
    now apply _process_simple_format_session.
Qed.

(** X5: a successful import replaces the manager wholesale: whatever the
    manager held before, importing the same table at any moment of the
    session ends in the same manager, for a table without a [type] column
    or with every [id] and [name] present. *)
Theorem import_forgets_previous_store
        (py1 py2 : Builtins) (dm1 dm2 : DataManager) (t : DataFrame)
        (dm' : DataManager) :
  same_session py1 py2 ->
  (has_column t "type" = false
   \/ (forallb is_text (col_values t "id") = true
       /\ forallb is_text (col_values t "name") = true)) ->
  import_from_csv py1 dm1 t = Done dm' ->
  import_from_csv py2 dm2 t = Done dm'.
Proof.
  intros Hs Ht H. apply (import_again py1 dm1 dm2) in H.
  revert H. unfold import_from_csv.
  destruct (validate_csv dm2 t) as [dm0 [valid msg]].
  destruct (negb valid); [discriminate|].
  now rewrite (_process_data_session py1 py2 dm0 t Hs Ht).
Qed.

Lemma import_forgets_previous_store_witness :
  import_from_csv sample_py_later
    (final (import_from_csv sample_py empty_manager one_room_table))
    campus_table
  = Done (final (import_from_csv sample_py empty_manager campus_table)).
Proof.
  exact (import_forgets_previous_store sample_py sample_py_later empty_manager _
           campus_table _
           (conj (fun s => eq_refl) (fun s => eq_refl))
           (or_intror (conj eq_refl eq_refl)) eq_refl).
Defined.

(** ** Entities and their keys *)

Lemma dict_set_In_inv {V} (k k' : cell) (v v' : V) d :
  In (k', v') (dict_set k v d) -> (k' = k /\ v' = v) \/ In (k', v') d.
Proof.
  induction d as [|[k0 v0] d IH]; simpl.
  - intros [H|[]]. injection H as <- <-. now left.
  - destruct (cell_eqb_spec k0 k) as [->|Hn]; simpl.
    + intros [H|H]; [injection H as <- <-; now left | right; now right].
    + intros [H|H]; [right; now left|].
      destruct (IH H) as [H'|H']; [now left | right; now right].
Qed.

(** A property of the final manager that every statement keeps. *)
Lemma for_rows_final (P : DataManager -> Prop) body dm rs :
  (forall d r, P d -> P (final (body d r))) ->
  P dm -> P (final (for_rows body dm rs)).
Proof.
  intros Hb. revert dm. induction rs as [|r rs IH]; intros dm HP; simpl;
    [assumption|].
  pose proof (Hb dm r HP) as H.
  destruct (body dm r) as [d|d e]; simpl in *; [now apply IH | assumption].
Qed.

Lemma for_unique_final (P : DataManager -> Prop) t c body dm :
  (forall d r, P d -> P (final (body d r))) ->
  P dm -> P (final (for_unique t c body dm)).
Proof.
  intros Hb HP. unfold for_unique. destruct (has_column t c); [|assumption].
  now apply for_rows_final.
Qed.

Lemma and_then_final (P : DataManager -> Prop) o k :
  P (final o) -> (forall d, P d -> P (final (k d))) -> P (final (and_then o k)).
Proof. intros Ho Hk. destruct o as [d|d e]; simpl in *; auto. Qed.

Ltac keyed_row :=
  intros d r [Hd [Hb [Hf Hr]]]; unfold item;
  repeat match goal with
         | |- context [row_get ?cols r ?c] =>
             destruct (row_get cols r c);
             [|cbn [final]; unfold keyed; auto]
         end;
  cbn [final]; unfold keyed;
  cbn [departments buildings floors rooms set_departments set_buildings
       set_floors set_rooms set_graph];
  repeat split; try assumption;
  intros k x H; apply dict_set_In_inv in H as [[-> ->]|H]; auto.

Lemma simple_department_row_keyed cols :
  forall d r, keyed d -> keyed (final (simple_department_row cols d r)).
Proof. unfold simple_department_row, row_get_default. keyed_row. Qed.

Lemma simple_building_row_keyed py cols :
  forall d r, keyed d -> keyed (final (simple_building_row py cols d r)).
Proof.
  intros d r [Hd [Hb [Hf Hr]]]. unfold simple_building_row, item.
  destruct (row_get cols r "id"); [|cbn [final]; unfold keyed; auto].
  destruct (row_get cols r "name"); [|cbn [final]; unfold keyed; auto].
  repeat split; try assumption.
  intros k x H. apply dict_set_In_inv in H as [[-> ->]|H]; auto.
Qed.

Lemma simple_floor_row_keyed py cols :
  forall d r, keyed d -> keyed (final (simple_floor_row py cols d r)).
Proof.
  intros d r [Hd [Hb [Hf Hr]]]. unfold simple_floor_row, item.
  destruct (row_get cols r "id"); [|cbn [final]; unfold keyed; auto].
  destruct (row_get cols r "name"); [|cbn [final]; unfold keyed; auto].
  repeat split; try assumption.
  intros k x H. apply dict_set_In_inv in H as [[-> ->]|H]; auto.
Qed.

Lemma simple_room_row_keyed py cols :
  forall d r, keyed d -> keyed (final (simple_room_row py cols d r)).
Proof.
  intros d r [Hd [Hb [Hf Hr]]]. unfold simple_room_row, item.
  destruct (row_get cols r "id"); [|cbn [final]; unfold keyed; auto].
  destruct (row_get cols r "name"); [|cbn [final]; unfold keyed; auto].
  repeat split; try assumption.
  intros k x H. apply dict_set_In_inv in H as [[-> ->]|H]; auto.
Qed.

Lemma standard_department_row_keyed cols :
  forall d r, keyed d -> keyed (final (standard_department_row cols d r)).
Proof. unfold standard_department_row, row_get_default. keyed_row. Qed.

Lemma standard_building_row_keyed cols :
  forall d r, keyed d -> keyed (final (standard_building_row cols d r)).
Proof. unfold standard_building_row, row_get_default. keyed_row. Qed.

Lemma standard_floor_row_keyed cols :
  forall d r, keyed d -> keyed (final (standard_floor_row cols d r)).
Proof. unfold standard_floor_row, row_get_default. keyed_row. Qed.

Lemma standard_room_row_keyed cols :
  forall d r, keyed d -> keyed (final (standard_room_row cols d r)).
Proof. unfold standard_room_row, row_get_default. keyed_row. Qed.

Lemma _process_data_keyed py dm t : keyed (final (_process_data py dm t)).
Proof.
  assert (H0 : keyed (reset dm t)) by (repeat split; intros k x []).
  unfold _process_data. destruct (has_column t "type").
  - unfold _process_simple_format.
    destruct (negb (has_column t "type")); [assumption|].
    destruct (negb (str_accessor_ok (col_values t "type"))); [assumption|].
    apply and_then_final;
      [apply for_rows_final; [apply simple_department_row_keyed | assumption]
      | intros d1 H1].
    apply and_then_final;
      [apply for_rows_final; [apply simple_building_row_keyed | assumption]
      | intros d2 H2].
    apply and_then_final;
      [apply for_rows_final; [apply simple_floor_row_keyed | assumption]
      | intros d3 H3].
    apply for_rows_final; [apply simple_room_row_keyed | assumption].
  - unfold _process_standard_format.
    apply and_then_final;
      [apply for_unique_final; [apply standard_department_row_keyed | assumption]
      | intros d1 H1].
    apply and_then_final;
      [apply for_unique_final; [apply standard_building_row_keyed | assumption]
      | intros d2 H2].
    apply and_then_final;
      [apply for_unique_final; [apply standard_floor_row_keyed | assumption]
      | intros d3 H3].
    apply for_rows_final; [apply standard_room_row_keyed | assumption].
Qed.

(** X6: whatever the table and however the import ends, every entity of the
    four mappings is stored under its own identifier afterwards, provided
    that was so before the call. *)
Theorem import_keeps_entities_keyed
        (py : Builtins) (dm : DataManager) (t : DataFrame) :
  keyed dm -> keyed (final (import_from_csv py dm t)).
Proof.
  intros Hk. unfold import_from_csv.
  pose proof (validate_csv_store dm t) as [Hs _].
  destruct (validate_csv dm t) as [dm0 [valid msg]]. simpl in Hs.
  destruct valid; simpl.
  - pose proof (_process_data_keyed py dm0 t) as H.
    destruct (_process_data py dm0 t); exact H.
  - unfold store in Hs. injection Hs as _ Hd Hb Hf Hr.
    unfold keyed. now rewrite Hd, Hb, Hf, Hr.
Qed.

Lemma import_keeps_entities_keyed_witness :
  keyed (final (import_from_csv sample_py empty_manager campus_table)).
Proof.
  apply (import_keeps_entities_keyed sample_py empty_manager campus_table).
  repeat split; intros k x [].
Defined.

(** ** Rooms of the simple format *)

Lemma simple_rows_keep_rooms py cols :
  (forall d r, rooms (final (simple_department_row cols d r)) = rooms d)
  /\ (forall d r, rooms (final (simple_building_row py cols d r)) = rooms d)
  /\ (forall d r, rooms (final (simple_floor_row py cols d r)) = rooms d).
Proof.
  repeat split; intros d r;
    unfold simple_department_row, simple_building_row, simple_floor_row, item;
    destruct (row_get cols r "id"); try reflexivity;
    destruct (row_get cols r "name"); reflexivity.
Qed.

Lemma simple_room_row_default py cols d r :
  (forall k m, In (k, m) (rooms d) -> default_room m) ->
  forall k m, In (k, m) (rooms (final (simple_room_row py cols d r))) ->
              default_room m.
Proof.
  intros H k m. unfold simple_room_row, item.
  destruct (row_get cols r "id"); [|apply H].
  destruct (row_get cols r "name"); [|apply H].
  cbn [final rooms set_rooms set_graph].
  intros Hin. apply dict_set_In_inv in Hin as [[-> ->]|Hin]; [|now apply (H k)].
  repeat split.
Qed.

(** X7: after a successful import of a table with a [type] column every room
    of the store has type [generic], capacity 40 and empty facilities and
    accessibility, whatever the table says. *)
Theorem simple_import_gives_rooms_defaults
        (py : Builtins) (dm : DataManager) (t : DataFrame) (dm' : DataManager) :
  has_column t "type" = true ->
  import_from_csv py dm t = Done dm' ->
  forall m, In m (get_rooms dm' None) -> default_room m.
Proof.
  intros Hty Himp m Hin.
  rewrite (import_done_simple py dm t dm' Hty Himp) in Hin.
  destruct (simple_rows_keep_rooms py (columns t)) as [Hd [Hb Hf]].
  set (dm0 := reset (fst (validate_csv dm t)) t) in *.
  assert (H0 : rooms (after_floors py dm0 t) = []).
  { unfold after_floors. rewrite (run_keeps_mapping _ rooms) by apply Hf.
    unfold after_buildings. rewrite (run_keeps_mapping _ rooms) by apply Hb.
    unfold after_departments. now rewrite (run_keeps_mapping _ rooms) by apply Hd. }
  assert (H : forall k m', In (k, m') (rooms (after_rooms py dm0 t)) ->
                           default_room m').
  { unfold after_rooms.
    apply (run_invariant (fun d => forall k m', In (k, m') (rooms d) ->
                                                default_room m')).
    - intros d r _. apply simple_room_row_default.
    - rewrite H0. intros k m' []. }
  unfold get_rooms, dict_values in Hin.
  apply in_map_iff in Hin as [[k m'] [E Hin]]. simpl in E. subst m'.
  now apply (H k).
Qed.

Lemma simple_import_gives_rooms_defaults_witness :
  default_room
    (mkRoom (Str "R1") (Str "F1") (Str "Lab A") (Str "generic") NaN (VInt 40)
            (VInt 52) (VInt 55) (Str "") (Str "")).
Proof.
  apply (simple_import_gives_rooms_defaults sample_py empty_manager campus_table
           (final (import_from_csv sample_py empty_manager campus_table))
           eq_refl eq_refl).
  vm_compute. left. reflexivity.
Defined.

(** ** One entity per row, in the order of the table *)

Lemma dict_set_fresh {V} (k : cell) (v : V) d :
  ~ In k (dict_keys d) -> dict_set k v d = (d ++ [(k, v)])%list.
Proof.
  unfold dict_keys. induction d as [|[k0 v0] d IH]; simpl; [reflexivity|].
  intros H. destruct (cell_eqb_spec k0 k) as [->|Hn].
  - exfalso. apply H. now left.
  - f_equal. apply IH. intros Hin. apply H. now right.
Qed.

Section FreshLoops.
Context {V : Type}.
Variable body : DataManager -> list cell -> outcome.
Variable mapping : DataManager -> list (cell * V).
Variable key : list cell -> cell.
Variable entity : list cell -> V.
Hypothesis Hset :
  forall dm r, mapping (final (body dm r)) = dict_set (key r) (entity r) (mapping dm).

(** Rows with distinct keys fill an empty mapping with one entry each, in
    their order. *)
Lemma run_fills_mapping rs dm :
  NoDup (map key rs) ->
  (forall r, In r rs -> ~ In (key r) (dict_keys (mapping dm))) ->
  mapping (run body dm rs)
  = (mapping dm ++ map (fun r => (key r, entity r)) rs)%list.
Proof.
  revert dm. induction rs as [|r rs IH]; intros dm Hnd Hfresh.
  - simpl. now rewrite app_nil_r.
  - change (run body dm (r :: rs)) with (run body (final (body dm r)) rs).
    simpl in Hnd. inversion Hnd as [|? ? Hr Hrs]; subst.
    assert (E : mapping (final (body dm r))
                = (mapping dm ++ [(key r, entity r)])%list).
    { rewrite Hset. apply dict_set_fresh. apply Hfresh. now left. }
    rewrite IH; [|assumption|].
    + rewrite E, <- app_assoc. reflexivity.
    + intros r' Hr'. rewrite E. unfold dict_keys. rewrite map_app, in_app_iff.
      simpl. intros [H|[H|[]]].
      * apply (Hfresh r'); [now right | exact H].
      * apply Hr. rewrite H. now apply in_map.
Qed.

End FreshLoops.

Lemma simple_rows_keep_mappings py cols :
  (forall d r, buildings (final (simple_department_row cols d r)) = buildings d
               /\ floors (final (simple_department_row cols d r)) = floors d)
  /\ (forall d r, departments (final (simple_building_row py cols d r))
                  = departments d
                  /\ floors (final (simple_building_row py cols d r)) = floors d)
  /\ (forall d r, departments (final (simple_floor_row py cols d r))
                  = departments d
                  /\ buildings (final (simple_floor_row py cols d r)) = buildings d)
  /\ (forall d r, departments (final (simple_room_row py cols d r))
                  = departments d
                  /\ buildings (final (simple_room_row py cols d r)) = buildings d
                  /\ floors (final (simple_room_row py cols d r)) = floors d).
Proof.
  repeat split; intros;
    unfold simple_department_row, simple_building_row, simple_floor_row,
      simple_room_row, item;
    destruct (row_get cols r "id"); try reflexivity;
    destruct (row_get cols r "name"); reflexivity.
Qed.

Lemma simple_listings
      (py : Builtins) (dm : DataManager) (t : DataFrame) (dm' : DataManager) :
  all_columns_in simple_format_columns t = true ->
  has_dup (col_values t "id") = false ->
  import_from_csv py dm t = Done dm' ->
  let cols := columns t in
  get_departments dm'
  = map (department_of_row cols) (rows_of_type t "department")
  /\ get_buildings dm' None
     = map (building_of_row py cols) (rows_of_type t "building")
  /\ get_floors dm' None = map (floor_of_row py cols) (rows_of_type t "floor")
  /\ get_rooms dm' None = map (room_of_row py cols) (rows_of_type t "room").
Proof.
  intros Hs Hd Himp cols.
  destruct (simple_columns_present t Hs) as [Hty [Hid Hname]].
  rewrite (import_done_simple py dm t dm' Hty Himp).
  set (dm0 := reset (fst (validate_csv dm t)) t).
  destruct (simple_rows_keep_mappings py cols) as [Kd [Kb [Kf Kr]]].
  destruct (simple_rows_keep_rooms py cols) as [Rd [Rb Rf]].
  unfold get_departments, get_buildings, get_floors, get_rooms, dict_values.
  assert (Ed : departments (after_departments dm0 t)
               = map (fun r => (row_id cols r, department_of_row cols r))
                     (rows_of_type t "department")).
  { unfold after_departments.
    rewrite (run_fills_mapping _ departments (row_id cols) (department_of_row cols)).
    - reflexivity.
    - intros; now apply simple_department_row_maps.
    - now apply rows_of_type_ids_distinct.
    - intros r _ []. }
  assert (Eb : buildings (after_buildings py dm0 t)
               = map (fun r => (row_id cols r, building_of_row py cols r))
                     (rows_of_type t "building")).
  { unfold after_buildings.
    rewrite (run_fills_mapping _ buildings (row_id cols) (building_of_row py cols)).
    - unfold after_departments.
      rewrite (run_keeps_mapping _ buildings) by (intros; apply Kd). reflexivity.
    - intros; now apply simple_building_row_maps.
    - now apply rows_of_type_ids_distinct.
    - unfold after_departments.
      rewrite (run_keeps_mapping _ buildings) by (intros; apply Kd).
      intros r _ []. }
  assert (Ef : floors (after_floors py dm0 t)
               = map (fun r => (row_id cols r, floor_of_row py cols r))
                     (rows_of_type t "floor")).
  { unfold after_floors.
    assert (E0 : floors (after_buildings py dm0 t) = []).
    { unfold after_buildings.
      rewrite (run_keeps_mapping _ floors) by (intros; apply Kb).
      unfold after_departments.
      now rewrite (run_keeps_mapping _ floors) by (intros; apply Kd). }
    rewrite (run_fills_mapping _ floors (row_id cols) (floor_of_row py cols)).
    - now rewrite E0.
    - intros; now apply simple_floor_row_maps.
    - now apply rows_of_type_ids_distinct.
    - rewrite E0. intros r _ []. }
  assert (Er : rooms (after_rooms py dm0 t)
               = map (fun r => (row_id cols r, room_of_row py cols r))
                     (rows_of_type t "room")).
  { unfold after_rooms.
    assert (E0 : rooms (after_floors py dm0 t) = []).
    { unfold after_floors. rewrite (run_keeps_mapping _ rooms) by apply Rf.
      unfold after_buildings. rewrite (run_keeps_mapping _ rooms) by apply Rb.
      unfold after_departments.
      now rewrite (run_keeps_mapping _ rooms) by apply Rd. }
    rewrite (run_fills_mapping _ rooms (row_id cols) (room_of_row py cols)).
    - now rewrite E0.
    - intros; now apply simple_room_row_maps.
    - now apply rows_of_type_ids_distinct.
    - rewrite E0. intros r _ []. }
  repeat split.
  - unfold after_rooms.
    rewrite (run_keeps_mapping _ departments) by (intros; apply Kr).
    unfold after_floors.
    rewrite (run_keeps_mapping _ departments) by (intros; apply Kf).
    unfold after_buildings.
    rewrite (run_keeps_mapping _ departments) by (intros; apply Kb).
    rewrite Ed, map_map. reflexivity.
  - rewrite (after_rooms_buildings py t Hid Hname), Eb, map_map. reflexivity.
  - rewrite (after_rooms_floors py t Hid Hname), Ef, map_map. reflexivity.
  - rewrite Er, map_map. reflexivity.
Qed.



(** ** The shape of the graph *)

Lemma department_predecessors py t dm0 r :
  existsb (String.eqb "id") (columns t) = true ->
  existsb (String.eqb "name") (columns t) = true ->
  has_dup (map printed (col_values t "id")) = false ->
  (forall w, predecessors (graph dm0) w = []) ->
  In r (rows_of_type t "department") ->
  predecessors (graph (after_rooms py dm0 t)) (dept_node (row_id (columns t) r))
  = ["root"].
Proof.
  intros Hid Hname Hp Hfresh Hin.
  destruct (run_predecessors_at _ _ _
              (simple_department_row_edge (columns t) Hid Hname)
              (fun _ => True) (rows_of_type t "department") (fun _ _ _ _ => I)
              (rows_of_type_nodes_distinct t "department" "dept_" Hp)
              dm0 r I Hin (Hfresh _)) as [dm_r [_ Hpre]].
  unfold after_rooms.
  rewrite (run_predecessors_other _ _ _
             (simple_room_row_edge py (columns t) Hid Hname)) by (intros; kinds).
  unfold after_floors.
  rewrite (run_predecessors_other _ _ _
             (simple_floor_row_edge py (columns t) Hid Hname)) by (intros; kinds).
  unfold after_buildings.
  rewrite (run_predecessors_other _ _ _
             (simple_building_row_edge py (columns t) Hid Hname))
    by (intros; kinds).
  exact Hpre.
Qed.

Lemma root_has_no_predecessor py t dm0 :
  existsb (String.eqb "id") (columns t) = true ->
  existsb (String.eqb "name") (columns t) = true ->
  (forall w, predecessors (graph dm0) w = []) ->
  predecessors (graph (after_rooms py dm0 t)) "root" = [].
Proof.
  intros Hid Hname Hfresh. unfold after_rooms.
  rewrite (run_predecessors_other _ _ _
             (simple_room_row_edge py (columns t) Hid Hname)) by (intros; kinds).
  apply after_floors_predecessors; try assumption; intros; kinds.
Qed.

(** X9: after a successful import of a table with every simple column whose
    identifiers print differently, the graph is a tree below [root]: the root
    has no incoming edge, every department hangs from the root, and the node of
    every building, floor and room row has exactly one incoming edge, which
    comes from a node of a level above it or from the root. *)
Theorem simple_import_builds_a_tree
        (py : Builtins) (dm : DataManager) (t : DataFrame) (dm' : DataManager) :
  all_columns_in simple_format_columns t = true ->
  has_dup (map printed (col_values t "id")) = false ->
  import_from_csv py dm t = Done dm' ->
  let cols := columns t in
  predecessors (graph dm') "root" = []
  /\ forall r,
       (In r (rows_of_type t "department") ->
        predecessors (graph dm') (dept_node (row_id cols r)) = ["root"])
       /\ (In r (rows_of_type t "building") ->
           exists p, predecessors (graph dm') (building_node (row_id cols r)) = [p]
                     /\ (p = "root" \/ exists x, p = dept_node x))
       /\ (In r (rows_of_type t "floor") ->
           exists p, predecessors (graph dm') (floor_node (row_id cols r)) = [p]
                     /\ (p = "root" \/ exists x, p = building_node x))
       /\ (In r (rows_of_type t "room") ->
           exists p, predecessors (graph dm') (room_node (row_id cols r)) = [p]
                     /\ (p = "root" \/ (exists x, p = building_node x)
                         \/ exists x, p = floor_node x)).
Proof.
  intros Hs Hp Himp cols.
  destruct (simple_columns_present t Hs) as [Hty [Hid Hname]].
  rewrite (import_done_simple py dm t dm' Hty Himp).
  set (dm0 := reset (fst (validate_csv dm t)) t).
  assert (Hfresh : forall w, predecessors (graph dm0) w = [])
    by (intros; reflexivity).
  split; [now apply root_has_no_predecessor|].
  intros r. split; [|split; [|split]]; intros Hin.
  - now apply department_predecessors.
  - destruct (building_predecessors py t dm0 Hid Hname Hp Hfresh
                (fun _ => True) r (fun _ _ _ _ => I) I Hin) as [d [_ H]].
    eexists. split; [exact H|]. unfold building_parent.
    destruct (truthy _ && has_node _ _); [right; eauto | now left].
  - destruct (floor_predecessors py t dm0 Hid Hname Hp Hfresh
                (fun _ => True) r (fun _ _ _ _ => I) I Hin) as [d [_ H]].
    eexists. split; [exact H|]. unfold floor_parent.
    destruct (truthy _ && has_node _ _); [right; eauto|].
    destruct (dict_keys (buildings d)); [now left | right; eauto].
  - destruct (room_predecessors py t dm0 Hid Hname Hp Hfresh
                (fun _ => True) r (fun _ _ _ _ => I) I Hin) as [d [_ H]].
    eexists. split; [exact H|]. unfold room_parent.
    destruct (truthy _ && has_node _ _); [right; right; eauto|].
    destruct (dict_keys (floors d)); [|right; right; eauto].
    destruct (dict_keys (buildings d)); [now left | right; left; eauto].
Qed.

Lemma simple_import_builds_a_tree_witness :
  predecessors
    (graph (final (import_from_csv sample_py empty_manager campus_table)))
    "dept_D1" = ["root"].
Proof.
  destruct (simple_import_builds_a_tree sample_py empty_manager campus_table
              (final (import_from_csv sample_py empty_manager campus_table))
              eq_refl eq_refl eq_refl) as [_ H].
  destruct (H [Str "department"; Str "D1"; Str "CS"; NaN; NaN; NaN; NaN])
    as [Hd _].
  exact (Hd (or_introl eq_refl)).
Defined.

(** ** Listings and parents after a standard import *)

Lemma dict_get_of_rows {V} (key : list cell -> cell) (entity : list cell -> V)
      (rs : list (list cell)) (r : list cell) :
  NoDup (map key rs) -> In r rs ->
  dict_get (key r) (map (fun x => (key x, entity x)) rs) = Some (entity r).
Proof.
  induction rs as [|x rs IH]; intros Hnd Hin; [destruct Hin|].
  simpl in *. inversion Hnd as [|? ? Hx Hrs]; subst.
  destruct Hin as [->|Hin].
  - now rewrite cell_eqb_refl.
  - destruct (cell_eqb_spec (key x) (key r)) as [E|_]; [|auto].
    exfalso. apply Hx. rewrite E. now apply in_map.
Qed.

Lemma py_eq_text (c : cell) (s : string) : py_eq c (Str s) = true <-> c = Str s.
Proof.
  destruct c as [|u]; simpl; [split; discriminate|].
  rewrite String.eqb_eq. split; congruence.
Qed.

(** Among rows with distinct keys, the rows whose key is the text [s] are
    the row [r] alone. *)
Lemma filter_the_row {V} (key : list cell -> cell) (entity : list cell -> V)
      (field : V -> cell) (rs : list (list cell)) (r : list cell) (s : string) :
  (forall x, field (entity x) = key x) ->
  NoDup (map key rs) -> In r rs -> key r = Str s ->
  filter (fun e => py_eq (field e) (Str s)) (map entity rs) = [entity r].
Proof.
  intros Hf. induction rs as [|x rs IH]; intros Hnd Hin Hk; [destruct Hin|].
  simpl in *. inversion Hnd as [|? ? Hx Hrs]; subst.
  assert (Hnone : forall l, ~ In (Str s) (map key l) ->
                            filter (fun e => py_eq (field e) (Str s))
                                   (map entity l) = []).
  { induction l as [|y l IHl]; simpl; [reflexivity|]. intros Hn.
    destruct (py_eq (field (entity y)) (Str s)) eqn:E.
    - apply py_eq_text in E. rewrite Hf in E. exfalso. apply Hn. now left.
    - apply IHl. intros H. apply Hn. now right. }
  destruct Hin as [->|Hin].
  - rewrite Hf, Hk. simpl. rewrite String.eqb_refl. f_equal.
    apply Hnone. now rewrite <- Hk.
  - destruct (py_eq (field (entity x)) (Str s)) eqn:E.
    + apply py_eq_text in E. rewrite Hf in E. exfalso. apply Hx.
      rewrite E, <- Hk. now apply in_map.
    + now apply IH.
Qed.

Lemma standard_rows_departments cols :
  (forall c, In c standard_columns -> existsb (String.eqb c) cols = true) ->
  (forall d r, departments (final (standard_department_row cols d r))
               = dict_set (std_department_id cols r)
                          (std_department_of_row cols r) (departments d))
  /\ (forall d r, departments (final (standard_building_row cols d r))
                  = departments d)
  /\ (forall d r, departments (final (standard_floor_row cols d r))
                  = departments d)
  /\ (forall d r, departments (final (standard_room_row cols d r))
                  = departments d).
Proof.
  intros Hcols.
  assert (Hget : forall r c, In c standard_columns ->
                             row_get cols r c = Some (row_get_default cols r c))
    by (intros r c Hc; apply row_get_some; now apply Hcols).
  repeat split; intros d r;
    unfold standard_department_row, standard_building_row, standard_floor_row,
      standard_room_row, item;
    rewrite ?Hget by (simpl; tauto); reflexivity.
Qed.

Section StandardStore.
Variable t : DataFrame.
Variable dm0 : DataManager.
Hypothesis Hstd : all_columns_in standard_columns t = true.
Hypothesis Hids :
  forall c, In c standard_id_columns -> has_dup (col_values t c) = false.
Hypothesis Hempty :
  departments dm0 = [] /\ buildings dm0 = [] /\ floors dm0 = [] /\ rooms dm0 = [].

Local Abbreviation cols := (columns t).

Lemma standard_columns_here c :
  In c standard_columns -> existsb (String.eqb c) cols = true.
Proof. now apply all_columns_in_In. Qed.

Lemma column_distinct c :
  In c standard_id_columns ->
  NoDup (map (fun r => row_get_default cols r c) (rows t)).
Proof. intros Hc. apply has_dup_NoDup. now apply Hids. Qed.

(** The four mappings after the loops: one entry per row, in row order. *)
Lemma std_mappings :
  departments (std_after_rooms dm0 t)
  = map (fun r => (std_department_id cols r, std_department_of_row cols r)) (rows t)
  /\ buildings (std_after_rooms dm0 t)
     = map (fun r => (std_building_id cols r, std_building_of_row cols r)) (rows t)
  /\ floors (std_after_rooms dm0 t)
     = map (fun r => (std_floor_id cols r, std_floor_of_row cols r)) (rows t)
  /\ rooms (std_after_rooms dm0 t)
     = map (fun r => (std_room_id cols r, std_room_of_row cols r)) (rows t).
Proof.
  destruct Hempty as [Ed [Eb [Ef Er]]].
  destruct (standard_rows_departments cols standard_columns_here)
    as [Dd [Db [Df Dr]]].
  pose proof (standard_department_row_maps cols standard_columns_here) as Md.
  pose proof (standard_building_row_maps cols standard_columns_here) as Mb.
  pose proof (standard_floor_row_maps cols standard_columns_here) as Mf.
  pose proof (standard_room_row_maps cols standard_columns_here) as Mr.
  unfold std_after_rooms, std_after_floors, std_after_buildings,
    std_after_departments.
  rewrite !drop_duplicates_all by (apply Hids; simpl; tauto).
  split; [|split; [|split]].
  - rewrite (run_keeps_mapping _ departments) by apply Dr.
    rewrite (run_keeps_mapping _ departments) by apply Df.
    rewrite (run_keeps_mapping _ departments) by apply Db.
    rewrite (run_fills_mapping _ departments (std_department_id cols)
               (std_department_of_row cols)).
    + now rewrite Ed.
    + apply Dd.
    + apply column_distinct. simpl. tauto.
    + rewrite Ed. intros r _ [].
  - rewrite (run_keeps_mapping _ buildings) by (intros; apply Mr).
    rewrite (run_keeps_mapping _ buildings) by (intros; apply Mf).
    assert (E0 : buildings (run (standard_department_row cols) dm0 (rows t)) = []).
    { rewrite (run_keeps_mapping _ buildings) by (intros; apply Md). exact Eb. }
    rewrite (run_fills_mapping _ buildings (std_building_id cols)
               (std_building_of_row cols)).
    + now rewrite E0.
    + intros; apply Mb.
    + apply column_distinct. simpl. tauto.
    + rewrite E0. intros r _ [].
  - rewrite (run_keeps_mapping _ floors) by (intros; apply Mr).
    assert (E0 : floors (run (standard_building_row cols)
                           (run (standard_department_row cols) dm0 (rows t))
                           (rows t)) = []).
    { rewrite (run_keeps_mapping _ floors) by (intros; apply Mb).
      rewrite (run_keeps_mapping _ floors) by (intros; apply Md). exact Ef. }
    rewrite (run_fills_mapping _ floors (std_floor_id cols)
               (std_floor_of_row cols)).
    + now rewrite E0.
    + intros; apply Mf.
    + apply column_distinct. simpl. tauto.
    + rewrite E0. intros r _ [].
  - assert (E0 : rooms (run (standard_floor_row cols)
                          (run (standard_building_row cols)
                             (run (standard_department_row cols) dm0 (rows t))
                             (rows t)) (rows t)) = []).
    { rewrite (run_keeps_mapping _ rooms) by (intros; apply Mf).
      rewrite (run_keeps_mapping _ rooms) by (intros; apply Mb).
      rewrite (run_keeps_mapping _ rooms) by (intros; apply Md). exact Er. }
    rewrite (run_fills_mapping _ rooms (std_room_id cols) (std_room_of_row cols)).
    + now rewrite E0.
    + intros; apply Mr.
    + apply column_distinct. simpl. tauto.
    + rewrite E0. intros r _ [].
Qed.

End StandardStore.

(** What a successful import of a table without a [type] column leaves. *)
Lemma standard_import_mappings py dm t dm' :
  has_column t "type" = false ->
  import_from_csv py dm t = Done dm' ->
  let cols := columns t in
  (forall c, In c standard_id_columns ->
             NoDup (map (fun r => row_get_default cols r c) (rows t)))
  /\ departments dm'
     = map (fun r => (std_department_id cols r, std_department_of_row cols r))
           (rows t)
  /\ buildings dm'
     = map (fun r => (std_building_id cols r, std_building_of_row cols r)) (rows t)
  /\ floors dm'
     = map (fun r => (std_floor_id cols r, std_floor_of_row cols r)) (rows t)
  /\ rooms dm'
     = map (fun r => (std_room_id cols r, std_room_of_row cols r)) (rows t).
Proof.
  intros Hty Himp cols.
  pose proof (import_done py dm t dm' Himp) as [Hv _].
  destruct (import_done_standard py dm t dm' Hty Himp) as [Hstd ->].
  apply validate_csv_accepted in Hv as [[_ Hids]|[H _]]; [|congruence].
  split.
  - intros c Hc. apply has_dup_NoDup. now apply Hids.
  - apply std_mappings; try assumption. repeat split.
Qed.

(** X10: after a successful import of a table without a [type] column the
    listings hold one department, one building, one floor and one room per
    row, in row order. *)
Theorem standard_import_lists_rows_in_order
        (py : Builtins) (dm : DataManager) (t : DataFrame) (dm' : DataManager) :
  has_column t "type" = false ->
  import_from_csv py dm t = Done dm' ->
  let cols := columns t in
  get_departments dm' = map (std_department_of_row cols) (rows t)
  /\ get_buildings dm' None = map (std_building_of_row cols) (rows t)
  /\ get_floors dm' None = map (std_floor_of_row cols) (rows t)
  /\ get_rooms dm' None = map (std_room_of_row cols) (rows t).
Proof.
  intros Hty Himp cols.
  destruct (standard_import_mappings py dm t dm' Hty Himp)
    as [_ [Ed [Eb [Ef Er]]]].
  unfold get_departments, get_buildings, get_floors, get_rooms, dict_values.
  rewrite Ed, Eb, Ef, Er, !map_map. repeat split.
Qed.

Lemma standard_import_lists_rows_in_order_witness :
  map room_id
      (get_rooms (final (import_from_csv sample_py empty_manager one_room_table))
                 None)
  = [Str "R1"].
Proof.
  destruct (standard_import_lists_rows_in_order sample_py empty_manager
              one_room_table
              (final (import_from_csv sample_py empty_manager one_room_table))
              eq_refl eq_refl) as [_ [_ [_ Hr]]].
  rewrite Hr. reflexivity.
Defined.

(** X11: after a successful import of a table without a [type] column,
    [get_parent] climbs the hierarchy of a row whose four identifiers are
    present: the parent of the row's room is the floor of that row, the
    parent of its floor is its building and the parent of its building is
    its department. *)
Theorem standard_import_parents
        (py : Builtins) (dm : DataManager) (t : DataFrame) (dm' : DataManager) :
  has_column t "type" = false ->
  import_from_csv py dm t = Done dm' ->
  forall r, In r (rows t) ->
    let cols := columns t in
    is_text (std_department_id cols r) = true ->
    is_text (std_building_id cols r) = true ->
    is_text (std_floor_id cols r) = true ->
    is_text (std_room_id cols r) = true ->
    get_parent dm' "room" (std_room_id cols r)
    = Some (AFloor (std_floor_of_row cols r))
    /\ get_parent dm' "floor" (std_floor_id cols r)
       = Some (ABuilding (std_building_of_row cols r))
    /\ get_parent dm' "building" (std_building_id cols r)
       = Some (ADepartment (std_department_of_row cols r)).
Proof.
  intros Hty Himp r Hin cols _ _ _ _.
  destruct (standard_import_mappings py dm t dm' Hty Himp)
    as [Hnd [Ed [Eb [Ef Er]]]].
  assert (Gd : dict_get (std_department_id cols r) (departments dm')
               = Some (std_department_of_row cols r)).
  { rewrite Ed. apply dict_get_of_rows; [|assumption]. apply Hnd. simpl. tauto. }
  assert (Gb : dict_get (std_building_id cols r) (buildings dm')
               = Some (std_building_of_row cols r)).
  { rewrite Eb. apply dict_get_of_rows; [|assumption]. apply Hnd. simpl. tauto. }
  assert (Gf : dict_get (std_floor_id cols r) (floors dm')
               = Some (std_floor_of_row cols r)).
  { rewrite Ef. apply dict_get_of_rows; [|assumption]. apply Hnd. simpl. tauto. }
  assert (Gr : dict_get (std_room_id cols r) (rooms dm')
               = Some (std_room_of_row cols r)).
  { rewrite Er. apply dict_get_of_rows; [|assumption]. apply Hnd. simpl. tauto. }
  unfold get_parent.
  replace (String.eqb "room" "building") with false by reflexivity.
  replace (String.eqb "room" "floor") with false by reflexivity.
  replace (String.eqb "room" "room") with true by reflexivity.
  replace (String.eqb "floor" "building") with false by reflexivity.
  replace (String.eqb "floor" "floor") with true by reflexivity.
  replace (String.eqb "building" "building") with true by reflexivity.
  rewrite Gr, Gf, Gb. cbn [room_floor_id floor_building_id
                              building_department_id std_room_of_row
                              std_floor_of_row std_building_of_row].
  rewrite Gf, Gb, Gd. repeat split.
Qed.

Lemma standard_import_parents_witness :
  get_parent (final (import_from_csv sample_py empty_manager one_room_table))
             "room" (Str "R1")
  = Some (AFloor (mkFloor (Str "F1") (Str "B1") (Str "Floor 1") (Str "")
                          None None)).
Proof.
  destruct (standard_import_parents sample_py empty_manager one_room_table
              (final (import_from_csv sample_py empty_manager one_room_table))
              eq_refl eq_refl
              [Str "D1"; Str "CS"; Str "B1"; Str "Hall"; Str "F1"; Str "Floor 1";
               Str "R1"; Str "Lab A"; Str "lab"; Str "30"; Str "10"; Str "20"]
              (or_introl eq_refl) eq_refl eq_refl eq_refl eq_refl) as [H _].
  exact H.
Defined.

(** X12: after a successful import of a table without a [type] column, a
    floor whose identifier is a text lists exactly one room, the room of its
    own row: the validator lets no two rows share a floor. *)
Theorem standard_import_one_room_per_floor
        (py : Builtins) (dm : DataManager) (t : DataFrame) (dm' : DataManager) :
  has_column t "type" = false ->
  import_from_csv py dm t = Done dm' ->
  forall r s, In r (rows t) -> std_floor_id (columns t) r = Str s ->
    get_rooms dm' (Some (Str s)) = [std_room_of_row (columns t) r].
Proof.
  intros Hty Himp r s Hin Hs.
  destruct (standard_import_mappings py dm t dm' Hty Himp)
    as [Hnd [_ [_ [_ Er]]]].
  unfold get_rooms, dict_values. rewrite Er, map_map. simpl.
  apply (filter_the_row (std_floor_id (columns t)) (std_room_of_row (columns t))
                        room_floor_id); try assumption.
  - intros x. reflexivity.
  - apply Hnd. simpl. tauto.
Qed.

Lemma standard_import_one_room_per_floor_witness :
  map room_id
      (get_rooms (final (import_from_csv sample_py empty_manager one_room_table))
                 (Some (Str "F1")))
  = [Str "R1"].
Proof.
  rewrite (standard_import_one_room_per_floor sample_py empty_manager
             one_room_table
             (final (import_from_csv sample_py empty_manager one_room_table))
             eq_refl eq_refl
             [Str "D1"; Str "CS"; Str "B1"; Str "Hall"; Str "F1"; Str "Floor 1";
              Str "R1"; Str "Lab A"; Str "lab"; Str "30"; Str "10"; Str "20"]
             "F1" (or_introl eq_refl) eq_refl).
  reflexivity.
Defined.

(** ** Children of a parent after a simple import *)

Lemma or_unknown_text s : s <> "" -> or_unknown (Str s) = Str s.
Proof.
  intros Hs. apply or_unknown_truthy. simpl.
  destruct (String.eqb_spec s ""); [contradiction | reflexivity].
Qed.

Lemma or_unknown_word ref : word ref = true -> or_unknown ref = ref.
Proof. intros H. apply or_unknown_truthy. now apply word_truthy. Qed.

(** X13: after a successful import of a table with every simple column and
    no repeated [id], a building, floor or room row whose reference is a word
    is listed among the children of that reference, whether or not such a
    parent was imported; a row whose reference cell is blank is listed among
    the children of no identifier at all. *)
Theorem simple_import_children
        (py : Builtins) (dm : DataManager) (t : DataFrame) (dm' : DataManager) :
  all_columns_in simple_format_columns t = true ->
  has_dup (col_values t "id") = false ->
  import_from_csv py dm t = Done dm' ->
  forall r,
    let cols := columns t in
    (word (row_ref cols r) = true ->
       (In r (rows_of_type t "building") ->
        In (building_of_row py cols r)
           (get_buildings dm' (Some (row_ref cols r))))
       /\ (In r (rows_of_type t "floor") ->
           In (floor_of_row py cols r) (get_floors dm' (Some (row_ref cols r))))
       /\ (In r (rows_of_type t "room") ->
           In (room_of_row py cols r) (get_rooms dm' (Some (row_ref cols r)))))
    /\ (row_ref cols r = NaN ->
        forall parent,
          ~ In (building_of_row py cols r) (get_buildings dm' (Some parent))
          /\ ~ In (floor_of_row py cols r) (get_floors dm' (Some parent))
          /\ ~ In (room_of_row py cols r) (get_rooms dm' (Some parent))).
Proof.
  intros Hs Hd Himp r cols.
  destruct (simple_listings py dm t dm' Hs Hd Himp) as [_ [Eb [Ef Er]]].
  unfold get_buildings, get_floors, get_rooms in *. fold cols in Eb, Ef, Er.
  split.
  - intros Hw. rewrite Eb, Ef, Er.
    pose proof (or_unknown_word _ Hw) as Hu.
    destruct (row_ref cols r) as [|s] eqn:Hr; [discriminate|].
    repeat split; intros Hin; apply filter_In; split;
      try (now apply in_map); simpl; rewrite Hr, Hu;
      simpl; apply String.eqb_refl.
  - intros Hr parent.
    repeat split; intros Hin; apply filter_In in Hin as [_ Hin];
      simpl in Hin; rewrite Hr in Hin; discriminate Hin.
Qed.

Lemma simple_import_children_witness :
  In (floor_of_row sample_py simple_format_columns
        [Str "floor"; Str "F1"; Str "Floor 1"; Str "B9"; NaN; NaN; NaN])
     (get_floors
        (final (import_from_csv sample_py empty_manager dangling_floor_table))
        (Some (Str "B9"))).
Proof.
  destruct (simple_import_children sample_py empty_manager dangling_floor_table
              (final (import_from_csv sample_py empty_manager dangling_floor_table))
              eq_refl eq_refl eq_refl
              [Str "floor"; Str "F1"; Str "Floor 1"; Str "B9"; NaN; NaN; NaN])
    as [H _].
  destruct (H eq_refl) as [_ [Hf _]].
  exact (Hf (or_introl eq_refl)).
Defined.

(** ** Exports *)

(** X14: after a successful import [has_data] tells whether the table had
    a row, and the export with format [auto] is the imported table itself, or,
    when it has no row, the header of the format its columns point to. *)
Theorem auto_export_after_import
        (py : Builtins) (dm : DataManager) (t : DataFrame) (dm' : DataManager) :
  import_from_csv py dm t = Done dm' ->
  has_data dm' = negb (df_empty t)
  /\ export_to_csv dm' "auto"
     = if df_empty t
       then if has_column t "type" then mkDF simple_format_columns []
            else mkDF (standard_columns ++ optional_columns) []
       else t.
Proof.
  intros Himp. pose proof (import_done_df _ _ _ _ Himp) as Hdf.
  unfold has_data, export_to_csv. rewrite Hdf. split; [reflexivity|].
  replace (String.eqb "auto" "simple") with false by reflexivity.
  replace (String.eqb "auto" "auto") with true by reflexivity.
  cbn [orb andb].
  destruct (df_empty t); destruct (has_column t "type"); reflexivity.
Qed.

Lemma auto_export_after_import_witness :
  has_data (final (import_from_csv sample_py empty_manager campus_table)) = true
  /\ export_to_csv (final (import_from_csv sample_py empty_manager campus_table))
                   "auto" = campus_table.
Proof.
  exact (auto_export_after_import sample_py empty_manager campus_table
           (final (import_from_csv sample_py empty_manager campus_table))
           eq_refl).
Defined.

(** X15: after a successful import of a table without a [type] column that
    has a row, the export with format [simple] is a converted table with the
    five columns [type, id, name, building_id, description] and four rows per
    imported row; it lacks [x] and [y], so no manager imports it back. *)
Theorem simple_export_of_standard_import
        (py : Builtins) (dm : DataManager) (t : DataFrame) (dm' : DataManager) :
  has_column t "type" = false ->
  import_from_csv py dm t = Done dm' ->
  rows t <> [] ->
  columns (export_to_csv dm' "simple") = converted_columns
  /\ length (rows (export_to_csv dm' "simple")) = (4 * length (rows t))%nat
  /\ forall py2 dm2,
       succeeded (import_from_csv py2 dm2 (export_to_csv dm' "simple")) = false.
Proof.
  intros Hty Himp Hrows.
  pose proof (import_done_df _ _ _ _ Himp) as Hdf.
  destruct (standard_import_mappings py dm t dm' Hty Himp)
    as [_ [Ed [Eb [Ef Er]]]].
  destruct (import_done_standard py dm t dm' Hty Himp) as [Hstd _].
  assert (Hemp : df_empty t = false).
  { unfold df_empty. unfold all_columns_in in Hstd. simpl in Hstd.
    unfold has_column in Hstd.
    destruct (columns t); [simpl in Hstd; discriminate|].
    destruct (rows t); [contradiction | reflexivity]. }
  assert (Hlen : length (simple_data dm') = (4 * length (rows t))%nat).
  { unfold simple_data. rewrite Ed, Eb, Ef, Er.
    rewrite !length_app, !length_map. lia. }
  assert (E : export_to_csv dm' "simple"
              = mkDF converted_columns (simple_data dm')).
  { unfold export_to_csv. rewrite Hdf, Hemp, Hty.
    replace (String.eqb "simple" "simple") with true by reflexivity.
    cbn [orb]. unfold frame_of_records.
    destruct (simple_data dm') eqn:Es; [|reflexivity].
    simpl in Hlen. destruct (rows t); [contradiction | discriminate]. }
  rewrite E. split; [reflexivity | split; [exact Hlen|]].
  intros py2 dm2. unfold import_from_csv, validate_csv. reflexivity.
Qed.

Lemma simple_export_of_standard_import_witness :
  columns (export_to_csv
             (final (import_from_csv sample_py empty_manager one_room_table))
             "simple") = converted_columns.
Proof.
  destruct (simple_export_of_standard_import sample_py empty_manager
              one_room_table
              (final (import_from_csv sample_py empty_manager one_room_table))
              eq_refl eq_refl ltac:(discriminate)) as [H _].
  exact H.
Defined.

(** ** [search] on a store of texts *)

Lemma matches_query_cell (query : string) (v : cell) :
  query <> "" -> is_text v = true ->
  matches_query (lower query) v = true <-> contains_ignoring_case query v.
Proof.
  intros Hq Hv. destruct v as [|s]; [discriminate|]. now apply matches_query_text.
Qed.



Lemma lower_empty (s : string) : lower s = "" -> s = "".
Proof. destruct s; [reflexivity | discriminate]. Qed.

(** X17: the case of the query does not matter: two queries that differ in
    the case of their letters only get the same results. *)
Theorem search_ignores_query_case (dm : DataManager) (q1 q2 : string) :
  lower q1 = lower q2 -> search dm q1 = search dm q2.
Proof.
  intros H. unfold search.
  destruct (String.eqb_spec q1 "") as [->|H1].
  - symmetry in H. apply lower_empty in H. now subst q2.
  - destruct (String.eqb_spec q2 "") as [->|H2].
    + apply lower_empty in H. contradiction.
    + now rewrite H.
Qed.

Lemma search_ignores_query_case_witness :
  search (final (import_from_csv sample_py empty_manager campus_table)) "LAB"
  = search (final (import_from_csv sample_py empty_manager campus_table)) "lab".
Proof.
  exact (search_ignores_query_case _ "LAB" "lab" eq_refl).
Defined.

(** ** The first row of an ancestor wins *)

Lemma drop_duplicates_from_first seen cols c rs r :
  In r rs -> ~ In (row_get_default cols r c) seen ->
  exists r0,
    find (fun x => cell_eqb (row_get_default cols x c) (row_get_default cols r c)) rs
    = Some r0
    /\ In r0 (drop_duplicates_from seen cols c rs).
Proof.
  revert seen. induction rs as [|x rs IH]; intros seen Hin Hs; [destruct Hin|].
  simpl.
  destruct (cell_eqb_spec (row_get_default cols x c) (row_get_default cols r c))
    as [E|Hn].
  - exists x. split; [reflexivity|].
    destruct (cell_mem (row_get_default cols x c) seen) eqn:Em.
    + apply cell_mem_In in Em. rewrite E in Em. contradiction.
    + now left.
  - destruct Hin as [->|Hin]; [contradiction|].
    destruct (cell_mem (row_get_default cols x c) seen) eqn:Em.
    + now apply IH.
    + destruct (IH (row_get_default cols x c :: seen) Hin) as [r0 [Hf H0]].
      * intros [H|H]; [now apply Hn | contradiction].
      * exists r0. split; [assumption | now right].
Qed.

Lemma drop_duplicates_from_distinct seen cols c rs :
  NoDup (map (fun r => row_get_default cols r c)
             (drop_duplicates_from seen cols c rs))
  /\ forall r, In r (drop_duplicates_from seen cols c rs) ->
               ~ In (row_get_default cols r c) seen.
Proof.
  revert seen. induction rs as [|x rs IH]; intros seen; simpl.
  - split; [constructor | intros r []].
  - destruct (cell_mem (row_get_default cols x c) seen) eqn:Em; [apply IH|].
    destruct (IH (row_get_default cols x c :: seen)) as [Hnd Hout].
    split.
    + simpl. constructor; [|assumption].
      intros Hin. apply in_map_iff in Hin as [y [Ey Hy]].
      apply (Hout y Hy). left. now symmetry.
    + intros r [<-|Hr].
      * intros Hin. apply cell_mem_In in Hin. congruence.
      * intros Hin. apply (Hout r Hr). now right.
Qed.

Lemma find_same_key cols c rs r r0 :
  find (fun x => cell_eqb (row_get_default cols x c) (row_get_default cols r c)) rs
  = Some r0 ->
  row_get_default cols r0 c = row_get_default cols r c.
Proof.
  intros H. apply find_some in H as [_ H]. now apply cell_eqb_eq.
Qed.

(** X18: [_process_standard_format], run on a table with every standard
    column, keeps for each department, building and floor the attributes of
    the first row that carries its identifier: rows that repeat an ancestor
    add nothing to it. *)
Theorem standard_processing_first_row_wins (dm : DataManager) (t : DataFrame) :
  all_columns_in standard_columns t = true ->
  forall r, In r (rows t) ->
    let cols := columns t in
    let dm' := final (_process_standard_format dm t) in
    let first := fun c =>
      find (fun x => cell_eqb (row_get_default cols x c)
                              (row_get_default cols r c)) (rows t) in
    (exists r0, first "department_id" = Some r0
                /\ dict_get (std_department_id cols r) (departments dm')
                   = Some (std_department_of_row cols r0))
    /\ (exists r0, first "building_id" = Some r0
                   /\ dict_get (std_building_id cols r) (buildings dm')
                      = Some (std_building_of_row cols r0))
    /\ (exists r0, first "floor_id" = Some r0
                   /\ dict_get (std_floor_id cols r) (floors dm')
                      = Some (std_floor_of_row cols r0)).
Proof.
  intros Hstd r Hin cols dm' first.
  assert (Hcols : forall c, In c standard_columns ->
                            existsb (String.eqb c) cols = true)
    by (intros c; now apply all_columns_in_In).
  unfold dm'. rewrite (_process_standard_format_runs dm t Hstd). cbn [final].
  destruct (standard_rows_departments cols Hcols) as [Dd [Db [Df Dr]]].
  pose proof (standard_building_row_maps cols Hcols) as Mb.
  pose proof (standard_floor_row_maps cols Hcols) as Mf.
  pose proof (standard_room_row_maps cols Hcols) as Mr.
  unfold std_after_rooms, std_after_floors, std_after_buildings,
    std_after_departments.
  split; [|split].
  - destruct (drop_duplicates_from_first [] cols "department_id" (rows t) r Hin)
      as [r0 [Hf H0]]; [intros []|].
    exists r0. split; [exact Hf|].
    rewrite (run_keeps_mapping _ departments) by apply Dr.
    rewrite (run_keeps_mapping _ departments) by apply Df.
    rewrite (run_keeps_mapping _ departments) by apply Db.
    unfold std_department_id. rewrite <- (find_same_key _ _ _ _ _ Hf).
    apply (run_dict_get _ departments (std_department_id cols)
                        (std_department_of_row cols)); try assumption.
    apply drop_duplicates_from_distinct.
  - destruct (drop_duplicates_from_first [] cols "building_id" (rows t) r Hin)
      as [r0 [Hf H0]]; [intros []|].
    exists r0. split; [exact Hf|].
    rewrite (run_keeps_mapping _ buildings) by (intros; apply Mr).
    rewrite (run_keeps_mapping _ buildings) by (intros; apply Mf).
    unfold std_building_id. rewrite <- (find_same_key _ _ _ _ _ Hf).
    apply (run_dict_get _ buildings (std_building_id cols)
                        (std_building_of_row cols)); try assumption.
    + intros; apply Mb.
    + apply drop_duplicates_from_distinct.
  - destruct (drop_duplicates_from_first [] cols "floor_id" (rows t) r Hin)
      as [r0 [Hf H0]]; [intros []|].
    exists r0. split; [exact Hf|].
    rewrite (run_keeps_mapping _ floors) by (intros; apply Mr).
    unfold std_floor_id. rewrite <- (find_same_key _ _ _ _ _ Hf).
    apply (run_dict_get _ floors (std_floor_id cols)
                        (std_floor_of_row cols)); try assumption.
    + intros; apply Mf.
    + apply drop_duplicates_from_distinct.
Qed.

Lemma standard_processing_first_row_wins_witness :
  dict_keys (departments (final (_process_standard_format
                                   (reset empty_manager two_rooms_table)
                                   two_rooms_table)))
  = [Str "D1"]
  /\ exists r0,
       dict_get (Str "D1")
         (departments (final (_process_standard_format
                                (reset empty_manager two_rooms_table)
                                two_rooms_table)))
       = Some (std_department_of_row standard_columns r0).
Proof.
  split; [reflexivity|].
  destruct (standard_processing_first_row_wins
              (reset empty_manager two_rooms_table) two_rooms_table eq_refl
              [Str "D1"; Str "CS"; Str "B1"; Str "Hall"; Str "F1"; Str "Floor 1";
               Str "R2"; Str "Lab B"; Str "lab"; Str "25"; Str "15"; Str "25"]
              (or_intror (or_introl eq_refl))) as [[r0 [_ H]] _].
  exists r0. exact H.
Defined.

(** ** The values named by a duplicate message *)

Lemma unique_from_spec seen l :
  NoDup (unique_from seen l)
  /\ forall x, In x (unique_from seen l) <-> In x l /\ ~ In x seen.
Proof.
  revert seen. induction l as [|y l IH]; intros seen; simpl.
  - split; [constructor | intros x; tauto].
  - destruct (cell_mem y seen) eqn:E.
    + destruct (IH seen) as [Hnd Hin]. split; [assumption|].
      intros x. rewrite Hin. apply cell_mem_In in E.
      split; [tauto|]. intros [[->|H] Hs]; [contradiction | tauto].
    + destruct (IH (y :: seen)) as [Hnd Hin].
      assert (Hy : ~ In y seen)
        by (intros H; apply cell_mem_In in H; congruence).
      split.
      * constructor; [|assumption]. rewrite Hin. simpl. tauto.
      * intros x. simpl. rewrite Hin. simpl.
        destruct (cell_eqb_spec y x) as [->|Hn]; [tauto|].
        split; [tauto|]. intros [[H|H] Hs]; [contradiction|]. right. tauto.
Qed.

Lemma count_cell_positive x l : In x l <-> (1 <= count_cell x l)%nat.
Proof.
  unfold count_cell. induction l as [|y l IH]; simpl; [split; [tauto | lia]|].
  destruct (cell_eqb_spec x y) as [->|Hn]; simpl.
  - split; [lia | now left].
  - rewrite <- IH. split; [intros [H|H]; [congruence | assumption] | now right].
Qed.

(** X19: a table with every simple column, lacking a standard column, whose
    [id] column repeats a value is refused with a message that names, after
    [Duplicate id values found:], exactly the values occurring at least twice
    in the column, each of them once. *)
Theorem duplicate_id_message_names_repeated_values (dm : DataManager) (t : DataFrame) :
  all_columns_in simple_format_columns t = true ->
  all_columns_in standard_columns t = false ->
  has_dup (col_values t "id") = true ->
  exists named,
    snd (validate_csv dm t)
    = (false, "Duplicate id values found: " ++ join ", " (map py_str named))
    /\ NoDup named
    /\ forall x, In x named <-> (2 <= count_cell x (col_values t "id"))%nat.
Proof.
  intros Hs Hstd Hdup. exists (dupes (col_values t "id")).
  split; [now apply simple_duplicate_id_rejected|].
  unfold dupes, unique.
  destruct (unique_from_spec []
              (filter (fun x => (2 <=? count_cell x (col_values t "id"))%nat)
                      (col_values t "id"))) as [Hnd Hin].
  split; [assumption|]. intros x. rewrite Hin, filter_In, Nat.leb_le.
  split; [tauto|]. intros H. repeat split; try assumption; [|intros []].
  apply count_cell_positive. lia.
Qed.

Lemma duplicate_id_message_names_repeated_values_witness :
  exists named,
    snd (validate_csv empty_manager
           (mkDF simple_format_columns
                 [[Str "floor"; Str "A"; Str "one"; NaN; NaN; NaN; NaN];
                  [Str "room"; Str "B"; Str "two"; NaN; NaN; NaN; NaN];
                  [Str "room"; Str "A"; Str "three"; NaN; NaN; NaN; NaN]]))
    = (false, "Duplicate id values found: " ++ join ", " (map py_str named))
    /\ NoDup named.
Proof.
  destruct (duplicate_id_message_names_repeated_values empty_manager
              (mkDF simple_format_columns
                    [[Str "floor"; Str "A"; Str "one"; NaN; NaN; NaN; NaN];
                     [Str "room"; Str "B"; Str "two"; NaN; NaN; NaN; NaN];
                     [Str "room"; Str "A"; Str "three"; NaN; NaN; NaN; NaN]])
              eq_refl eq_refl eq_refl) as [named [H [Hnd _]]].
  exists named. split; assumption.
Defined.

(** ** Looking entities up after a simple import *)

Lemma dict_get_absent {V} (k : cell) (d : list (cell * V)) :
  ~ In k (dict_keys d) -> dict_get k d = None.
Proof.
  unfold dict_keys. induction d as [|[k0 v0] d IH]; simpl; [reflexivity|].
  intros H. destruct (cell_eqb_spec k0 k) as [->|Hn].
  - exfalso. apply H. now left.
  - apply IH. intros Hin. apply H. now right.
Qed.

Lemma NoDup_map_same {A B} (f : A -> B) (l : list A) (x y : A) :
  NoDup (map f l) -> In x l -> In y l -> f x = f y -> x = y.
Proof.
  induction l as [|a l IH]; intros Hnd Hx Hy E; [destruct Hx|].
  simpl in Hnd. inversion Hnd as [|? ? Ha Hl]; subst.
  destruct Hx as [->|Hx], Hy as [->|Hy]; auto.
  - exfalso. apply Ha. rewrite E. now apply in_map.
  - exfalso. apply Ha. rewrite <- E. now apply in_map.
Qed.

(** A row is of one kind only, and rows with distinct identifiers of
    different kinds have different identifiers. *)
Lemma other_kind_other_id t k1 k2 r :
  has_dup (col_values t "id") = false ->
  k1 <> k2 ->
  In r (rows_of_type t k1) ->
  ~ In (row_id (columns t) r) (map (row_id (columns t)) (rows_of_type t k2)).
Proof.
  intros Hd Hk Hin Hmem. apply in_map_iff in Hmem as [x [E Hx]].
  apply has_dup_NoDup in Hd. rewrite col_values_id in Hd.
  apply rows_of_type_In in Hin as [Hr [s1 [Hs1 Hl1]]].
  apply rows_of_type_In in Hx as [Hxr [s2 [Hs2 Hl2]]].
  assert (x = r) by (apply (NoDup_map_same _ _ _ _ Hd); assumption).
  subst x. rewrite Hs1 in Hs2. injection Hs2 as <-. congruence.
Qed.

(** X20: after a successful import of a table with every simple column and
    no repeated [id], [get_item_details] finds the entity of a floor row
    whose [id] is present, and whose reference is a word or blank, under the
    type [floor] and its identifier, and finds nothing under that identifier
    with the type [department], [building] or [room], nor with any unknown
    type. *)
Theorem simple_import_floor_details
        (py : Builtins) (dm : DataManager) (t : DataFrame) (dm' : DataManager) :
  all_columns_in simple_format_columns t = true ->
  has_dup (col_values t "id") = false ->
  import_from_csv py dm t = Done dm' ->
  forall r, In r (rows_of_type t "floor") ->
    let i := row_id (columns t) r in
    is_text i = true ->
    word_or_blank (row_ref (columns t) r) = true ->
    get_item_details dm' "floor" i = Some (AFloor (floor_of_row py (columns t) r))
    /\ get_item_details dm' "department" i = None
    /\ get_item_details dm' "building" i = None
    /\ get_item_details dm' "room" i = None
    /\ forall kind, ~ In kind ["department"; "building"; "floor"; "room"] ->
                    get_item_details dm' kind i = None.
Proof.
  intros Hs Hd Himp r Hin i _ _.
  destruct (simple_listings py dm t dm' Hs Hd Himp) as [Ed [Eb [Ef Er]]].
  destruct (simple_columns_present t Hs) as [Hty [Hid Hname]].
  assert (Kd : dict_keys (departments dm')
               = map (row_id (columns t)) (rows_of_type t "department")).
  { unfold get_departments, dict_values in Ed.
    pose proof (H := _process_data_keyed py (fst (validate_csv dm t)) t).
    apply import_done in Himp as [_ Hp]. rewrite Hp in H.
    destruct H as [Hk _]. cbn [final] in Hk.
    unfold dict_keys.
    assert (E : map fst (departments dm') = map dept_id (map snd (departments dm'))).
    { rewrite map_map. apply map_ext_in. intros [k d] Hkd. simpl.
      symmetry. now apply Hk. }
    rewrite E, Ed, map_map. reflexivity. }
  assert (Kb : dict_keys (buildings dm')
               = map (row_id (columns t)) (rows_of_type t "building")).
  { unfold get_buildings, dict_values in Eb.
    pose proof (H := _process_data_keyed py (fst (validate_csv dm t)) t).
    apply import_done in Himp as [_ Hp]. rewrite Hp in H.
    destruct H as [_ [Hk _]]. cbn [final] in Hk. unfold dict_keys.
    assert (E : map fst (buildings dm')
                = map building_id (map snd (buildings dm'))).
    { rewrite map_map. apply map_ext_in. intros [k d] Hkd. simpl.
      symmetry. now apply Hk. }
    rewrite E, Eb, map_map. reflexivity. }
  assert (Kr : dict_keys (rooms dm')
               = map (row_id (columns t)) (rows_of_type t "room")).
  { unfold get_rooms, dict_values in Er.
    pose proof (H := _process_data_keyed py (fst (validate_csv dm t)) t).
    apply import_done in Himp as [_ Hp]. rewrite Hp in H.
    destruct H as [_ [_ [_ Hk]]]. cbn [final] in Hk. unfold dict_keys.
    assert (E : map fst (rooms dm') = map room_id (map snd (rooms dm'))).
    { rewrite map_map. apply map_ext_in. intros [k d] Hkd. simpl.
      symmetry. now apply Hk. }
    rewrite E, Er, map_map. reflexivity. }
  assert (Gf : dict_get i (floors dm') = Some (floor_of_row py (columns t) r)).
  { rewrite (import_done_simple py dm t dm' Hty Himp).
    now apply stored_floor. }
  unfold get_item_details.
  replace (String.eqb "floor" "department") with false by reflexivity.
  replace (String.eqb "floor" "building") with false by reflexivity.
  replace (String.eqb "floor" "floor") with true by reflexivity.
  replace (String.eqb "department" "department") with true by reflexivity.
  replace (String.eqb "building" "department") with false by reflexivity.
  replace (String.eqb "building" "building") with true by reflexivity.
  replace (String.eqb "room" "department") with false by reflexivity.
  replace (String.eqb "room" "building") with false by reflexivity.
  replace (String.eqb "room" "floor") with false by reflexivity.
  replace (String.eqb "room" "room") with true by reflexivity.
  rewrite Gf.
  rewrite (dict_get_absent i (departments dm')), (dict_get_absent i (buildings dm')),
    (dict_get_absent i (rooms dm')).
  - repeat split. intros kind Hk. simpl in Hk.
    destruct (String.eqb_spec kind "department");
      [subst; exfalso; apply Hk; auto 6|].
    destruct (String.eqb_spec kind "building");
      [subst; exfalso; apply Hk; auto 6|].
    destruct (String.eqb_spec kind "floor");
      [subst; exfalso; apply Hk; auto 6|].
    destruct (String.eqb_spec kind "room");
      [subst; exfalso; apply Hk; auto 6 | reflexivity].
  - rewrite Kr. apply (other_kind_other_id t "floor" "room"); try assumption.
    discriminate.
  - rewrite Kb. apply (other_kind_other_id t "floor" "building"); try assumption.
    discriminate.
  - rewrite Kd. apply (other_kind_other_id t "floor" "department"); try assumption.
    discriminate.
Qed.

Lemma simple_import_floor_details_witness :
  get_item_details
    (final (import_from_csv sample_py empty_manager campus_table)) "room" (Str "F1")
  = None.
Proof.
  destruct (simple_import_floor_details sample_py empty_manager campus_table
              (final (import_from_csv sample_py empty_manager campus_table))
              eq_refl eq_refl eq_refl
              [Str "floor"; Str "F1"; Str "Floor 1"; Str "B1"; NaN; NaN; NaN]
              (or_introl eq_refl) eq_refl eq_refl) as [_ [_ [_ [H _]]]].
  exact H.
Defined.

(** ** Parents after a simple import *)

Lemma simple_building_keys py dm t dm' :
  all_columns_in simple_format_columns t = true ->
  has_dup (col_values t "id") = false ->
  import_from_csv py dm t = Done dm' ->
  dict_keys (buildings dm')
  = map (row_id (columns t)) (rows_of_type t "building").
Proof.
  intros Hs Hd Himp.
  destruct (simple_listings py dm t dm' Hs Hd Himp) as [_ [Eb _]].
  unfold get_buildings, dict_values in Eb.
  pose proof (H := _process_data_keyed py (fst (validate_csv dm t)) t).
  apply import_done in Himp as [_ Hp]. rewrite Hp in H.
  destruct H as [_ [Hk _]]. cbn [final] in Hk. unfold dict_keys.
  assert (E : map fst (buildings dm') = map building_id (map snd (buildings dm'))).
  { rewrite map_map. apply map_ext_in. intros [k d] Hkd. simpl.
    symmetry. now apply Hk. }
  rewrite E, Eb, map_map. reflexivity.
Qed.

(** X21: after a successful import of a table with every simple column and
    no repeated [id], [get_parent] of a floor row whose [id] is present and
    whose reference is a word is the building row with that identifier when
    there is one (its own reference being a word or blank), and nothing when
    there is none, even though the floor's node then hangs from the first
    building in the graph. *)
Theorem simple_import_floor_parent
        (py : Builtins) (dm : DataManager) (t : DataFrame) (dm' : DataManager) :
  all_columns_in simple_format_columns t = true ->
  has_dup (col_values t "id") = false ->
  import_from_csv py dm t = Done dm' ->
  forall r, In r (rows_of_type t "floor") ->
    let cols := columns t in
    is_text (row_id cols r) = true ->
    word (row_ref cols r) = true ->
    (forall rb, In rb (rows_of_type t "building") ->
                row_id cols rb = row_ref cols r ->
                word_or_blank (row_ref cols rb) = true ->
                get_parent dm' "floor" (row_id cols r)
                = Some (ABuilding (building_of_row py cols rb)))
    /\ ((forall rb, In rb (rows_of_type t "building") ->
                    row_id cols rb <> row_ref cols r) ->
        get_parent dm' "floor" (row_id cols r) = None).
Proof.
  intros Hs Hd Himp r Hin cols _ Hw. subst cols.
  pose proof (word_truthy _ Hw) as Htrue.
  destruct (simple_columns_present t Hs) as [Hty [Hid Hname]].
  pose proof (simple_building_keys py dm t dm' Hs Hd Himp) as Kb.
  assert (Gf : dict_get (row_id (columns t) r) (floors dm')
               = Some (floor_of_row py (columns t) r)).
  { rewrite (import_done_simple py dm t dm' Hty Himp). now apply stored_floor. }
  unfold get_parent.
  replace (String.eqb "floor" "building") with false by reflexivity.
  replace (String.eqb "floor" "floor") with true by reflexivity.
  rewrite Gf. cbn [floor_building_id floor_of_row].
  rewrite (or_unknown_truthy _ Htrue). split.
  - intros rb Hrb E _. rewrite <- E.
    rewrite (import_done_simple py dm t dm' Hty Himp).
    now rewrite stored_building.
  - intros Hnone. rewrite dict_get_absent; [reflexivity|].
    rewrite Kb. intros Hmem. apply in_map_iff in Hmem as [rb [E Hrb]].
    now apply (Hnone rb Hrb).
Qed.

Lemma simple_import_floor_parent_witness :
  get_parent
    (final (import_from_csv sample_py empty_manager dangling_floor_table))
    "floor" (Str "F1")
  = None.
Proof.
  destruct (simple_import_floor_parent sample_py empty_manager
              dangling_floor_table
              (final (import_from_csv sample_py empty_manager dangling_floor_table))
              eq_refl eq_refl eq_refl
              [Str "floor"; Str "F1"; Str "Floor 1"; Str "B9"; NaN; NaN; NaN]
              (or_introl eq_refl) eq_refl eq_refl) as [_ H].
  apply H. intros rb [<-|[<-|[]]]; discriminate.
Defined.
